(** * LlamaTUI: a shallow embedding of [llamatui.py]

    The terminal console of the repository is one Python class, [LlamaTUI],
    whose methods mutate the fields of [self] and talk to the operating
    system (the file system, the child process, the clock, the keyboard).
    The embedding keeps that shape:

    - the fields of [self] are a record, [LlamaTUI], passed explicitly;
    - the configuration dictionary [self.config] and the instance attributes
      that [sync_config_to_attributes] mirrors from it are finite maps from
      attribute names to dynamically typed Python values;
    - every answer of the operating system is a field of an oracle record,
      [Env], so that each method is a function of the state and the oracle;
    - a Python exception that a method lets escape is the [Raise] outcome;
    - the calls of curses (painting the screen, the prompt) are taken not to
      raise, and the text typed at the prompt is a string of code points
      below 256.
*)

From Stdlib Require Import ZArith String Ascii List Lia Bool DecimalString DecimalPos DecimalZ.
From Stdlib.Strings Require Import Byte.
From stdpp Require Import gmap strings list fin_maps sorting.

Local Open Scope Z_scope.

(** ** Python values and exceptions *)

(** The values a settings dictionary holds: [None], [bool], [int], [str]. *)
Inductive value : Type :=
| VNone
| VBool (b : bool)
| VInt (n : Z)
| VStr (s : string).

Global Instance value_eq_dec : EqDecision value.
Proof. solve_decision. Defined.

Inductive exn : Type :=
| TypeError
| ValueError
| IndexError
| AttributeError.

Inductive outcome (A : Type) : Type :=
| Ok (a : A)
| Raise (e : exn).
Arguments Ok {A} a.
Arguments Raise {A} e.

Global Instance outcome_ret : MRet outcome := λ A a, Ok a.
Global Instance outcome_bind : MBind outcome := λ A B f m,
  match m with
  | Ok a => f a
  | Raise e => Raise e
  end.

(** [str(n)] for a Python [int]: the decimal numeral, ["-"] in front of a
    negative one. *)
Definition str_int (n : Z) : string := NilZero.string_of_int (Z.to_int n).

(** [sys.get_int_max_str_digits()]: CPython refuses to convert between [int]
    and [str] in base 10 when more digits than this are involved. The
    program never changes the limit. *)
Definition int_max_str_digits : nat := 4300.

(** Whether [n] has at most [int_max_str_digits] decimal digits, the sign
    not counted. *)
Definition str_fits (n : Z) : bool :=
  (String.length (str_int (Z.abs n)) <=? int_max_str_digits)%nat.

(** [str(v)], and [v] formatted in an f-string with no format
    specification: [ValueError] for an [int] of too many digits. *)
Definition py_str (v : value) : outcome string :=
  match v with
  | VNone => Ok "None"
  | VBool true => Ok "True"
  | VBool false => Ok "False"
  | VInt n => if str_fits n then Ok (str_int n) else Raise ValueError
  | VStr s => Ok s
  end.

(** Truth value of [v] in an [if]. *)
Definition truthy (v : value) : bool :=
  match v with
  | VNone => false
  | VBool b => b
  | VInt n => negb (n =? 0)%Z
  | VStr s => negb (String.eqb s "")
  end.

(** [v == s] for a string literal [s]: only an equal [str] is equal to it. *)
Definition py_eq_str (v : value) (s : string) : bool :=
  match v with
  | VStr t => String.eqb t s
  | _ => false
  end.

(** [v > 0]: defined on [int] and on [bool] (a subclass of [int]); Python 3
    raises [TypeError] when a [str] or [None] is compared with an [int]. *)
Definition py_gt0 (v : value) : outcome bool :=
  match v with
  | VInt n => Ok (0 <? n)%Z
  | VBool b => Ok b
  | _ => Raise TypeError
  end.

(** A path argument ([Path(v)], [os.path.join(v, ...)]) must be a [str]. *)
Definition as_path (v : value) : outcome string :=
  match v with
  | VStr s => Ok s
  | _ => Raise TypeError
  end.

(** [l[i]] on a Python list: a negative index counts from the end, an index
    out of range raises [IndexError]. *)
Definition py_index {A : Type} (l : list A) (i : Z) : outcome A :=
  let n := Z.of_nat (length l) in
  let j := if (i <? 0)%Z then (i + n)%Z else i in
  if (0 <=? j)%Z && (j <? n)%Z then
    match l !! Z.to_nat j with
    | Some x => Ok x
    | None => Raise IndexError
    end
  else Raise IndexError.

(** [s.endswith(suf)] *)
Definition endswith (s suf : string) : bool :=
  let n := String.length s in
  let m := String.length suf in
  (m <=? n)%nat && String.eqb (String.substring (n - m) m s) suf.

(** [os.path.join(a, b)] on POSIX, for two components. *)
Definition os_path_join (a b : string) : string :=
  if String.prefix "/" b then b
  else if String.eqb a "" || endswith a "/" then a +:+ b
  else a +:+ "/" +:+ b.

(** ** Constants of the module *)

Definition DEFAULT_MODELS_DIR : string := "./".
Definition LLAMA_SERVER_BIN : string := "llama-server".
Definition DEFAULT_LLAMA_SERVER_DIR : string := "./".
Definition SETTINGS_FOLDER_NAME : string := ".llama_tui".
Definition SETTINGS_FILE_NAME : string := "config.dat".

(** [self.log_max_lines], assigned once in [__init__] and never again. *)
Definition log_max_lines : nat := 1000.

(** ** The world outside the class *)

(** A [pathlib.Path] as the class uses it: [str(f)] and [f.name]. *)
Record Path : Type := { path_str : string; name : string }.

Global Instance Path_eq_dec : EqDecision Path.
Proof. solve_decision. Defined.

(** An entry of a directory and whether [is_file()] holds of it. *)
Record dirent : Type := { d_path : Path; d_is_file : bool }.

(** The child process handle returned by [subprocess.Popen]. *)
Record Popen : Type := { pid : Z }.

Global Instance Popen_eq_dec : EqDecision Popen.
Proof. solve_decision. Defined.

Inductive spawn_result : Type :=
| Spawned (p : Popen)
| SpawnFileNotFound
| SpawnError (msg : string).

(** What is read back from the settings file: [open] or [pickle.load] raises,
    or an object is unpickled, which is a dictionary or something else. *)
Inductive pyobj : Type :=
| ODict (d : gmap string value)
| OOther.

Inductive file_content : Type :=
| Corrupt
| Pickled (o : pyobj).

(** A line of text: the code points of a Python [str]. Log lines are kept in
    this form because [strip] is defined on code points. *)
Definition text : Type := list Z.

(** The answers of the operating system during one call. *)
Record Env : Type := {
  os_path_exists : string → bool;
  os_path_isfile : string → bool;
  (** [os.path.isdir(v)]; the argument is whatever [input_string] returned,
      and for one that is not a [str] the library decides what happens *)
  os_path_isdir : value → outcome bool;
  os_path_abspath : string → string;
  path_exists : string → bool;
  path_is_dir : string → bool;
  iterdir : string → list dirent;
  resolve : Path → string;
  popen : list value → spawn_result;
  (** [self.log_thread.start()]: [None] when it returns, [Some e] with [e]
      the text of the exception when it raises (the interpreter cannot
      start a new thread) *)
  thread_start : option string;
  (** [os.killpg(...)] then [wait(timeout=5)]: [None] when neither raises,
      [Some e] with [e] the text of the exception otherwise *)
  killpg_wait : option string;
  (** [terminate()] then [wait(timeout=5)]: [true] when neither raises *)
  terminate_wait : bool;
  (** [datetime.datetime.now().strftime("%H:%M")] *)
  now_HM : string;
  (** what the operator typed at the prompt of [input_string], decoded and
      stripped; the empty string when reading it raised *)
  getstr : string;
  (** whether [open(settings_path, 'wb')] and [pickle.dump] go through *)
  can_write : bool;
  (** [psutil.cpu_count(logical=True)] *)
  cpu_count : value;
}.

(** ** The state of a [LlamaTUI] object *)

Record LlamaTUI : Type := {
  running : bool;
  server_process : option Popen;
  running_model_path : option string;
  log_buffer : list text;
  (** the reader thread, named by the process whose stderr it drains *)
  log_thread : option Popen;
  show_log : bool;
  show_nvidia_smi : bool;
  config : gmap string value;
  (** the attributes [model_dir], [backend], ... set from [config] *)
  attrs : gmap string value;
  (** the file at [self.settings_path]; [None] when it does not exist *)
  settings_file : option file_content;
  active_field : Z;
  selected_file_idx : Z;
  file_offset : Z;
  files : list Path;
  msg_log : string;
}.

Definition set_running (x : bool) (s : LlamaTUI) : LlamaTUI :=
  {| running := x; server_process := server_process s;
     running_model_path := running_model_path s; log_buffer := log_buffer s;
     log_thread := log_thread s; show_log := show_log s;
     show_nvidia_smi := show_nvidia_smi s; config := config s;
     attrs := attrs s; settings_file := settings_file s;
     active_field := active_field s; selected_file_idx := selected_file_idx s;
     file_offset := file_offset s; files := files s; msg_log := msg_log s |}.

Definition set_server_process (x : option Popen) (s : LlamaTUI) : LlamaTUI :=
  {| running := running s; server_process := x;
     running_model_path := running_model_path s; log_buffer := log_buffer s;
     log_thread := log_thread s; show_log := show_log s;
     show_nvidia_smi := show_nvidia_smi s; config := config s;
     attrs := attrs s; settings_file := settings_file s;
     active_field := active_field s; selected_file_idx := selected_file_idx s;
     file_offset := file_offset s; files := files s; msg_log := msg_log s |}.

Definition set_running_model_path (x : option string) (s : LlamaTUI) : LlamaTUI :=
  {| running := running s; server_process := server_process s;
     running_model_path := x; log_buffer := log_buffer s;
     log_thread := log_thread s; show_log := show_log s;
     show_nvidia_smi := show_nvidia_smi s; config := config s;
     attrs := attrs s; settings_file := settings_file s;
     active_field := active_field s; selected_file_idx := selected_file_idx s;
     file_offset := file_offset s; files := files s; msg_log := msg_log s |}.

Definition set_log_buffer (x : list text) (s : LlamaTUI) : LlamaTUI :=
  {| running := running s; server_process := server_process s;
     running_model_path := running_model_path s; log_buffer := x;
     log_thread := log_thread s; show_log := show_log s;
     show_nvidia_smi := show_nvidia_smi s; config := config s;
     attrs := attrs s; settings_file := settings_file s;
     active_field := active_field s; selected_file_idx := selected_file_idx s;
     file_offset := file_offset s; files := files s; msg_log := msg_log s |}.

Definition set_log_thread (x : option Popen) (s : LlamaTUI) : LlamaTUI :=
  {| running := running s; server_process := server_process s;
     running_model_path := running_model_path s; log_buffer := log_buffer s;
     log_thread := x; show_log := show_log s;
     show_nvidia_smi := show_nvidia_smi s; config := config s;
     attrs := attrs s; settings_file := settings_file s;
     active_field := active_field s; selected_file_idx := selected_file_idx s;
     file_offset := file_offset s; files := files s; msg_log := msg_log s |}.

Definition set_show_log (x : bool) (s : LlamaTUI) : LlamaTUI :=
  {| running := running s; server_process := server_process s;
     running_model_path := running_model_path s; log_buffer := log_buffer s;
     log_thread := log_thread s; show_log := x;
     show_nvidia_smi := show_nvidia_smi s; config := config s;
     attrs := attrs s; settings_file := settings_file s;
     active_field := active_field s; selected_file_idx := selected_file_idx s;
     file_offset := file_offset s; files := files s; msg_log := msg_log s |}.

Definition set_show_nvidia_smi (x : bool) (s : LlamaTUI) : LlamaTUI :=
  {| running := running s; server_process := server_process s;
     running_model_path := running_model_path s; log_buffer := log_buffer s;
     log_thread := log_thread s; show_log := show_log s;
     show_nvidia_smi := x; config := config s;
     attrs := attrs s; settings_file := settings_file s;
     active_field := active_field s; selected_file_idx := selected_file_idx s;
     file_offset := file_offset s; files := files s; msg_log := msg_log s |}.

Definition set_config (x : gmap string value) (s : LlamaTUI) : LlamaTUI :=
  {| running := running s; server_process := server_process s;
     running_model_path := running_model_path s; log_buffer := log_buffer s;
     log_thread := log_thread s; show_log := show_log s;
     show_nvidia_smi := show_nvidia_smi s; config := x;
     attrs := attrs s; settings_file := settings_file s;
     active_field := active_field s; selected_file_idx := selected_file_idx s;
     file_offset := file_offset s; files := files s; msg_log := msg_log s |}.

Definition set_attrs (x : gmap string value) (s : LlamaTUI) : LlamaTUI :=
  {| running := running s; server_process := server_process s;
     running_model_path := running_model_path s; log_buffer := log_buffer s;
     log_thread := log_thread s; show_log := show_log s;
     show_nvidia_smi := show_nvidia_smi s; config := config s;
     attrs := x; settings_file := settings_file s;
     active_field := active_field s; selected_file_idx := selected_file_idx s;
     file_offset := file_offset s; files := files s; msg_log := msg_log s |}.

Definition set_settings_file (x : option file_content) (s : LlamaTUI) : LlamaTUI :=
  {| running := running s; server_process := server_process s;
     running_model_path := running_model_path s; log_buffer := log_buffer s;
     log_thread := log_thread s; show_log := show_log s;
     show_nvidia_smi := show_nvidia_smi s; config := config s;
     attrs := attrs s; settings_file := x;
     active_field := active_field s; selected_file_idx := selected_file_idx s;
     file_offset := file_offset s; files := files s; msg_log := msg_log s |}.

Definition set_active_field (x : Z) (s : LlamaTUI) : LlamaTUI :=
  {| running := running s; server_process := server_process s;
     running_model_path := running_model_path s; log_buffer := log_buffer s;
     log_thread := log_thread s; show_log := show_log s;
     show_nvidia_smi := show_nvidia_smi s; config := config s;
     attrs := attrs s; settings_file := settings_file s;
     active_field := x; selected_file_idx := selected_file_idx s;
     file_offset := file_offset s; files := files s; msg_log := msg_log s |}.

Definition set_selected_file_idx (x : Z) (s : LlamaTUI) : LlamaTUI :=
  {| running := running s; server_process := server_process s;
     running_model_path := running_model_path s; log_buffer := log_buffer s;
     log_thread := log_thread s; show_log := show_log s;
     show_nvidia_smi := show_nvidia_smi s; config := config s;
     attrs := attrs s; settings_file := settings_file s;
     active_field := active_field s; selected_file_idx := x;
     file_offset := file_offset s; files := files s; msg_log := msg_log s |}.

Definition set_file_offset (x : Z) (s : LlamaTUI) : LlamaTUI :=
  {| running := running s; server_process := server_process s;
     running_model_path := running_model_path s; log_buffer := log_buffer s;
     log_thread := log_thread s; show_log := show_log s;
     show_nvidia_smi := show_nvidia_smi s; config := config s;
     attrs := attrs s; settings_file := settings_file s;
     active_field := active_field s; selected_file_idx := selected_file_idx s;
     file_offset := x; files := files s; msg_log := msg_log s |}.

Definition set_files (x : list Path) (s : LlamaTUI) : LlamaTUI :=
  {| running := running s; server_process := server_process s;
     running_model_path := running_model_path s; log_buffer := log_buffer s;
     log_thread := log_thread s; show_log := show_log s;
     show_nvidia_smi := show_nvidia_smi s; config := config s;
     attrs := attrs s; settings_file := settings_file s;
     active_field := active_field s; selected_file_idx := selected_file_idx s;
     file_offset := file_offset s; files := x; msg_log := msg_log s |}.

Definition set_msg_log (x : string) (s : LlamaTUI) : LlamaTUI :=
  {| running := running s; server_process := server_process s;
     running_model_path := running_model_path s; log_buffer := log_buffer s;
     log_thread := log_thread s; show_log := show_log s;
     show_nvidia_smi := show_nvidia_smi s; config := config s;
     attrs := attrs s; settings_file := settings_file s;
     active_field := active_field s; selected_file_idx := selected_file_idx s;
     file_offset := file_offset s; files := files s; msg_log := x |}.

(** [self.<k>] for an attribute mirrored from the configuration. *)
Definition getattr (s : LlamaTUI) (k : string) : outcome value :=
  match attrs s !! k with
  | Some v => Ok v
  | None => Raise AttributeError
  end.

(** [self.<k> = v] *)
Definition setattr (k : string) (v : value) (s : LlamaTUI) : LlamaTUI :=
  set_attrs (<[k := v]> (attrs s)) s.

(** ** Process supervisor: [start_server] *)

(** Lines 245 to 262 of [start_server]: the argument list handed to
    [subprocess.Popen]. The elements that come from attributes are kept as
    the values they are. *)
Definition build_cmd (s : LlamaTUI) (llama_server_path model_path : string)
  : outcome (list value) :=
  port ← getattr s "port";
  let cmd := [VStr llama_server_path; VStr "-m"; VStr model_path;
              VStr "--port"; port] in
  allow_lan ← getattr s "allow_lan";
  cmd ← (if truthy allow_lan
         then host_ip ← getattr s "host_ip";
              mret (cmd ++ [VStr "--host"; host_ip])
         else mret (cmd ++ [VStr "--host"; VStr "127.0.0.1"]));
  backend ← getattr s "backend";
  cmd ← (if py_eq_str backend "CUDA" || py_eq_str backend "VULKAN"
         then gpu_layers ← getattr s "gpu_layers";
              pos ← py_gt0 gpu_layers;
              if pos : bool
              then layers ← py_str gpu_layers;
                   mret (cmd ++ [VStr "-ngl"; VStr layers])
              else mret cmd
         else mret cmd);
  n_threads ← getattr s "n_threads";
  pos ← py_gt0 n_threads;
  cmd ← (if pos : bool
         then threads ← py_str n_threads;
              mret (cmd ++ [VStr "-t"; VStr threads])
         else mret cmd);
  context_size ← getattr s "context_size";
  pos ← py_gt0 context_size;
  cmd ← (if pos : bool
         then size ← py_str context_size;
              mret (cmd ++ [VStr "-c"; VStr size])
         else mret cmd);
  mret cmd.

Definition start_server (e : Env) (s : LlamaTUI) : outcome (string * LlamaTUI) :=
  if bool_decide (is_Some (server_process s)) then
    mret ("Server already running. Press 'K' first.", s)
  else if bool_decide (files s = []) then
    mret ("No models found in current directory.", s)
  else
    llama_server_dir ← getattr s "llama_server_dir" ≫= as_path;
    let llama_server_path := os_path_join llama_server_dir LLAMA_SERVER_BIN in
    if negb (os_path_exists e llama_server_path)
       || negb (os_path_isfile e llama_server_path) then
      mret ("Error: '" +:+ llama_server_path +:+ "' not found or is not a file.", s)
    else
      current_file_obj ← py_index (files s) (selected_file_idx s);
      let model_path := resolve e current_file_obj in
      cmd ← build_cmd s llama_server_path model_path;
      match popen e cmd with
      | Spawned p =>
          let s := set_server_process (Some p) s in
          let s := set_log_buffer [] s in
          let s := set_log_thread (Some p) s in
          match thread_start e with
          | None =>
              let s := set_running_model_path
                         (Some (path_str current_file_obj)) s in
              mret ("SERVING: " +:+ name current_file_obj
                    +:+ " - Press 'V' to view log.", s)
          | Some msg => mret ("Error: " +:+ msg, s)
          end
      | SpawnFileNotFound =>
          mret ("Error: " +:+ llama_server_path +:+ " binary not found.", s)
      | SpawnError msg =>
          mret ("Error: " +:+ msg, s)
      end.

(** ** Process supervisor: [kill_server] *)

Definition clear_server (s : LlamaTUI) : LlamaTUI :=
  let s := set_server_process None s in
  let s := set_running_model_path None s in
  set_log_buffer [] s.

Definition kill_server (e : Env) (s : LlamaTUI) : string * LlamaTUI :=
  match server_process s with
  | Some _ =>
      match killpg_wait e with
      | None => ("Server stopped and cache cleared.", clear_server s)
      | Some err =>
          if terminate_wait e
          then ("Server stopped (fallback).", clear_server s)
          else ("Error stopping: " +:+ err, s)
      end
  | None => ("No server running.", s)
  end.

(** ** Model registry: [refresh_file_list] *)

(** The order of [sorted(..., key=lambda f: f.name)]: Python compares
    strings code point by code point. *)
Definition name_le (f g : Path) : Prop := String.leb (name f) (name g) = true.

Global Instance name_le_dec : RelDecision name_le.
Proof. intros f g. unfold name_le. apply _. Defined.

(** [path.glob("*.gguf")] restricted to [f.is_file()] *)
Definition glob_gguf_files (entries : list dirent) : list Path :=
  d_path <$>
    filter (λ d, endswith (name (d_path d)) ".gguf" = true ∧ d_is_file d = true)
           entries.

Definition refresh_file_list (e : Env) (s : LlamaTUI) : outcome LlamaTUI :=
  model_dir ← getattr s "model_dir";
  path ← as_path model_dir;
  let s := set_files [] s in
  if path_exists e path && path_is_dir e path then
    let s := set_files (merge_sort name_le (glob_gguf_files (iterdir e path))) s in
    let s := set_selected_file_idx 0 s in
    mret (set_file_offset 0 s)
  else
    mret (set_msg_log ("Error: Directory not found: " +:+ path) s).

(** ** Log capture: [_log_reader_thread] *)

Definition byte_val (b : Byte.byte) : Z := Z.of_N (Byte.to_N b).

Definition is_continuation (c : Z) : bool := (128 <=? c) && (c <=? 191).

(** U+FFFD, what [errors='replace'] puts for bytes that do not decode. *)
Definition REPLACEMENT : Z := 65533.

(** The second byte a three-byte lead [c0] (E0..EF) admits. *)
Definition second_of_3 (c0 c1 : Z) : bool :=
  if c0 =? 224 then (160 <=? c1) && (c1 <=? 191)
  else if c0 =? 237 then (128 <=? c1) && (c1 <=? 159)
  else is_continuation c1.

(** The second byte a four-byte lead [c0] (F0..F4) admits. *)
Definition second_of_4 (c0 c1 : Z) : bool :=
  if c0 =? 240 then (144 <=? c1) && (c1 <=? 191)
  else if c0 =? 244 then (128 <=? c1) && (c1 <=? 143)
  else is_continuation c1.

(** [line.decode('utf-8', errors='replace')]: every maximal ill-formed run
    (a byte that cannot start a sequence, or a lead byte with the valid
    continuation bytes that follow it) becomes one U+FFFD. *)
Fixpoint utf8_decode_replace (bs : list Byte.byte) : text :=
  match bs with
  | [] => []
  | b0 :: r1 =>
      let c0 := byte_val b0 in
      if c0 <? 128 then c0 :: utf8_decode_replace r1
      else if (c0 <? 194) || (244 <? c0) then REPLACEMENT :: utf8_decode_replace r1
      else if c0 <? 224 then
        match r1 with
        | [] => [REPLACEMENT]
        | b1 :: r2 =>
            let c1 := byte_val b1 in
            if is_continuation c1
            then ((c0 - 192) * 64 + (c1 - 128)) :: utf8_decode_replace r2
            else REPLACEMENT :: utf8_decode_replace r1
        end
      else if c0 <? 240 then
        match r1 with
        | [] => [REPLACEMENT]
        | b1 :: r2 =>
            let c1 := byte_val b1 in
            if second_of_3 c0 c1 then
              match r2 with
              | [] => [REPLACEMENT]
              | b2 :: r3 =>
                  let c2 := byte_val b2 in
                  if is_continuation c2
                  then ((c0 - 224) * 4096 + (c1 - 128) * 64 + (c2 - 128))
                         :: utf8_decode_replace r3
                  else REPLACEMENT :: utf8_decode_replace r2
              end
            else REPLACEMENT :: utf8_decode_replace r1
        end
      else
        match r1 with
        | [] => [REPLACEMENT]
        | b1 :: r2 =>
            let c1 := byte_val b1 in
            if second_of_4 c0 c1 then
              match r2 with
              | [] => [REPLACEMENT]
              | b2 :: r3 =>
                  let c2 := byte_val b2 in
                  if is_continuation c2 then
                    match r3 with
                    | [] => [REPLACEMENT]
                    | b3 :: r4 =>
                        let c3 := byte_val b3 in
                        if is_continuation c3
                        then ((c0 - 240) * 262144 + (c1 - 128) * 4096
                              + (c2 - 128) * 64 + (c3 - 128))
                               :: utf8_decode_replace r4
                        else REPLACEMENT :: utf8_decode_replace r3
                    end
                  else REPLACEMENT :: utf8_decode_replace r2
              end
            else REPLACEMENT :: utf8_decode_replace r1
        end
  end.

(** [str.isspace] on one code point, the characters [strip()] removes. *)
Definition isspace (c : Z) : bool :=
  (9 <=? c) && (c <=? 13) || (28 <=? c) && (c <=? 32)
  || (c =? 133) || (c =? 160) || (c =? 5760)
  || (8192 <=? c) && (c <=? 8202)
  || (c =? 8232) || (c =? 8233) || (c =? 8239) || (c =? 8287) || (c =? 12288).

Fixpoint lstrip (t : text) : text :=
  match t with
  | c :: t' => if isspace c then lstrip t' else t
  | [] => []
  end.

Definition strip (t : text) : text := rev (lstrip (rev (lstrip t))).

(** [self.log_buffer.append(line_str)] followed by the bound check. *)
Definition log_append (line_str : text) (buf : list text) : list text :=
  let buf := buf ++ [line_str] in
  if (log_max_lines <? length buf)%nat then tail buf else buf.

(** The body of the [for] loop for one line read from the child's stderr.
    [decode] is the decoding of the line; an exception it raises is caught
    by [except Exception: pass]. *)
Definition log_reader_step (decode : list Byte.byte → outcome text)
    (line : list Byte.byte) (s : LlamaTUI) : LlamaTUI :=
  match decode line with
  | Ok decoded =>
      let line_str := strip decoded in
      if bool_decide (line_str ≠ [])
      then set_log_buffer (log_append line_str (log_buffer s)) s
      else s
  | Raise _ => s
  end.

(** [line.decode(sys.getdefaultencoding(), errors='replace')]; the default
    encoding of Python 3 is UTF-8. *)
Definition bytes_decode (line : list Byte.byte) : outcome text :=
  Ok (utf8_decode_replace line).

(** The thread, run on the lines [readline] returns before end of stream,
    for a given decoding. *)
Definition log_reader_with (decode : list Byte.byte → outcome text)
    (stderr : list (list Byte.byte)) (s : LlamaTUI) : LlamaTUI :=
  match server_process s with
  | Some _ => fold_left (λ s line, log_reader_step decode line s) stderr s
  | None => s
  end.

Definition _log_reader_thread : list (list Byte.byte) → LlamaTUI → LlamaTUI :=
  log_reader_with bytes_decode.

(** ** Config store *)

(** [for key, value in self.config.items(): setattr(self, key, value)] *)
Definition sync_config_to_attributes (s : LlamaTUI) : LlamaTUI :=
  map_fold (λ key v s, setattr key v s) s (config s).

(** [for key in self.config.keys(): self.config[key] = getattr(self, key)] *)
Definition sync_attributes_to_config (s : LlamaTUI) : outcome LlamaTUI :=
  map_fold (λ key (_ : value) (acc : outcome LlamaTUI),
              s ← acc;
              v ← getattr s key;
              mret (set_config (<[key := v]> (config s)) s))
           (Ok s) (config s).

Definition save_settings (e : Env) (s : LlamaTUI) : outcome LlamaTUI :=
  s ← sync_attributes_to_config s;
  mret (if can_write e
        then set_settings_file (Some (Pickled (ODict (config s)))) s
        else s).

(** [settings.get(key, default_value)] *)
Definition dict_get (settings : gmap string value) (key : string)
    (default_value : value) : value :=
  default default_value (settings !! key).

Definition load_settings (e : Env) (s : LlamaTUI) : outcome LlamaTUI :=
  let s := set_msg_log "" s in
  let s :=
    match settings_file s with
    | Some (Pickled (ODict settings)) =>
        let s := map_fold (λ key default_value s,
                             set_config (<[key := dict_get settings key default_value]>
                                           (config s)) s)
                          s (config s) in
        let s := sync_config_to_attributes s in
        set_msg_log ("Settings loaded from " +:+ SETTINGS_FILE_NAME +:+ ".") s
    | Some _ => set_msg_log "Error loading settings. Using defaults." s
    | None => set_msg_log "No persistent settings found. Using defaults." s
    end in
  save_settings e s.

(** The dictionary literal of [__init__]. *)
Definition default_config (e : Env) : gmap string value :=
  <["model_dir" := VStr (os_path_abspath e DEFAULT_MODELS_DIR)]> $
  <["backend" := VStr "CPU"]> $
  <["host_ip" := VStr "0.0.0.0"]> $
  <["port" := VStr "8080"]> $
  <["allow_lan" := VBool false]> $
  <["gpu_layers" := VInt 0]> $
  <["n_threads" := cpu_count e]> $
  <["context_size" := VInt 4096]> $
  <["schedule_time" := VStr ""]> $
  <["schedule_active" := VBool false]> $
  <["llama_server_dir" := VStr (os_path_abspath e DEFAULT_LLAMA_SERVER_DIR)]> ∅.

(** The object as [__init__] has it when it calls [load_settings]: the
    defaults, mirrored into the attributes. *)
Definition at_load (e : Env) (disk : option file_content) : LlamaTUI :=
  let s := {| running := true; server_process := None;
              running_model_path := None; log_buffer := [];
              log_thread := None; show_log := false;
              show_nvidia_smi := false; config := default_config e;
              attrs := ∅; settings_file := disk;
              active_field := 0; selected_file_idx := 0; file_offset := 0;
              files := []; msg_log := "" |} in
  sync_config_to_attributes s.

(** [__init__], given the settings file found on disk. *)
Definition __init__ (e : Env) (disk : option file_content) : outcome LlamaTUI :=
  s ← load_settings e (at_load e disk);
  let s := set_active_field 0 s in
  let s := set_selected_file_idx 0 s in
  let s := set_file_offset 0 s in
  let s := set_files [] s in
  let s := if String.eqb (msg_log s) ""
           then set_msg_log "Welcome. Select a model and press 'S' to serve." s
           else s in
  refresh_file_list e s.

(** ** TUI controller *)

(** [input_string]: the prompt shows [default_val] through an f-string,
    which raises [ValueError] for an [int] of too many digits; the result is
    the text the operator submits, or [default_val] when the submission is
    empty. *)
Definition input_string (e : Env) (default_val : value) : outcome value :=
  _ ← py_str default_val;
  mret (if String.eqb (getstr e) "" then default_val else VStr (getstr e)).

(** [input_string] called with a [str] default, which the f-string of the
    prompt always accepts. *)
Definition input_str (e : Env) (default_val : string) : string :=
  if String.eqb (getstr e) "" then default_val else getstr e.

Definition ascii_val (c : ascii) : Z := Z.of_N (N_of_ascii c).

Definition is_digit (c : ascii) : bool :=
  (48 <=? ascii_val c) && (ascii_val c <=? 57).

Definition digit_val (c : ascii) : Z := ascii_val c - 48.

(** The blanks [int] skips around a literal, among the code points below
    256. *)
Definition is_ascii_space (c : ascii) : bool :=
  let n := ascii_val c in
  (9 <=? n) && (n <=? 13) || (28 <=? n) && (n <=? 32)
  || (n =? 133) || (n =? 160).

Fixpoint lstrip_ascii (s : string) : string :=
  match s with
  | String c s' => if is_ascii_space c then lstrip_ascii s' else s
  | EmptyString => EmptyString
  end.

Definition strip_ascii (s : string) : string :=
  String.rev (lstrip_ascii (String.rev (lstrip_ascii s))).

(** The digits of an [int] literal: groups of digits separated by single
    underscores. [prev] tells whether the previous character was a digit. *)
Fixpoint int_digits (s : string) (acc : Z) (prev : bool) : option Z :=
  match s with
  | EmptyString => if prev then Some acc else None
  | String c s' =>
      if is_digit c then int_digits s' (acc * 10 + digit_val c) true
      else if Ascii.eqb c "_" && prev then int_digits s' acc false
      else None
  end.

(** The number of digit characters of a string. *)
Definition count_digits (s : string) : nat :=
  length (List.filter is_digit (list_ascii_of_string s)).

(** [int(val)] for a [str] of ASCII characters: blanks around, an optional
    sign, decimal digits; [ValueError] otherwise, and also when there are
    more than [int_max_str_digits] digits. *)
Definition py_int (val : string) : outcome Z :=
  let body := strip_ascii val in
  let parsed :=
    match body with
    | String "+" r => int_digits r 0 false
    | String "-" r => Z.opp <$> int_digits r 0 false
    | _ => int_digits body 0 false
    end in
  match parsed with
  | Some n =>
      if (int_max_str_digits <? count_digits body)%nat
      then Raise ValueError else Ok n
  | None => Raise ValueError
  end.

(** The ways the directive [%H] matches at the head of [s], in the order the
    regular expression of [_strptime] tries them: [2[0-3]], [[0-1]\d], [\d].
    Each way gives the hour and the rest of the string. *)
Definition match_H (s : string) : list (Z * string) :=
  match s with
  | String a (String b r) =>
      (if Ascii.eqb a "2" && is_digit b && (digit_val b <=? 3)
       then [(20 + digit_val b, r)] else [])
      ++ (if is_digit a && (digit_val a <=? 1) && is_digit b
          then [(10 * digit_val a + digit_val b, r)] else [])
      ++ (if is_digit a then [(digit_val a, String b r)] else [])
  | String a EmptyString =>
      if is_digit a then [(digit_val a, EmptyString)] else []
  | EmptyString => []
  end.

(** The same for [%M]: [[0-5]\d], then [\d]. *)
Definition match_M (s : string) : list (Z * string) :=
  match s with
  | String a (String b r) =>
      (if is_digit a && (digit_val a <=? 5) && is_digit b
       then [(10 * digit_val a + digit_val b, r)] else [])
      ++ (if is_digit a then [(digit_val a, String b r)] else [])
  | String a EmptyString =>
      if is_digit a then [(digit_val a, EmptyString)] else []
  | EmptyString => []
  end.

Definition match_colon (s : string) : list string :=
  match s with
  | String c r => if Ascii.eqb c ":" then [r] else []
  | EmptyString => []
  end.

(** [datetime.datetime.strptime(t, "%H:%M")]: the first match of the pattern
    at the head of [t] must reach the end of [t]; [ValueError] when there is
    no match or when data remains after it. The result is the hour and the
    minute. *)
Definition strptime_HM (t : string) : outcome (Z * Z) :=
  let found :=
    '(h, r) ← match_H t;
    r ← match_colon r;
    '(m, r) ← match_M r;
    [(h, m, r)] in
  match found with
  | (h, m, EmptyString) :: _ => Ok (h, m)
  | _ => Raise ValueError
  end.

Definition KEY_DOWN : Z := 258.
Definition KEY_UP : Z := 259.

(** [ord(c)] for the command keys. *)
Definition ord (c : ascii) : Z := ascii_val c.

Definition check_schedule (e : Env) (s : LlamaTUI) : outcome LlamaTUI :=
  schedule_active ← getattr s "schedule_active";
  if truthy schedule_active && negb (bool_decide (is_Some (server_process s))) then
    schedule_time ← getattr s "schedule_time";
    if py_eq_str schedule_time (now_HM e) then
      '(msg, s) ← start_server e s;
      mret (set_msg_log msg s)
    else mret s
  else mret s.

(** The branch of [run] shared by the key [D] and by ENTER on field 10. *)
Definition edit_server_dir (e : Env) (s : LlamaTUI) : outcome LlamaTUI :=
  llama_server_dir ← getattr s "llama_server_dir";
  new_server_dir ← input_string e llama_server_dir;
  isdir ← os_path_isdir e new_server_dir;
  if isdir : bool then
    p ← as_path new_server_dir;
    let s := setattr "llama_server_dir" (VStr (os_path_abspath e p)) s in
    let s := set_msg_log ("Llama-server directory updated to: "
                          +:+ os_path_abspath e p) s in
    save_settings e s
  else mret (set_msg_log "Invalid directory path." s).

(** [modes.index(v)] for [modes = ["CPU", "CUDA", "VULKAN"]] *)
Definition modes : list string := ["CPU"; "CUDA"; "VULKAN"].

Fixpoint list_index (v : value) (l : list string) (i : nat) : outcome nat :=
  match l with
  | [] => Raise ValueError
  | x :: l' => if py_eq_str v x then Ok i else list_index v l' (S i)
  end.

(** The three numeric fields share one shape: prompt with [str] of the
    current value, [int(val)], a lower bound, and three messages. The
    f-string of the first message is inside the [try], so a [ValueError] it
    raised would be reported as a number that is not valid, after the
    attribute was assigned. *)
Definition edit_int_field (e : Env) (key : string) (lower : Z)
    (done_msg : string → string) (low_msg : string) (s : LlamaTUI)
  : outcome LlamaTUI :=
  cur ← getattr s key;
  default_val ← py_str cur;
  let val := input_str e default_val in
  match py_int val with
  | Ok n =>
      if lower <=? n then
        let s := setattr key (VInt n) s in
        match py_str (VInt n) with
        | Ok shown => save_settings e (set_msg_log (done_msg shown) s)
        | Raise _ => mret (set_msg_log "Invalid number format." s)
        end
      else mret (set_msg_log low_msg s)
  | Raise _ => mret (set_msg_log "Invalid number format." s)
  end.

(** ENTER on field 9. *)
Definition toggle_schedule (e : Env) (s : LlamaTUI) : outcome LlamaTUI :=
  schedule_active ← getattr s "schedule_active";
  if truthy schedule_active then
    let s := setattr "schedule_active" (VBool false) s in
    let s := set_msg_log "Schedule disabled." s in
    save_settings e s
  else
    let t := input_str e "08:00" in
    match strptime_HM t with
    | Ok _ =>
        let s := setattr "schedule_time" (VStr t) s in
        let s := setattr "schedule_active" (VBool true) s in
        let s := set_msg_log ("Scheduled for " +:+ t) s in
        save_settings e s
    | Raise _ => mret (set_msg_log "Invalid time format. Use HH:MM" s)
    end.

(** The [elif key == 10] branch of [run]. *)
Definition on_enter (e : Env) (s : LlamaTUI) : outcome LlamaTUI :=
  let f := active_field s in
  if f =? 1 then
    model_dir ← getattr s "model_dir";
    new_dir ← input_string e model_dir;
    isdir ← os_path_isdir e new_dir;
    if isdir : bool then
      p ← as_path new_dir;
      let s := setattr "model_dir" (VStr (os_path_abspath e p)) s in
      s ← refresh_file_list e s;
      let s := set_msg_log "Directory updated." s in
      save_settings e s
    else mret (set_msg_log "Invalid directory path." s)
  else if f =? 2 then
    backend ← getattr s "backend";
    curr_idx ← list_index backend modes 0;
    let next := default "" (modes !! ((curr_idx + 1) `mod` length modes)%nat) in
    save_settings e (setattr "backend" (VStr next) s)
  else if f =? 3 then
    edit_int_field e "gpu_layers" 0
      (λ shown, "GPU Layers set to " +:+ shown +:+ " (0=auto/CPU only).")
      "Value must be 0 or greater." s
  else if f =? 4 then
    edit_int_field e "n_threads" 1
      (λ shown, "CPU Threads set to " +:+ shown +:+ ".")
      "Value must be 1 or greater." s
  else if f =? 5 then
    edit_int_field e "context_size" 512
      (λ shown, "Context Size set to " +:+ shown +:+ ".")
      "Value must be at least 512." s
  else if f =? 6 then
    host_ip ← getattr s "host_ip";
    new_host_ip ← input_string e host_ip;
    save_settings e (setattr "host_ip" new_host_ip s)
  else if f =? 7 then
    port ← getattr s "port";
    new_port ← input_string e port;
    save_settings e (setattr "port" new_port s)
  else if f =? 8 then
    allow_lan ← getattr s "allow_lan";
    save_settings e (setattr "allow_lan" (VBool (negb (truthy allow_lan))) s)
  else if f =? 9 then toggle_schedule e s
  else if f =? 10 then edit_server_dir e s
  else mret s.

(** The dispatch on the key read by [getch]. *)
Definition on_key (key : Z) (e : Env) (s : LlamaTUI) : outcome LlamaTUI :=
  if (key =? ord "q") || (key =? ord "Q") then
    let '(_, s) := kill_server e s in
    s ← save_settings e s;
    mret (set_running false s)
  else if (key =? ord "k") || (key =? ord "K") then
    let '(msg, s) := kill_server e s in
    mret (set_msg_log msg s)
  else if (key =? ord "s") || (key =? ord "S") then
    '(msg, s) ← start_server e s;
    mret (set_msg_log msg s)
  else if (key =? ord "v") || (key =? ord "V") then
    if bool_decide (is_Some (server_process s))
    then mret (set_show_log true s)
    else mret (set_msg_log "Server is not running. Start it first." s)
  else if (key =? ord "n") || (key =? ord "N") then
    mret (set_show_nvidia_smi true s)
  else if (key =? ord "d") || (key =? ord "D") then
    edit_server_dir e s
  else if key =? 9 then
    mret (set_active_field ((active_field s + 1) `mod` 11) s)
  else if key =? KEY_UP then
    if (active_field s =? 0) && (0 <? selected_file_idx s)
    then mret (set_selected_file_idx (selected_file_idx s - 1) s)
    else mret s
  else if key =? KEY_DOWN then
    if (active_field s =? 0)
       && (selected_file_idx s <? Z.of_nat (length (files s)) - 1)
    then mret (set_selected_file_idx (selected_file_idx s + 1) s)
    else mret s
  else if key =? 10 then on_enter e s
  else mret s.

(** What one pass of the [while self.running] loop receives from outside:
    the size of the window, the oracle for [check_schedule], the key read by
    [getch] ([-1] when there is none) and the oracle for its handler. *)
Record Tick : Type := {
  getmaxyx : Z * Z;
  sched_env : Env;
  getch : Z;
  key_env : Env;
}.

(** The four ways [run] paints a row of the model list. *)
Inductive row_style : Type :=
| SelectedRunning
| Selected (focused : bool)
| Running
| Plain.

Record file_row : Type := {
  row_y : Z;
  row_file : Path;
  row_style_of : row_style;
}.

(** The loop [for i in range(max_items)] of [run] that paints the model
    list, from index [i] on, [n] indices being left. *)
Fixpoint draw_file_rows_from (n : nat) (i : Z) (s : LlamaTUI)
  : outcome (list file_row) :=
  match n with
  | O => mret []
  | S n' =>
      let file_idx := file_offset s + i in
      if Z.of_nat (length (files s)) <=? file_idx then mret []
      else
        f ← py_index (files s) file_idx;
        let y_pos := 3 + i in
        let is_selected := file_idx =? selected_file_idx s in
        let is_running :=
          bool_decide (running_model_path s = Some (path_str f)) in
        let style :=
          if is_selected && is_running then SelectedRunning
          else if is_selected then Selected (active_field s =? 0)
          else if is_running then Running
          else Plain in
        rows ← draw_file_rows_from n' (i + 1) s;
        mret ({| row_y := y_pos; row_file := f; row_style_of := style |} :: rows)
  end.

Definition draw_file_rows (max_items : Z) (s : LlamaTUI) : outcome (list file_row) :=
  draw_file_rows_from (Z.to_nat max_items) 0 s.

(** The part of the drawing code of the main screen that writes to [self]
    or can raise outside curses. The scroll window follows the cursor, the
    rows of the model list are painted, and the settings panel takes
    [len(self.model_dir)] and [len(self.llama_server_dir)], which raise
    [TypeError] unless both are [str], and [str] or an f-string of the
    other attributes in the order of the panel. *)
Definition draw_main (h w : Z) (s : LlamaTUI) : outcome LlamaTUI :=
  let list_h := h - 8 in
  let max_items := list_h - 2 in
  let s :=
    if selected_file_idx s <? file_offset s
    then set_file_offset (selected_file_idx s) s
    else if file_offset s + max_items <=? selected_file_idx s
    then set_file_offset (selected_file_idx s - max_items + 1) s
    else s in
  _ ← draw_file_rows max_items s;
  _ ← getattr s "model_dir" ≫= as_path;
  _ ← getattr s "llama_server_dir" ≫= as_path;
  _ ← getattr s "backend" ≫= py_str;
  _ ← getattr s "gpu_layers" ≫= py_str;
  _ ← getattr s "n_threads" ≫= py_str;
  _ ← getattr s "context_size" ≫= py_str;
  _ ← getattr s "host_ip" ≫= py_str;
  _ ← getattr s "port" ≫= py_str;
  _ ← getattr s "allow_lan";
  schedule_active ← getattr s "schedule_active";
  _ ← (if truthy schedule_active
       then getattr s "schedule_time" ≫= py_str
       else mret "OFF");
  mret s.

(** One pass of the loop of [run]. The calls of curses are taken not to
    raise: what a pass does when the terminal refuses a write is not
    described. *)
Definition run_iteration (t : Tick) (s : LlamaTUI) : outcome LlamaTUI :=
  let '(h, w) := getmaxyx t in
  if show_nvidia_smi s then
    mret (if getch t =? -1 then s else set_show_nvidia_smi false s)
  else if show_log s then
    mret (if getch t =? -1 then s else set_show_log false s)
  else if (h <? 20) || (w <? 80) then mret s
  else
    s ← draw_main h w s;
    s ← check_schedule (sched_env t) s;
    on_key (getch t) (key_env t) s.

(** [run]: the loop, on the inputs of its successive passes. *)
Fixpoint run (ticks : list Tick) (s : LlamaTUI) : outcome LlamaTUI :=
  match ticks with
  | [] => mret s
  | t :: ticks' =>
      if running s then s ← run_iteration t s; run ticks' s
      else mret s
  end.

(** ** Reachable states *)

(** The states the object goes through: the one [__init__] builds, the one
    after each pass of the loop of [run] while [self.running] holds, and, at
    any moment, the one after the reader thread has taken one more line. *)
Inductive reachable : LlamaTUI → Prop :=
| reachable_init e disk s :
    __init__ e disk = Ok s → reachable s
| reachable_iteration t s s' :
    reachable s → running s = true → run_iteration t s = Ok s' → reachable s'
| reachable_log line s :
    reachable s → reachable (log_reader_step bytes_decode line s).

(** ** Vocabulary of the specification *)

(** The configuration record of the specification, with the type each field
    has in [__init__] and after every edit made through the interface. *)
Record Configuration : Type := {
  c_model_dir : string;
  c_backend : string;
  c_host_ip : string;
  c_port : string;
  c_allow_lan : bool;
  c_gpu_layers : Z;
  c_n_threads : Z;
  c_context_size : Z;
  c_schedule_time : string;
  c_schedule_active : bool;
  c_llama_server_dir : string;
}.

(** The attributes of an object whose configuration is [c]. *)
Definition attrs_of (c : Configuration) : gmap string value :=
  <["model_dir" := VStr (c_model_dir c)]> $
  <["backend" := VStr (c_backend c)]> $
  <["host_ip" := VStr (c_host_ip c)]> $
  <["port" := VStr (c_port c)]> $
  <["allow_lan" := VBool (c_allow_lan c)]> $
  <["gpu_layers" := VInt (c_gpu_layers c)]> $
  <["n_threads" := VInt (c_n_threads c)]> $
  <["context_size" := VInt (c_context_size c)]> $
  <["schedule_time" := VStr (c_schedule_time c)]> $
  <["schedule_active" := VBool (c_schedule_active c)]> $
  <["llama_server_dir" := VStr (c_llama_server_dir c)]> ∅.

(** The dictionary [d] where the value of each key that [settings] holds
    too is the one of [settings]. *)
Definition overlay (settings d : gmap string value) : gmap string value :=
  map_imap (λ key default_value, Some (dict_get settings key default_value)) d.



(** The last [n] elements of [l], in order. *)
Definition last_n {A : Type} (n : nat) (l : list A) : list A :=
  drop (length l - n) l.

(** What a line read from the child contributes to the log under a given
    decoding: its decoded text without the blanks around it, and nothing
    when that is empty or when decoding raised. *)
Definition kept_line (decode : list Byte.byte → outcome text)
    (line : list Byte.byte) : option text :=
  match decode line with
  | Ok decoded => if bool_decide (strip decoded = []) then None else Some (strip decoded)
  | Raise _ => None
  end.

(** The grammar "HH:MM" of the specification: two digits, a colon, two
    digits, the hour at most 23 and the minute at most 59. It is the form
    [strftime("%H:%M")] prints, the one [check_schedule] compares with. *)
Definition HHMM (t : string) : bool :=
  match t with
  | String h1 (String h2 (String c (String m1 (String m2 EmptyString)))) =>
      is_digit h1 && is_digit h2 && Ascii.eqb c ":"
      && is_digit m1 && is_digit m2
      && (10 * digit_val h1 + digit_val h2 <=? 23)
      && (10 * digit_val m1 + digit_val m2 <=? 59)
  | _ => false
  end.

(** ** A concrete machine for the examples *)

Definition a_gguf : Path := {| path_str := "/models/a.gguf"; name := "a.gguf" |}.
Definition b_gguf : Path := {| path_str := "/models/b.gguf"; name := "b.gguf" |}.
Definition c_txt : Path := {| path_str := "/models/c.txt"; name := "c.txt" |}.

(** A machine with four cores where the working directory is [/models],
    which holds [b.gguf], [a.gguf] and [c.txt]; no other directory exists.
    The operator types [typed]; the clock shows 07:59. *)
Definition example_env (typed : string) : Env :=
  {| os_path_exists := λ p, String.eqb p "/models/llama-server";
     os_path_isfile := λ p, String.eqb p "/models/llama-server";
     os_path_isdir := λ v, Ok (py_eq_str v "/models");
     os_path_abspath := λ p, if String.eqb p "./" then "/models" else p;
     path_exists := λ p, String.eqb p "/models";
     path_is_dir := λ p, String.eqb p "/models";
     iterdir := λ p, if String.eqb p "/models"
                     then [ {| d_path := b_gguf; d_is_file := true |};
                            {| d_path := a_gguf; d_is_file := true |};
                            {| d_path := c_txt; d_is_file := true |} ]
                     else [];
     resolve := path_str;
     popen := λ _, Spawned {| pid := 4242 |};
     thread_start := None;
     killpg_wait := None;
     terminate_wait := true;
     now_HM := "07:59";
     getstr := typed;
     can_write := true;
     cpu_count := VInt 4 |}.

Definition example_config : Configuration :=
  {| c_model_dir := "/models"; c_backend := "CPU"; c_host_ip := "0.0.0.0";
     c_port := "8080"; c_allow_lan := false; c_gpu_layers := 8;
     c_n_threads := 4; c_context_size := 4096; c_schedule_time := "";
     c_schedule_active := false; c_llama_server_dir := "/models" |}.

(** The texts "load", "ok" and "hi". *)
Definition text_load : text := [108; 111; 97; 100].
Definition text_ok : text := [111; 107].
Definition text_hi : text := [104; 105].

(** A stopped console showing two models. *)
Definition example_stopped : LlamaTUI :=
  {| running := true; server_process := None; running_model_path := None;
     log_buffer := []; log_thread := None; show_log := false;
     show_nvidia_smi := false; config := attrs_of example_config;
     attrs := attrs_of example_config; settings_file := None;
     active_field := 0; selected_file_idx := 1; file_offset := 0;
     files := [a_gguf; b_gguf]; msg_log := "" |}.

(** The same console while it serves [a.gguf], two lines in its log. *)
Definition example_serving : LlamaTUI :=
  set_log_buffer [text_load; text_ok]
    (set_running_model_path (Some "/models/a.gguf")
       (set_log_thread (Some {| pid := 4242 |})
          (set_server_process (Some {| pid := 4242 |}) example_stopped))).

(** A console whose model directory has been removed from the disk. *)
Definition example_dir_gone : LlamaTUI :=
  setattr "model_dir" (VStr "/gone") example_stopped.

(** The console right after [__init__] on the example machine, no settings
    file on disk. *)
Definition example_initial : LlamaTUI :=
  {| running := true; server_process := None; running_model_path := None;
     log_buffer := []; log_thread := None; show_log := false;
     show_nvidia_smi := false; config := default_config (example_env "");
     attrs := default_config (example_env "");
     settings_file := Some (Pickled (ODict (default_config (example_env ""))));
     active_field := 0; selected_file_idx := 0; file_offset := 0;
     files := [a_gguf; b_gguf];
     msg_log := "No persistent settings found. Using defaults." |}.

(** The model list and the selection cursor of a console. *)
Definition cursor (s : LlamaTUI) : list Path * Z := (files s, selected_file_idx s).

(** The invariant of the cursor: it points into the list, unless the list
    is empty. *)
Definition cursor_ok (s : LlamaTUI) : Prop :=
  files s = [] ∨ 0 ≤ selected_file_idx s < Z.of_nat (length (files s)).

(** The log buffer of [s'] is that of [s] or has been emptied. *)
Definition log_kept (s s' : LlamaTUI) : Prop :=
  log_buffer s' = log_buffer s ∨ log_buffer s' = [].



(** The configuration of the example with the CUDA backend. *)
Definition example_config_cuda : Configuration :=
  {| c_model_dir := "/models"; c_backend := "CUDA"; c_host_ip := "192.168.1.5";
     c_port := "8080"; c_allow_lan := false; c_gpu_layers := 8;
     c_n_threads := 4; c_context_size := 4096; c_schedule_time := "";
     c_schedule_active := false; c_llama_server_dir := "/models" |}.

(** The example machine when the signal to the process group fails with
    the text [err], the fallback going through or not. *)
Definition example_env_kill (err : string) (fallback : bool) : Env :=
  {| os_path_exists := os_path_exists (example_env "");
     os_path_isfile := os_path_isfile (example_env "");
     os_path_isdir := os_path_isdir (example_env "");
     os_path_abspath := os_path_abspath (example_env "");
     path_exists := path_exists (example_env "");
     path_is_dir := path_is_dir (example_env "");
     iterdir := iterdir (example_env "");
     resolve := resolve (example_env "");
     popen := popen (example_env "");
     thread_start := None;
     killpg_wait := Some err;
     terminate_wait := fallback;
     now_HM := now_HM (example_env "");
     getstr := "";
     can_write := true;
     cpu_count := cpu_count (example_env "") |}.

(** What [f] shows of the state a call returns; [None] when it raises. *)
Definition observe {A : Type} (o : outcome LlamaTUI) (f : LlamaTUI → A)
  : option A :=
  match o with
  | Ok s => Some (f s)
  | Raise _ => None
  end.


(** ** The views and the telemetry command *)

(** The index [k] of a slice of a sequence of length [len], as Python
    normalises it: a negative index counts from the end, and the result is
    clipped to the sequence. *)
Definition slice_index (k : Z) (len : nat) : nat :=
  Z.to_nat (if k <? 0 then Z.max (k + Z.of_nat len) 0
            else Z.min k (Z.of_nat len)).

(** [l[k:]] *)
Definition py_slice_from {A : Type} (k : Z) (l : list A) : list A :=
  drop (slice_index k (length l)) l.

(** [l[:k]] *)
Definition py_slice_to {A : Type} (k : Z) (l : list A) : list A :=
  take (slice_index k (length l)) l.

(** One call [self.stdscr.addstr(y, x, text, ...)]. *)
Record addstr : Type := { at_y : Z; at_x : Z; shown : text }.

(** The calls of [addstr] in the loop of [draw_log_view]; a call that curses
    refuses is skipped by [except curses.error: pass]. *)
Definition draw_log_view (h w : Z) (s : LlamaTUI) : list addstr :=
  let log_lines := log_buffer s in
  let max_display_lines := h - 2 in
  let log_lines :=
    if max_display_lines <? Z.of_nat (length log_lines)
    then py_slice_from (- max_display_lines) log_lines
    else log_lines in
  imap (λ i line, {| at_y := 1 + Z.of_nat i; at_x := 2;
                     shown := py_slice_to (w - 3) line |}) log_lines.

(** The code points of a string of ASCII characters. *)
Definition text_of_string (s : string) : text :=
  ascii_val <$> list_ascii_of_string s.

(** [t.split('\n')] *)
Fixpoint split_lines (t : text) : list text :=
  match t with
  | [] => [[]]
  | c :: t' =>
      if c =? 10 then [] :: split_lines t'
      else match split_lines t' with
           | l :: ls => (c :: l) :: ls
           | [] => [[c]]
           end
  end.

(** ['\n'.join(ls)] *)
Fixpoint join_lines (ls : list text) : text :=
  match ls with
  | [] => []
  | [l] => l
  | l :: ls' => l ++ 10 :: join_lines ls'
  end.

(** How [subprocess.run(['nvidia-smi'], capture_output=True, text=True,
    check=True, timeout=5)] ends: it returns with the captured output, or
    raises one of the exceptions the method tells apart. *)
Inductive run_result : Type :=
| Completed (stdout : text)
| RunFileNotFound
| CalledProcessError (stderr : text)
| TimeoutExpired
| RunException (msg : text).

Definition get_nvidia_smi_output (r : run_result) : list text :=
  match r with
  | Completed stdout => split_lines (strip stdout)
  | RunFileNotFound =>
      [text_of_string "Error: 'nvidia-smi' command not found. (NVIDIA drivers not installed or not in PATH)"]
  | CalledProcessError stderr =>
      [text_of_string "Error executing nvidia-smi: " ++ strip stderr]
  | TimeoutExpired =>
      [text_of_string "Error: 'nvidia-smi' command timed out."]
  | RunException msg =>
      [text_of_string "An unexpected error occurred: " ++ msg]
  end.

(** The calls of [addstr] in the loop of [draw_smi_view], which stops at the
    first index that is not below [h - 2]. *)
Definition draw_smi_view (h w : Z) (r : run_result) : list addstr :=
  let smi_lines := get_nvidia_smi_output r in
  let max_display_lines := h - 2 in
  imap (λ i line, {| at_y := 1 + Z.of_nat i; at_x := 2;
                     shown := py_slice_to (w - 3) line |})
       (take (Z.to_nat max_display_lines) smi_lines).

(** ** Invariants of the object *)

(** The keys of the dictionary literal of [__init__]. *)
Definition config_keys : gset string :=
  {[ "model_dir"; "backend"; "host_ip"; "port"; "allow_lan"; "gpu_layers";
     "n_threads"; "context_size"; "schedule_time"; "schedule_active";
     "llama_server_dir" ]}.

(** The dictionary and the mirrored attributes have exactly these keys. *)
Definition keys_ok (s : LlamaTUI) : Prop :=
  dom (config s) = config_keys ∧ dom (attrs s) = config_keys.

(** While a handle is set the reader thread is the one created for that
    process, and without a handle there is no running model path. A handle
    without running model path is what [start_server] leaves when the
    thread cannot be started. *)
Definition handles_ok (s : LlamaTUI) : Prop :=
  match server_process s with
  | Some p => log_thread s = Some p
  | None => running_model_path s = None
  end.

(** The focus is one of the eleven targets, the cursor and the scroll offset
    are not negative, and a view is open only over the main screen: at most
    one of the two, the log view only with a server handle. *)
Definition ui_ok (s : LlamaTUI) : Prop :=
  0 ≤ active_field s < 11
  ∧ 0 ≤ selected_file_idx s
  ∧ 0 ≤ file_offset s
  ∧ (show_log s = true →
     show_nvidia_smi s = false ∧ is_Some (server_process s)).

(** A line without blanks at either end, and not empty. *)
Definition clean_line (t : text) : Prop :=
  (∃ c, head t = Some c ∧ isspace c = false)
  ∧ (∃ c, last t = Some c ∧ isspace c = false).

(** The successor of a backend in [modes]. *)
Definition next_backend (b : string) : string :=
  if String.eqb b "CPU" then "CUDA"
  else if String.eqb b "CUDA" then "VULKAN"
  else "CPU".

(** ** Further examples *)

(** One pass of the loop on the example machine, in a window of 24 lines and
    80 columns: the key [key] is read and the operator types [typed]. *)
Definition example_tick (key : Z) (typed : string) : Tick :=
  {| getmaxyx := (24, 80); sched_env := example_env "";
     getch := key; key_env := example_env typed |}.

(** The console after [S] was pressed on the initial screen. *)
Definition example_started : LlamaTUI :=
  set_msg_log "SERVING: a.gguf - Press 'V' to view log."
    (set_running_model_path (Some "/models/a.gguf")
       (set_log_thread (Some {| pid := 4242 |})
          (set_server_process (Some {| pid := 4242 |}) example_initial))).

(** The same console after [V]: the log view is open. *)
Definition example_viewing : LlamaTUI := set_show_log true example_started.

(** ** Vocabulary of the further properties *)

(** The keys [keys] pressed one after the other on the main screen, the
    machine giving the same answers each time. *)
Fixpoint presses (keys : list Z) (e : Env) (s : LlamaTUI) : outcome LlamaTUI :=
  match keys with
  | [] => mret s
  | key :: keys' => s ← on_key key e s; presses keys' e s
  end.


(** The three numeric fields: focus index, attribute and lower bound. *)
Definition numeric_fields : list (Z * string * Z) :=
  [(3, "gpu_layers", 0); (4, "n_threads", 1); (5, "context_size", 512)].


(** The attributes are those of a configuration record, each of the type
    the dictionary literal of [__init__] gives it, the backend is one of the
    three names, and the dictionary has its eleven keys. *)
Definition well_typed (s : LlamaTUI) : Prop :=
  dom (config s) = config_keys
  ∧ ∃ c, attrs s = attrs_of c ∧ c_backend c ∈ modes.

(** The example machine when the interpreter cannot start a thread. *)
Definition example_env_no_thread : Env :=
  {| os_path_exists := os_path_exists (example_env "");
     os_path_isfile := os_path_isfile (example_env "");
     os_path_isdir := os_path_isdir (example_env "");
     os_path_abspath := os_path_abspath (example_env "");
     path_exists := path_exists (example_env "");
     path_is_dir := path_is_dir (example_env "");
     iterdir := iterdir (example_env "");
     resolve := resolve (example_env "");
     popen := popen (example_env "");
     thread_start := Some "can't start new thread";
     killpg_wait := None;
     terminate_wait := true;
     now_HM := "07:59";
     getstr := "";
     can_write := true;
     cpu_count := VInt 4 |}.

(** The console after [S] was pressed on the initial screen of that
    machine: the process was spawned, the thread was not started. *)
Definition example_thread_failed : LlamaTUI :=
  set_msg_log "Error: can't start new thread"
    (set_log_thread (Some {| pid := 4242 |})
       (set_server_process (Some {| pid := 4242 |}) example_initial)).

(** The example machine when [psutil.cpu_count] cannot tell the number of
    processors and returns [None]. *)
Definition example_env_no_cpu : Env :=
  {| os_path_exists := os_path_exists (example_env "");
     os_path_isfile := os_path_isfile (example_env "");
     os_path_isdir := os_path_isdir (example_env "");
     os_path_abspath := os_path_abspath (example_env "");
     path_exists := path_exists (example_env "");
     path_is_dir := path_is_dir (example_env "");
     iterdir := iterdir (example_env "");
     resolve := resolve (example_env "");
     popen := popen (example_env "");
     thread_start := None;
     killpg_wait := None;
     terminate_wait := true;
     now_HM := "07:59";
     getstr := "";
     can_write := true;
     cpu_count := VNone |}.

(** * Properties *)

(** ** Process supervisor *)

Section Supervisor.
Context (e : Env).

Lemma clear_server_spec s :
  server_process (clear_server s) = None
  ∧ running_model_path (clear_server s) = None
  ∧ log_buffer (clear_server s) = [].
Proof. done. Qed.

(** C4. While a server runs, [start_server] answers that one is already
    running and returns the object as it was: the handle, the reader
    thread, the path of the running model and the log buffer are those of
    before, so no second child process is recorded. *)
Theorem start_server_already_running s p :
  server_process s = Some p →
  start_server e s = Ok ("Server already running. Press 'K' first.", s).
Proof.
  intros Hp. unfold start_server.
  rewrite bool_decide_eq_true_2; [done | by rewrite Hp].
Qed.

(** C5. With a server running, [kill_server] clears the handle and the
    path of the running model and empties the log buffer when the signal
    to the process group goes through, and also when it does not but the
    fallback [terminate] does; the two messages tell the paths apart. Only
    when both raise does it return the error text, and the object is then
    the one it was given, the handle still set. *)
Theorem kill_server_running s p :
  server_process s = Some p →
  match killpg_wait e, terminate_wait e with
  | Some err, false =>
      kill_server e s = ("Error stopping: " +:+ err, s)
  | path1, _ =>
      ∃ s', kill_server e s =
              (if path1 is None then "Server stopped and cache cleared."
               else "Server stopped (fallback).", s')
            ∧ server_process s' = None
            ∧ running_model_path s' = None
            ∧ log_buffer s' = []
  end.
Proof.
  intros Hp. unfold kill_server. rewrite Hp.
  destruct (killpg_wait e) as [err|], (terminate_wait e);
    first [done | by eexists].
Qed.

(** C6. With no server running, [kill_server] returns the message
    "No server running." and the object as it was; being a function to a
    message and a state, it has no exceptional outcome. *)
Theorem kill_server_not_running s :
  server_process s = None →
  kill_server e s = ("No server running.", s).
Proof. intros Hp. unfold kill_server. by rewrite Hp. Qed.

End Supervisor.

Lemma start_server_already_running_witness :
  server_process example_serving = Some {| pid := 4242 |}
  ∧ start_server (example_env "") example_serving
    = Ok ("Server already running. Press 'K' first.", example_serving).
Proof.
  split; [reflexivity |].
  apply (start_server_already_running (example_env "") example_serving
           {| pid := 4242 |}).
  reflexivity.
Defined.

Lemma kill_server_running_witness :
  server_process example_serving = Some {| pid := 4242 |}
  ∧ ∃ s', kill_server (example_env "") example_serving
          = ("Server stopped and cache cleared.", s')
          ∧ server_process s' = None
          ∧ running_model_path s' = None
          ∧ log_buffer s' = [].
Proof.
  split; [reflexivity |].
  apply (kill_server_running (example_env "") example_serving {| pid := 4242 |}).
  reflexivity.
Defined.

Lemma kill_server_not_running_witness :
  server_process example_stopped = None
  ∧ kill_server (example_env "") example_stopped
    = ("No server running.", example_stopped).
Proof.
  split; [reflexivity |].
  apply (kill_server_not_running (example_env "") example_stopped).
  reflexivity.
Defined.

(** ** Log capture *)

Section LastN.
Context {A : Type}.
Implicit Types l k : list A.

Lemma last_n_length n l : (length (last_n n l) ≤ n)%nat.
Proof. unfold last_n. rewrite length_drop. lia. Qed.

Lemma last_n_short n l : (length l ≤ n)%nat → last_n n l = l.
Proof.
  intros Hl. unfold last_n.
  replace (length l - n)%nat with 0%nat by lia. done.
Qed.

Lemma last_n_app n l k : last_n n (last_n n l ++ k) = last_n n (l ++ k).
Proof.
  destruct (decide (length l ≤ n)%nat) as [Hl|Hl].
  { by rewrite (last_n_short n l). }
  unfold last_n. rewrite !length_app, length_drop.
  replace (length l - (length l - n) + length k - n)%nat
    with (length k) by lia.
  replace (length l + length k - n)%nat
    with ((length l - n) + length k)%nat by lia.
  rewrite <- drop_drop. f_equal.
  rewrite drop_app_le by lia. done.
Qed.
End LastN.

Lemma log_append_last_n line buf :
  (length buf ≤ log_max_lines)%nat →
  log_append line buf = last_n log_max_lines (buf ++ [line]).
Proof.
  intros Hb. unfold log_append, last_n.
  rewrite length_app. simpl length.
  destruct (Nat.ltb_spec log_max_lines (length buf + 1)) as [Hlt|Hge].
  - replace (length buf + 1 - log_max_lines)%nat with 1%nat by lia.
    by destruct (buf ++ [line]).
  - replace (length buf + 1 - log_max_lines)%nat with 0%nat by lia. done.
Qed.

Lemma log_append_length line buf :
  (length buf ≤ log_max_lines)%nat →
  (length (log_append line buf) ≤ log_max_lines)%nat.
Proof. intros Hb. rewrite log_append_last_n by done. apply last_n_length. Qed.

Lemma log_append_all lines : ∀ buf,
  (length buf ≤ log_max_lines)%nat →
  fold_left (λ b line, log_append line b) lines buf
  = last_n log_max_lines (buf ++ lines).
Proof.
  induction lines as [|line lines IH]; intros buf Hb; simpl.
  - rewrite app_nil_r. by rewrite last_n_short.
  - rewrite IH by by apply log_append_length.
    rewrite log_append_last_n by done.
    rewrite last_n_app. by rewrite <- app_assoc.
Qed.

(** C3. Whatever lines are appended to a buffer that holds at most 1000
    lines, the buffer holds at most 1000 lines afterwards, and these are the
    last 1000 of the old lines followed by the new ones, in that order. On a
    full buffer one append drops the head and puts the line at the end. *)
Theorem log_buffer_bounded_fifo (lines : list text) (buf : list text) :
  (length buf ≤ 1000)%nat →
  let buf' := fold_left (λ b line, log_append line b) lines buf in
  (length buf' ≤ 1000)%nat
  ∧ buf' = last_n 1000 (buf ++ lines)
  ∧ ∀ line, length buf' = 1000%nat → log_append line buf' = tail buf' ++ [line].
Proof.
  intros Hb buf'. fold log_max_lines in *.
  assert (Hall : buf' = last_n log_max_lines (buf ++ lines))
    by by apply log_append_all.
  assert (Hlen : (length buf' ≤ log_max_lines)%nat)
    by (rewrite Hall; apply last_n_length).
  split_and!; [done | done |].
  intros line Hfull. rewrite log_append_last_n by done.
  unfold last_n. rewrite length_app, Hfull. simpl length.
  replace (log_max_lines + 1 - log_max_lines)%nat with 1%nat by lia.
  destruct buf'; [done |]. done.
Qed.

Lemma log_buffer_bounded_fifo_witness :
  (length [text_ok] ≤ 1000)%nat
  ∧ (length (fold_left (λ b line, log_append line b) [text_hi] [text_ok])
     ≤ 1000)%nat.
Proof.
  split; [simpl; lia |].
  apply (log_buffer_bounded_fifo [text_hi] [text_ok]).
  simpl; lia.
Defined.

Section Reader.
Context (decode : list Byte.byte → outcome text).

Lemma set_log_buffer_same s : set_log_buffer (log_buffer s) s = s.
Proof. by destruct s. Qed.

Lemma log_reader_step_kept line s :
  log_reader_step decode line s =
    match kept_line decode line with
    | Some t => set_log_buffer (log_append t (log_buffer s)) s
    | None => s
    end.
Proof.
  unfold log_reader_step, kept_line.
  destruct (decode line) as [decoded|]; [| done].
  destruct (decide (strip decoded = [])) as [Hblank|Hblank].
  - by rewrite bool_decide_eq_false_2, bool_decide_eq_true_2 by auto.
  - by rewrite bool_decide_eq_true_2, bool_decide_eq_false_2 by auto.
Qed.

Lemma log_reader_fold stderr : ∀ s,
  fold_left (λ s line, log_reader_step decode line s) stderr s
  = set_log_buffer
      (fold_left (λ b t, log_append t b) (omap (kept_line decode) stderr)
                 (log_buffer s)) s.
Proof.
  induction stderr as [|line stderr IH]; intros s; simpl.
  - by rewrite set_log_buffer_same.
  - rewrite IH, log_reader_step_kept.
    destruct (kept_line decode line) as [t|]; simpl; [| done].
    by destruct s.
Qed.

(** C9, as the code has it. While a server is recorded, the reader thread
    consumes every line of the stream and changes nothing but the log
    buffer, which ends as the last 1000 of: the lines it held, followed by
    the stripped decoded text of each line read whose text is not blank. A
    blank line adds nothing, and neither does a line whose decoding raises:
    the lines after it are still taken. *)
Theorem log_reader_keeps_nonblank stderr s p :
  server_process s = Some p →
  (length (log_buffer s) ≤ 1000)%nat →
  log_reader_with decode stderr s
  = set_log_buffer
      (last_n 1000 (log_buffer s ++ omap (kept_line decode) stderr)) s.
Proof.
  intros Hp Hlen. unfold log_reader_with. rewrite Hp.
  rewrite log_reader_fold. f_equal. by apply log_append_all.
Qed.
End Reader.

Lemma log_reader_keeps_nonblank_witness :
  server_process example_serving = Some {| pid := 4242 |}
  ∧ (length (log_buffer example_serving) ≤ 1000)%nat
  ∧ _log_reader_thread
      [[x20; x68; x69; x0a]; [x0a]; [xff; x0a]]%list example_serving
    = set_log_buffer [text_load; text_ok; text_hi; [REPLACEMENT]]
        example_serving.
Proof.
  split; [reflexivity |]. split; [simpl; lia |].
  unfold _log_reader_thread.
  rewrite (log_reader_keeps_nonblank bytes_decode _ example_serving
             {| pid := 4242 |}); [reflexivity | reflexivity | simpl; lia].
Defined.

(** C9 as stated fails on a blank line: the thread reads the line feed, whose
    decoded text is the line feed, and appends nothing. *)
Lemma log_reader_skips_blank_line :
  utf8_decode_replace [x0a] = [10]
  ∧ _log_reader_thread [[x0a]] example_serving = example_serving
  ∧ utf8_decode_replace [x0a] ∉ log_buffer (_log_reader_thread [[x0a]] example_serving).
Proof.
  split_and!; [reflexivity | reflexivity |].
  vm_compute. intros Hin.
  repeat (apply elem_of_cons in Hin as [Hin|Hin]; [discriminate Hin |]).
  by apply elem_of_nil in Hin.
Qed.

(** ** Model registry *)

(** C2, as the code has it. When [self.model_dir] names something that does
    not exist or is not a directory, [refresh_file_list] returns normally,
    puts the message "Error: Directory not found: ..." in the status line and
    leaves the selection cursor and the scroll offset as they were; the list
    of models is emptied, because [self.files = []] comes before the test.
    Nothing else changes. *)
Theorem refresh_file_list_missing_dir e s dir :
  attrs s !! "model_dir" = Some (VStr dir) →
  path_exists e dir && path_is_dir e dir = false →
  ∃ s', refresh_file_list e s = Ok s'
        ∧ s' = set_msg_log ("Error: Directory not found: " +:+ dir) (set_files [] s)
        ∧ files s' = []
        ∧ selected_file_idx s' = selected_file_idx s
        ∧ file_offset s' = file_offset s
        ∧ msg_log s' = "Error: Directory not found: " +:+ dir.
Proof.
  intros Hdir Hmissing. unfold refresh_file_list, getattr.
  rewrite Hdir. simpl. rewrite Hmissing. by eexists.
Qed.

Lemma refresh_file_list_missing_dir_witness :
  attrs example_dir_gone !! "model_dir" = Some (VStr "/gone")
  ∧ path_exists (example_env "") "/gone" && path_is_dir (example_env "") "/gone"
    = false
  ∧ ∃ s', refresh_file_list (example_env "") example_dir_gone = Ok s'
          ∧ s' = set_msg_log ("Error: Directory not found: " +:+ "/gone")
                   (set_files [] example_dir_gone)
          ∧ files s' = []
          ∧ selected_file_idx s' = selected_file_idx example_dir_gone
          ∧ file_offset s' = file_offset example_dir_gone
          ∧ msg_log s' = "Error: Directory not found: " +:+ "/gone".
Proof.
  split; [reflexivity |]. split; [reflexivity |].
  apply (refresh_file_list_missing_dir (example_env "") example_dir_gone "/gone");
    reflexivity.
Defined.

(** C2 as stated fails: the console shows [a.gguf] and [b.gguf], its
    directory is gone, and after the refresh the list is empty. *)
Lemma refresh_file_list_missing_dir_clears_list :
  files example_dir_gone = [a_gguf; b_gguf]
  ∧ path_exists (example_env "") "/gone" = false
  ∧ ∃ s', refresh_file_list (example_env "") example_dir_gone = Ok s'
          ∧ files s' ≠ files example_dir_gone.
Proof.
  split; [reflexivity |]. split; [reflexivity |].
  eexists. split; [reflexivity |]. discriminate.
Qed.

(** ** The command line of the child process *)





Section CommandLine.
Context (c : Configuration) (s0 : LlamaTUI) (bin model : string).

(** An object whose attributes are those of the configuration [c]. *)
Let s : LlamaTUI := set_attrs (attrs_of c) s0.

Let ngl : bool :=
  (String.eqb (c_backend c) "CUDA" || String.eqb (c_backend c) "VULKAN")
  && (0 <? c_gpu_layers c).

Ltac attrs_of_lookups :=
  change (attrs_of c !! "port") with (Some (VStr (c_port c)));
  change (attrs_of c !! "allow_lan") with (Some (VBool (c_allow_lan c)));
  change (attrs_of c !! "host_ip") with (Some (VStr (c_host_ip c)));
  change (attrs_of c !! "backend") with (Some (VStr (c_backend c)));
  change (attrs_of c !! "gpu_layers") with (Some (VInt (c_gpu_layers c)));
  change (attrs_of c !! "n_threads") with (Some (VInt (c_n_threads c)));
  change (attrs_of c !! "context_size")
    with (Some (VInt (c_context_size c))).

(** The list [start_server] builds, written out, when every count that is
    printed has a numeral [str] accepts. *)
Lemma build_cmd_eq :
  (ngl = true → str_fits (c_gpu_layers c) = true) →
  (0 < c_n_threads c → str_fits (c_n_threads c) = true) →
  (0 < c_context_size c → str_fits (c_context_size c) = true) →
  build_cmd s bin model = Ok (
    [VStr bin; VStr "-m"; VStr model; VStr "--port"; VStr (c_port c);
     VStr "--host"; VStr (if c_allow_lan c then c_host_ip c else "127.0.0.1")]
    ++ (if ngl then [VStr "-ngl"; VStr (str_int (c_gpu_layers c))] else [])
    ++ (if 0 <? c_n_threads c
        then [VStr "-t"; VStr (str_int (c_n_threads c))] else [])
    ++ (if 0 <? c_context_size c
        then [VStr "-c"; VStr (str_int (c_context_size c))] else [])).
Proof.
  unfold build_cmd, ngl, getattr, s. simpl attrs. attrs_of_lookups.
  intros Hngl Ht Hc. simpl.
  destruct (c_allow_lan c); simpl;
    destruct (String.eqb (c_backend c) "CUDA"),
             (String.eqb (c_backend c) "VULKAN"); simpl in *;
    destruct (Z.ltb_spec 0 (c_gpu_layers c)); simpl in *;
    rewrite ?Hngl by done; simpl;
    destruct (Z.ltb_spec 0 (c_n_threads c)); simpl;
    rewrite ?Ht by done; simpl;
    destruct (Z.ltb_spec 0 (c_context_size c)); simpl;
    rewrite ?Hc by done; simpl; reflexivity.
Qed.

(** With attributes of the right types [build_cmd] raises nothing but the
    [ValueError] of [str], and only for a count that does not fit. *)
Lemma build_cmd_typed :
  (∃ cmd, build_cmd s bin model = Ok cmd)
  ∨ (build_cmd s bin model = Raise ValueError
     ∧ (str_fits (c_gpu_layers c) = false
        ∨ str_fits (c_n_threads c) = false
        ∨ str_fits (c_context_size c) = false)).
Proof.
  destruct (str_fits (c_gpu_layers c)) eqn:Hg;
    destruct (str_fits (c_n_threads c)) eqn:Ht;
    destruct (str_fits (c_context_size c)) eqn:Hc;
    try (left; eexists; apply build_cmd_eq; by intros _).
  all: unfold build_cmd, getattr, s; simpl attrs; attrs_of_lookups; simpl;
    rewrite ?Hg, ?Ht, ?Hc;
    destruct (c_allow_lan c); simpl;
    destruct (String.eqb (c_backend c) "CUDA"),
             (String.eqb (c_backend c) "VULKAN"); simpl;
    destruct (0 <? c_gpu_layers c); simpl;
    destruct (0 <? c_n_threads c); simpl;
    destruct (0 <? c_context_size c); simpl;
    first [ left; by eexists | right; split; [reflexivity | auto] ].
Qed.

End CommandLine.








(** ** Config store *)

Section ConfigStore.
Implicit Types (s : LlamaTUI) (m d : gmap string value).

Lemma set_config_same s : set_config (config s) s = s.
Proof. by destruct s. Qed.

Lemma set_attrs_same s : set_attrs (attrs s) s = s.
Proof. by destruct s. Qed.

(** The loop of [sync_config_to_attributes] over a dictionary [m]. *)
Lemma setattr_loop s m :
  map_fold (λ key v s, setattr key v s) s m = set_attrs (m ∪ attrs s) s.
Proof.
  apply (map_fold_weak_ind (λ r m, r = set_attrs (m ∪ attrs s) s)).
  - by rewrite (left_id_L ∅ (∪)), set_attrs_same.
  - intros i x m' r _ ->. unfold setattr. simpl.
    by rewrite insert_union_l.
Qed.

Lemma sync_config_to_attributes_eq s :
  sync_config_to_attributes s = set_attrs (config s ∪ attrs s) s.
Proof. apply setattr_loop. Qed.

(** The loop of [load_settings] over a dictionary [m]. *)
Lemma overlay_loop settings s m :
  map_fold (λ key default_value s,
              set_config (<[key := dict_get settings key default_value]>
                            (config s)) s) s m
  = set_config (overlay settings m ∪ config s) s.
Proof.
  apply (map_fold_weak_ind
           (λ r m, r = set_config (overlay settings m ∪ config s) s)).
  - unfold overlay. by rewrite map_imap_empty, (left_id_L ∅ (∪)), set_config_same.
  - intros i x m' r _ ->. simpl. unfold overlay.
    erewrite map_imap_insert_Some by done.
    by rewrite insert_union_l.
Qed.

Lemma overlay_lookup settings d k :
  overlay settings d !! k
  = (λ default_value, default default_value (settings !! k)) <$> d !! k.
Proof. unfold overlay. rewrite map_lookup_imap. by destruct (d !! k). Qed.

Lemma overlay_union settings d : overlay settings d ∪ d = overlay settings d.
Proof.
  apply map_eq. intros k. rewrite lookup_union, overlay_lookup.
  by destruct (d !! k).
Qed.

(** The loop of [sync_attributes_to_config] over a dictionary [m] whose
    keys are all attributes: no [getattr] raises. *)
Lemma getattr_loop s m :
  dom m ⊆ dom (attrs s) →
  map_fold (λ key (_ : value) (acc : outcome LlamaTUI),
              s ← acc;
              v ← getattr s key;
              mret (set_config (<[key := v]> (config s)) s))
           (Ok s) m
  = Ok (set_config (map_imap (λ key _, attrs s !! key) m ∪ config s) s).
Proof.
  apply (map_fold_weak_ind
           (λ r m, dom m ⊆ dom (attrs s) →
                   r = Ok (set_config
                             (map_imap (λ key _, attrs s !! key) m ∪ config s) s))).
  - intros _. by rewrite map_imap_empty, (left_id_L ∅ (∪)), set_config_same.
  - intros i x m' r _ IH Hdom. rewrite dom_insert in Hdom.
    rewrite IH by set_solver. simpl. unfold getattr. simpl.
    assert (is_Some (attrs s !! i)) as [v Hv] by (apply elem_of_dom; set_solver).
    rewrite Hv. simpl.
    erewrite map_imap_insert_Some by done.
    by rewrite insert_union_l.
Qed.

(** When the attributes carry the dictionary, writing them back changes
    nothing. *)
Lemma sync_attributes_to_config_synced s :
  config s ⊆ attrs s → sync_attributes_to_config s = Ok s.
Proof.
  intros Hsub. unfold sync_attributes_to_config.
  rewrite getattr_loop by by apply subseteq_dom.
  assert (map_imap (λ key _, attrs s !! key) (config s) ∪ config s = config s)
    as ->; [| by rewrite set_config_same].
  apply map_eq. intros k. rewrite lookup_union, map_lookup_imap.
  destruct (config s !! k) as [v|] eqn:Hk; simpl; [| done].
  rewrite map_subseteq_spec in Hsub. by rewrite (Hsub _ _ Hk).
Qed.

Lemma save_settings_synced e s :
  config s ⊆ attrs s →
  save_settings e s
  = Ok (if can_write e
        then set_settings_file (Some (Pickled (ODict (config s)))) s
        else s).
Proof.
  intros Hsub. unfold save_settings.
  by rewrite sync_attributes_to_config_synced.
Qed.

Lemma at_load_eq e disk :
  at_load e disk =
    {| running := true; server_process := None;
       running_model_path := None; log_buffer := [];
       log_thread := None; show_log := false;
       show_nvidia_smi := false; config := default_config e;
       attrs := default_config e; settings_file := disk;
       active_field := 0; selected_file_idx := 0; file_offset := 0;
       files := []; msg_log := "" |}.
Proof.
  unfold at_load. rewrite sync_config_to_attributes_eq. simpl.
  unfold set_attrs. simpl. by rewrite (right_id_L ∅ (∪)).
Qed.

(** C8. [load_settings], called by [__init__] on the defaults, returns
    normally, with the attributes equal to the dictionary, and writes the
    dictionary to the settings file when the file can be written. When the
    file is absent, cannot be unpickled or does not hold a dictionary, the
    dictionary is the default one. When the file holds a dictionary, each
    default key has the value the file gives it if the file has the key
    and its default value if not, and no other key is taken over. *)
Theorem load_settings_defaults_overlay e disk :
  ∃ s', load_settings e (at_load e disk) = Ok s'
    ∧ attrs s' = config s'
    ∧ settings_file s'
      = (if can_write e then Some (Pickled (ODict (config s'))) else disk)
    ∧ match disk with
      | Some (Pickled (ODict settings)) =>
          (∀ k, settings !! k = None →
                config s' !! k = default_config e !! k)
          ∧ (∀ k v, is_Some (default_config e !! k) → settings !! k = Some v →
                    config s' !! k = Some v)
          ∧ dom (config s') = dom (default_config e)
      | _ => config s' = default_config e
      end.
Proof.
  unfold load_settings. rewrite at_load_eq. simpl.
  destruct disk as [[|[settings|]]|]; simpl.
  2: { rewrite overlay_loop, sync_config_to_attributes_eq. simpl.
       rewrite !overlay_union.
       rewrite save_settings_synced by done. simpl.
       eexists. split; [done |].
       split_and!.
       - by destruct (can_write e).
       - by destruct (can_write e).
       - intros k Hk. destruct (can_write e); simpl;
           rewrite overlay_lookup, Hk; by destruct (default_config e !! k).
       - intros k v [d Hd] Hk. destruct (can_write e); simpl;
           by rewrite overlay_lookup, Hk, Hd.
       - apply set_eq. intros k. rewrite !elem_of_dom.
         destruct (can_write e); simpl; rewrite overlay_lookup;
           by rewrite fmap_is_Some. }
  all: rewrite save_settings_synced by done; simpl;
    eexists; (split; [done |]); by destruct (can_write e).
Qed.
End ConfigStore.

(** ** The selection cursor *)

(** Take apart a hypothesis [H : m = Ok s'] where [m] is built from binds,
    tests and matches. *)
Ltac outcome_cases H :=
  unfold mbind, outcome_bind, mret, outcome_ret in H;
  repeat (simpl in H;
          match type of H with
          | Ok _ = Ok _ => injection H as H
          | Raise _ = Ok _ => discriminate H
          | context [match ?x with _ => _ end] => destruct x eqn:?
          | context [if ?b then _ else _] => destruct b eqn:?
          end).

(** Close a goal on cursors from the equations at hand. *)
Ltac cursor_eq :=
  unfold cursor in *; simpl in *; simplify_eq; simpl; congruence.

Section Cursor.
Implicit Types (s : LlamaTUI) (e : Env).

Lemma sync_attributes_to_config_cursor s s' :
  sync_attributes_to_config s = Ok s' → cursor s' = cursor s.
Proof.
  unfold sync_attributes_to_config. revert s'.
  apply (map_fold_weak_ind (λ r (_ : gmap string value),
           ∀ s', r = Ok s' → cursor s' = cursor s)).
  - by intros s' [= ->].
  - intros i x m r _ IH s' H. destruct r as [s1|]; [| done].
    outcome_cases H. subst s'. by rewrite <- (IH s1 eq_refl).
Qed.

Lemma save_settings_cursor e s s' :
  save_settings e s = Ok s' → cursor s' = cursor s.
Proof.
  unfold save_settings. intros H.
  destruct (sync_attributes_to_config s) as [s1|] eqn:H1; [| done].
  apply sync_attributes_to_config_cursor in H1.
  outcome_cases H; by subst s'.
Qed.

Lemma start_server_cursor e s msg s' :
  start_server e s = Ok (msg, s') → cursor s' = cursor s.
Proof. unfold start_server. intros H. outcome_cases H; by simplify_eq. Qed.

Lemma kill_server_cursor e s : cursor (kill_server e s).2 = cursor s.
Proof.
  unfold kill_server.
  by destruct (server_process s), (killpg_wait e), (terminate_wait e).
Qed.

Lemma check_schedule_cursor e s s' :
  check_schedule e s = Ok s' → cursor s' = cursor s.
Proof.
  unfold check_schedule. intros H.
  destruct (start_server e s) as [[msg s1]|] eqn:Hstart.
  - apply start_server_cursor in Hstart.
    outcome_cases H; cursor_eq.
  - outcome_cases H; cursor_eq.
Qed.

Lemma edit_server_dir_cursor e s s' :
  edit_server_dir e s = Ok s' → cursor s' = cursor s.
Proof.
  unfold edit_server_dir. intros H.
  outcome_cases H; try cursor_eq.
  apply save_settings_cursor in H. cursor_eq.
Qed.

Lemma edit_int_field_cursor e key lower done_msg low_msg s s' :
  edit_int_field e key lower done_msg low_msg s = Ok s' → cursor s' = cursor s.
Proof.
  unfold edit_int_field. intros H.
  outcome_cases H; try cursor_eq.
  apply save_settings_cursor in H. cursor_eq.
Qed.

Lemma toggle_schedule_cursor e s s' :
  toggle_schedule e s = Ok s' → cursor s' = cursor s.
Proof.
  unfold toggle_schedule. intros H.
  outcome_cases H; try cursor_eq;
    apply save_settings_cursor in H; cursor_eq.
Qed.

Lemma cursor_ok_eq s s' : cursor s' = cursor s → cursor_ok s → cursor_ok s'.
Proof. unfold cursor_ok. intros [= -> ->]. done. Qed.

Lemma refresh_file_list_cursor_ok e s s' :
  refresh_file_list e s = Ok s' → cursor_ok s'.
Proof.
  unfold refresh_file_list, cursor_ok. intros H.
  outcome_cases H; subst s'; simpl; [| by left].
  destruct (merge_sort name_le _) as [|f fs]; [by left | right].
  simpl length. lia.
Qed.

(** Turn the calls at hand into facts on cursors and conclude from the
    invariant [Hok] of the starting state. *)
Ltac cursor_finish Hok :=
  repeat match goal with
    | H : save_settings _ _ = Ok _ |- _ => apply save_settings_cursor in H
    | H : edit_server_dir _ _ = Ok _ |- _ => apply edit_server_dir_cursor in H
    | H : edit_int_field _ _ _ _ _ _ = Ok _ |- _ => apply edit_int_field_cursor in H
    | H : toggle_schedule _ _ = Ok _ |- _ => apply toggle_schedule_cursor in H
    | H : start_server _ _ = Ok _ |- _ => apply start_server_cursor in H
    | H : check_schedule _ _ = Ok _ |- _ => apply check_schedule_cursor in H
    end;
  first
    [ by (eapply cursor_ok_eq; [| exact Hok]; cursor_eq)
    | match goal with
      | H : refresh_file_list _ _ = Ok _ |- _ =>
          apply refresh_file_list_cursor_ok in H;
          by (eapply cursor_ok_eq; [| exact H]; cursor_eq)
      end ].

Lemma on_enter_cursor_ok e s s' :
  on_enter e s = Ok s' → cursor_ok s → cursor_ok s'.
Proof.
  unfold on_enter. intros H Hok.
  outcome_cases H; cursor_finish Hok.
Qed.

Lemma on_key_cursor_ok key e s s' :
  on_key key e s = Ok s' → cursor_ok s → cursor_ok s'.
Proof.
  unfold on_key. intros H Hok.
  pose proof (kill_server_cursor e s) as Hkill.
  outcome_cases H; try cursor_finish Hok.
  - (* KEY_UP *)
    subst s'. apply andb_true_iff in Heqb7 as [_ Hpos%Z.ltb_lt].
    unfold cursor_ok in *. simpl. destruct Hok; [by left | right; lia].
  - (* KEY_DOWN *)
    subst s'. apply andb_true_iff in Heqb8 as [_ Hlast%Z.ltb_lt].
    unfold cursor_ok in *. simpl. destruct Hok; [by left | right; lia].
  - (* ENTER *)
    by eapply on_enter_cursor_ok.
Qed.

Lemma draw_main_cursor h w s s' :
  draw_main h w s = Ok s' → cursor s' = cursor s.
Proof. unfold draw_main. intros H. outcome_cases H; cursor_eq. Qed.

Lemma run_iteration_cursor_ok t s s' :
  run_iteration t s = Ok s' → cursor_ok s → cursor_ok s'.
Proof.
  unfold run_iteration. intros H Hok.
  destruct (getmaxyx t) as [h w].
  destruct (show_nvidia_smi s), (show_log s), ((h <? 20) || (w <? 80));
    try (outcome_cases H; by cursor_finish Hok).
  unfold mbind, outcome_bind in H.
  destruct (draw_main h w s) as [s1|] eqn:Hdraw; [| done].
  destruct (check_schedule (sched_env t) s1) as [s2|] eqn:Hsched; [| done].
  eapply on_key_cursor_ok; [exact H |].
  apply draw_main_cursor in Hdraw. apply check_schedule_cursor in Hsched.
  eapply cursor_ok_eq; [| exact Hok]. congruence.
Qed.

Lemma log_reader_step_cursor decode line s :
  cursor (log_reader_step decode line s) = cursor s.
Proof.
  unfold log_reader_step.
  destruct (decode line); [| done]. by case_bool_decide.
Qed.

Lemma init_cursor_ok e disk s : __init__ e disk = Ok s → cursor_ok s.
Proof.
  unfold __init__. intros H.
  unfold mbind, outcome_bind in H.
  destruct (load_settings e (at_load e disk)) as [s1|]; [| done].
  by apply refresh_file_list_cursor_ok in H.
Qed.

Lemma reachable_cursor_ok s : reachable s → cursor_ok s.
Proof.
  induction 1 as [e disk s Hinit | t s s' _ IH _ Hstep | line s _ IH].
  - by eapply init_cursor_ok.
  - by eapply run_iteration_cursor_ok.
  - eapply cursor_ok_eq; [| exact IH]. apply log_reader_step_cursor.
Qed.

Lemma py_index_in_bounds {A} (l : list A) i :
  0 ≤ i < Z.of_nat (length l) → ∃ x, py_index l i = Ok x.
Proof.
  intros Hi. unfold py_index.
  destruct (Z.ltb_spec i 0); [lia |].
  destruct (Z.leb_spec 0 i); [| lia].
  destruct (Z.ltb_spec i (Z.of_nat (length l))); [| lia]. simpl.
  destruct (lookup_lt_is_Some_2 l (Z.to_nat i)) as [x ->]; [lia |]. by eexists.
Qed.

Lemma build_cmd_no_index_error s bin model :
  build_cmd s bin model ≠ Raise IndexError.
Proof.
  unfold build_cmd, getattr, py_gt0, py_str, mbind, outcome_bind, mret,
    outcome_ret.
  repeat (case_match; simplify_eq; try done).
Qed.

(** C10. In every reachable state with a model list that is not empty, the
    selection index is at least 0 and less than the length of the list, and
    the read [self.files[self.selected_file_idx]] of [start_server] returns
    an element. When the list is empty [start_server] returns its message
    before the read, so in no reachable state does it raise [IndexError]. *)
Theorem selected_file_idx_in_bounds s :
  reachable s →
  (files s ≠ [] →
   0 ≤ selected_file_idx s < Z.of_nat (length (files s))
   ∧ ∃ f, py_index (files s) (selected_file_idx s) = Ok f)
  ∧ ∀ e, start_server e s ≠ Raise IndexError.
Proof.
  intros Hreach. apply reachable_cursor_ok in Hreach as Hok.
  assert (Hin : files s ≠ [] →
                0 ≤ selected_file_idx s < Z.of_nat (length (files s))
                ∧ ∃ f, py_index (files s) (selected_file_idx s) = Ok f).
  { intros Hne. destruct Hok as [|Hok]; [done |].
    split; [done |]. by apply py_index_in_bounds. }
  split; [done |].
  intros e H. unfold start_server in H.
  case_bool_decide; [done |]. case_bool_decide as Hne; [done |].
  destruct (Hin Hne) as [_ [f Hf]]. rewrite Hf in H.
  unfold mbind, outcome_bind, mret, outcome_ret in H.
  repeat (simpl in H; case_match; try discriminate H);
    simplify_eq;
    repeat match goal with
      | E : build_cmd _ _ _ = Raise _ |- _ => by apply build_cmd_no_index_error in E
      | E : getattr _ _ = Raise _ |- _ => unfold getattr in E; by case_match
      | E : as_path _ = Raise _ |- _ => unfold as_path in E; by case_match
      end.
Qed.
End Cursor.

Lemma selected_file_idx_in_bounds_witness :
  reachable example_initial
  ∧ files example_initial ≠ []
  ∧ 0 ≤ selected_file_idx example_initial
      < Z.of_nat (length (files example_initial)).
Proof.
  assert (Hreach : reachable example_initial).
  { apply (reachable_init (example_env "") None). vm_compute. reflexivity. }
  split; [exact Hreach |]. split; [discriminate |].
  apply (selected_file_idx_in_bounds example_initial Hreach). discriminate.
Defined.

(** ** The schedule toggle *)

Lemma ascii_val_inj a b : ascii_val a = ascii_val b → a = b.
Proof.
  unfold ascii_val. intros H%(inj Z.of_N).
  rewrite <- (ascii_N_embedding a), <- (ascii_N_embedding b). by rewrite H.
Qed.

Lemma is_digit_range a : is_digit a = true → 0 ≤ digit_val a ≤ 9.
Proof. unfold is_digit, digit_val. lia. Qed.

Lemma is_digit_two a : is_digit a = true → digit_val a = 2 → Ascii.eqb a "2" = true.
Proof.
  unfold digit_val. intros _ H. apply Ascii.eqb_eq, ascii_val_inj.
  change (ascii_val "2") with 50. lia.
Qed.

(** [strptime] accepts every string of the grammar "HH:MM". *)
Lemma HHMM_strptime t :
  HHMM t = true → ∃ h m, strptime_HM t = Ok (h, m).
Proof.
  destruct t as [|h1 [|h2 [|c [|m1 [|m2 [|? ?]]]]]]; try done.
  unfold HHMM. rewrite !andb_true_iff.
  intros [[[[[[D1 D2] C] D3] D4] Hh%Z.leb_le] Hm%Z.leb_le].
  pose proof (is_digit_range _ D1). pose proof (is_digit_range _ D2).
  pose proof (is_digit_range _ D3). pose proof (is_digit_range _ D4).
  assert (M1 : (digit_val m1 <=? 5) = true) by (apply Z.leb_le; lia).
  unfold strptime_HM, match_H. rewrite D1, D2.
  destruct (Ascii.eqb h1 "2") eqn:E2, (Z.leb_spec (digit_val h2) 3),
    (Z.leb_spec (digit_val h1) 1); simpl;
    rewrite ?C; simpl; rewrite ?D3, ?D4, ?M1; simpl; eauto.
  all: exfalso.
  all: try (rewrite is_digit_two in E2; [done | done | lia]).
  apply Ascii.eqb_eq in E2. subst h1. change (digit_val "2") with 2 in *. lia.
Qed.

Section Schedule.
Context (e : Env) (s : LlamaTUI).

Lemma sync_attributes_to_config_attrs s1 s' :
  sync_attributes_to_config s1 = Ok s' → attrs s' = attrs s1.
Proof.
  unfold sync_attributes_to_config. revert s'.
  apply (map_fold_weak_ind (λ r (_ : gmap string value),
           ∀ s', r = Ok s' → attrs s' = attrs s1)).
  - by intros s' [= ->].
  - intros i x m r _ IH s' H. destruct r as [s2|]; [| done].
    outcome_cases H. subst s'. by rewrite <- (IH s2 eq_refl).
Qed.

Lemma save_settings_attrs s1 :
  dom (config s1) ⊆ dom (attrs s1) →
  ∃ s', save_settings e s1 = Ok s' ∧ attrs s' = attrs s1.
Proof.
  intros Hdom. unfold save_settings, sync_attributes_to_config.
  rewrite getattr_loop by done. simpl.
  eexists. split; [done |]. by destruct (can_write e).
Qed.

(** The schedule is off. *)
Context (v : value).
Hypothesis Hactive : attrs s !! "schedule_active" = Some v.
Hypothesis Hoff : truthy v = false.

(** What [strptime] rejects leaves the schedule as it is and reports the
    validation error. *)
Lemma toggle_schedule_rejected err :
  strptime_HM (input_str e "08:00") = Raise err →
  toggle_schedule e s = Ok (set_msg_log "Invalid time format. Use HH:MM" s).
Proof.
  intros Hbad. unfold toggle_schedule, getattr.
  rewrite Hactive. simpl. by rewrite Hoff, Hbad.
Qed.

(** What the grammar "HH:MM" accepts is stored and activates the schedule. *)
Lemma toggle_schedule_HHMM :
  dom (config s) ⊆ dom (attrs s) →
  HHMM (input_str e "08:00") = true →
  ∃ s', toggle_schedule e s = Ok s'
        ∧ attrs s' !! "schedule_time" = Some (VStr (input_str e "08:00"))
        ∧ attrs s' !! "schedule_active" = Some (VBool true).
Proof.
  intros Hdom [h [m Hok]]%HHMM_strptime. unfold toggle_schedule, getattr.
  rewrite Hactive. simpl. rewrite Hoff, Hok.
  edestruct save_settings_attrs as [s' [-> Hattrs]]; [| eexists; split; [done |]].
  - simpl. rewrite !dom_insert. set_solver.
  - rewrite Hattrs. simpl. split; by simplify_map_eq.
Qed.
End Schedule.

(** The two inputs of the specification. *)
Example strptime_25_61 : strptime_HM "25:61" = Raise ValueError.
Proof. reflexivity. Qed.

Example strptime_08_00 : HHMM "08:00" = true ∧ strptime_HM "08:00" = Ok (8, 0).
Proof. split; reflexivity. Qed.

(** C7, where the code departs from it. The string "8:00" is not of the
    grammar "HH:MM", yet ENTER on the schedule field with "8:00" typed at the
    prompt stores it and turns the schedule on, with the message
    "Scheduled for 8:00" in place of the validation error: [strptime] takes
    a single digit for [%H] and for [%M]. *)
Theorem toggle_schedule_accepts_one_digit_hour :
  HHMM "8:00" = false
  ∧ attrs example_stopped !! "schedule_active" = Some (VBool false)
  ∧ observe (on_key 10 (example_env "8:00") (set_active_field 9 example_stopped))
            (λ s', (attrs s' !! "schedule_active",
                    attrs s' !! "schedule_time",
                    msg_log s'))
    = Some (Some (VBool true), Some (VStr "8:00"), "Scheduled for 8:00").
Proof. split_and!; vm_compute; reflexivity. Qed.

(** A schedule time outside the grammar never starts the server: the clock
    is read as [strftime("%H:%M")] prints it, which is of the grammar. *)
Lemma check_schedule_never_fires e s t :
  attrs s !! "schedule_time" = Some (VStr t) →
  HHMM t = false →
  HHMM (now_HM e) = true →
  check_schedule e s = match getattr s "schedule_active" with
                       | Ok _ => Ok s
                       | Raise err => Raise err
                       end.
Proof.
  intros Ht Hbad Hnow. unfold check_schedule, getattr. rewrite Ht.
  destruct (attrs s !! "schedule_active") as [v|]; simpl; [| done].
  destruct (truthy v && _); simpl; [| done].
  destruct (String.eqb_spec t (now_HM e)) as [->|]; [congruence | done].
Qed.

(** ** The log buffer along a run *)

Section LogAlongRun.
Implicit Types (s : LlamaTUI) (e : Env).

Lemma log_kept_refl s : log_kept s s.
Proof. by left. Qed.

Lemma log_kept_trans s1 s2 s3 : log_kept s1 s2 → log_kept s2 s3 → log_kept s1 s3.
Proof. unfold log_kept. intros [H12|H12] [H23|H23]; rewrite ?H23, ?H12; auto. Qed.

Lemma log_kept_bounded s s' :
  log_kept s s' →
  (length (log_buffer s) ≤ log_max_lines)%nat →
  (length (log_buffer s') ≤ log_max_lines)%nat.
Proof. intros [->| ->]; [done | simpl; lia]. Qed.

Lemma sync_attributes_to_config_log s s' :
  sync_attributes_to_config s = Ok s' → log_buffer s' = log_buffer s.
Proof.
  unfold sync_attributes_to_config. revert s'.
  apply (map_fold_weak_ind (λ r (_ : gmap string value),
           ∀ s', r = Ok s' → log_buffer s' = log_buffer s)).
  - by intros s' [= ->].
  - intros i x m r _ IH s' H. destruct r as [s1|]; [| done].
    outcome_cases H. subst s'. by rewrite <- (IH s1 eq_refl).
Qed.

Lemma save_settings_log e s s' :
  save_settings e s = Ok s' → log_kept s s'.
Proof.
  unfold save_settings. intros H.
  destruct (sync_attributes_to_config s) as [s1|] eqn:H1; [| done].
  apply sync_attributes_to_config_log in H1.
  outcome_cases H; subst s'; by left.
Qed.

Lemma start_server_log e s msg s' :
  start_server e s = Ok (msg, s') → log_kept s s'.
Proof.
  unfold start_server. intros H.
  outcome_cases H; simplify_eq; first [by left | by right].
Qed.

Lemma kill_server_log e s : log_kept s (kill_server e s).2.
Proof.
  unfold kill_server.
  destruct (server_process s), (killpg_wait e), (terminate_wait e);
    first [by left | by right].
Qed.

(** Reduce a goal [log_kept s s'] to the calls that lead from [s] to [s']. *)
Ltac log_finish :=
  repeat match goal with
    | H : save_settings _ _ = Ok _ |- _ => apply save_settings_log in H
    | H : start_server _ _ = Ok _ |- _ => apply start_server_log in H
    | H : refresh_file_list _ _ = Ok _ |- _ =>
        unfold refresh_file_list in H; outcome_cases H
    end;
  unfold log_kept in *; simpl in *; simplify_eq; simpl in *;
  repeat match goal with H : _ ∨ _ |- _ => destruct H end;
  first [left; congruence | right; congruence].

Lemma check_schedule_log e s s' :
  check_schedule e s = Ok s' → log_kept s s'.
Proof.
  unfold check_schedule. intros H.
  destruct (start_server e s) as [[msg s1]|] eqn:Hstart;
    outcome_cases H; log_finish.
Qed.

Lemma on_key_log key e s s' :
  on_key key e s = Ok s' → log_kept s s'.
Proof.
  unfold on_key, on_enter, edit_server_dir, edit_int_field, toggle_schedule.
  intros H. pose proof (kill_server_log e s) as Hkill.
  outcome_cases H; log_finish.
Qed.

Lemma run_iteration_log t s s' :
  run_iteration t s = Ok s' → log_kept s s'.
Proof.
  unfold run_iteration. intros H.
  destruct (getmaxyx t) as [h w].
  destruct (show_nvidia_smi s), (show_log s), ((h <? 20) || (w <? 80));
    try (outcome_cases H; by log_finish).
  unfold mbind, outcome_bind in H.
  destruct (draw_main h w s) as [s1|] eqn:Hdraw; [| done].
  destruct (check_schedule (sched_env t) s1) as [s2|] eqn:Hsched; [| done].
  apply check_schedule_log in Hsched. apply on_key_log in H.
  assert (log_kept s s1) by (unfold draw_main in Hdraw; outcome_cases Hdraw; log_finish).
  eauto using log_kept_trans.
Qed.

Lemma load_settings_log e s s' :
  load_settings e s = Ok s' → log_kept s s'.
Proof.
  unfold load_settings. intros H. apply save_settings_log in H.
  eapply log_kept_trans; [| exact H]. left.
  destruct (settings_file _) as [[|[settings|]]|]; try done.
  rewrite sync_config_to_attributes_eq. simpl. by rewrite overlay_loop.
Qed.

(** In every reachable state the log buffer holds at most 1000 lines. *)
Lemma reachable_log_buffer_bounded s :
  reachable s → (length (log_buffer s) ≤ 1000)%nat.
Proof.
  fold log_max_lines.
  induction 1 as [e disk s Hinit | t s s' _ IH _ Hstep | line s _ IH].
  - unfold __init__ in Hinit. unfold mbind, outcome_bind in Hinit.
    destruct (load_settings e (at_load e disk)) as [s1|] eqn:Hload; [| done].
    apply load_settings_log in Hload. rewrite at_load_eq in Hload.
    eapply (log_kept_bounded s1); [log_finish |].
    eapply log_kept_bounded; [exact Hload | simpl; lia].
  - eapply log_kept_bounded; [by eapply run_iteration_log | done].
  - rewrite log_reader_step_kept.
    destruct (kept_line bytes_decode line); [| done].
    by apply log_append_length.
Qed.
End LogAlongRun.

(** ** The examples of the specification *)

(** With the CPU backend and 8 layers configured no argument is ["-ngl"]. *)
Example build_cmd_cpu_8 :
  build_cmd (set_attrs (attrs_of example_config) example_stopped)
            "/models/llama-server" "/models/b.gguf"
  = Ok [VStr "/models/llama-server"; VStr "-m"; VStr "/models/b.gguf";
        VStr "--port"; VStr "8080"; VStr "--host"; VStr "127.0.0.1";
        VStr "-t"; VStr "4"; VStr "-c"; VStr "4096"].
Proof. reflexivity. Qed.

(** With the CUDA backend the layers are passed; LAN access being off, the
    host is the loopback address whatever the configured one. *)
Example build_cmd_cuda_8 :
  build_cmd (set_attrs (attrs_of example_config_cuda) example_stopped)
            "/models/llama-server" "/models/b.gguf"
  = Ok [VStr "/models/llama-server"; VStr "-m"; VStr "/models/b.gguf";
        VStr "--port"; VStr "8080"; VStr "--host"; VStr "127.0.0.1";
        VStr "-ngl"; VStr "8"; VStr "-t"; VStr "4"; VStr "-c"; VStr "4096"].
Proof. reflexivity. Qed.

(** A directory with [b.gguf], [a.gguf] and [c.txt] lists [a.gguf] then
    [b.gguf]. *)
Example refresh_file_list_sorted :
  observe (refresh_file_list (example_env "") example_stopped) files
  = Some [a_gguf; b_gguf].
Proof. reflexivity. Qed.

(** The fallback path of [kill_server], and both paths failing. *)
Example kill_server_fallback :
  kill_server (example_env_kill "No such process" true) example_serving
  = ("Server stopped (fallback).", clear_server example_serving).
Proof. reflexivity. Qed.

Example kill_server_both_fail :
  kill_server (example_env_kill "No such process" false) example_serving
  = ("Error stopping: No such process", example_serving).
Proof. reflexivity. Qed.

(** Starting from the example console spawns the child and records it. *)
Example start_server_spawns :
  start_server (example_env "") example_stopped
  = Ok ("SERVING: b.gguf - Press 'V' to view log.",
        set_running_model_path (Some "/models/b.gguf")
          (set_log_thread (Some {| pid := 4242 |})
             (set_log_buffer []
                (set_server_process (Some {| pid := 4242 |}) example_stopped)))).
Proof. reflexivity. Qed.

(** * Further properties *)

(** ** What [save_settings] touches *)

Section SaveFrame.
Implicit Types (s : LlamaTUI) (e : Env).

Lemma config_keys_dom e : dom (default_config e) = config_keys.
Proof. unfold default_config, config_keys. rewrite !dom_insert_L, dom_empty_L. set_solver. Qed.

(** The dictionary [save_settings] writes: the attribute of each key. *)
Lemma save_settings_keys_ok e s :
  keys_ok s →
  save_settings e s
  = Ok (let s1 := set_config (attrs s) s in
        if can_write e
        then set_settings_file (Some (Pickled (ODict (attrs s)))) s1
        else s1).
Proof.
  intros [Hc Ha]. unfold save_settings, sync_attributes_to_config.
  rewrite getattr_loop by (rewrite Hc, Ha; done). 
  assert (map_imap (λ key _, attrs s !! key) (config s) ∪ config s = attrs s) as ->; [| done].
  apply map_eq. intros k. rewrite lookup_union, map_lookup_imap.
  destruct (config s !! k) as [v|] eqn:Hk; simpl.
  - assert (is_Some (attrs s !! k)) as [w ->]; [| done].
    apply elem_of_dom. rewrite Ha, <- Hc. apply elem_of_dom. eauto.
  - symmetry. apply not_elem_of_dom. rewrite Ha, <- Hc. by apply not_elem_of_dom.
Qed.
End SaveFrame.

(** ** What each method changes *)

Section Frames.
Implicit Types (s : LlamaTUI) (e : Env).

Lemma start_server_frame e s msg s' :
  start_server e s = Ok (msg, s') →
  s' = s
  ∨ (server_process s = None
     ∧ ∃ p, s' = set_log_thread (Some p)
                   (set_log_buffer [] (set_server_process (Some p) s)))
  ∨ (server_process s = None
     ∧ ∃ p f, py_index (files s) (selected_file_idx s) = Ok f
              ∧ s' = set_running_model_path (Some (path_str f))
                       (set_log_thread (Some p)
                          (set_log_buffer [] (set_server_process (Some p) s)))).
Proof.
  unfold start_server. intros H.
  destruct (server_process s) as [p0|] eqn:Hp.
  { rewrite bool_decide_eq_true_2 in H by eauto. left.
    outcome_cases H. by simplify_eq. }
  rewrite bool_decide_eq_false_2 in H by (by intros [? ?]).
  outcome_cases H; simplify_eq;
    first [ by left
          | right; left; split; [done |]; by eauto
          | right; right; split; [done |]; by eauto ].
Qed.

Lemma kill_server_frame e s :
  (kill_server e s).2 = s
  ∨ (is_Some (server_process s) ∧ (kill_server e s).2 = clear_server s).
Proof.
  unfold kill_server.
  destruct (server_process s), (killpg_wait e), (terminate_wait e); simpl; eauto.
Qed.

Lemma refresh_file_list_frame e s s' :
  refresh_file_list e s = Ok s' →
  (∃ msg, s' = set_msg_log msg (set_files [] s))
  ∨ (∃ l, s' = set_file_offset 0 (set_selected_file_idx 0 (set_files l s))).
Proof.
  unfold refresh_file_list. intros H. outcome_cases H; subst s'; eauto.
Qed.
End Frames.

Section Invariant.
Implicit Types (s : LlamaTUI) (e : Env).

Lemma config_keys_absorb k : k ∈ config_keys → {[k]} ∪ config_keys = config_keys.
Proof. set_solver. Qed.

(** Membership of a literal key. *)
Ltac in_keys := by (apply bool_decide_unpack; vm_compute).

(** The key invariant of a state written with setters over [s]. *)
Ltac keys_tac :=
  match goal with
  | Hk : keys_ok _ |- keys_ok _ =>
      let Hkc := fresh "Hkc" in let Hka := fresh "Hka" in
      destruct Hk as [Hkc Hka]; split; simpl;
      rewrite ?dom_insert_L, ?Hkc, ?Hka;
      rewrite ?config_keys_absorb by in_keys; done
  end.

Lemma save_settings_keys e s s' :
  save_settings e s = Ok s' → keys_ok s → keys_ok s'.
Proof.
  intros H Hk. rewrite save_settings_keys_ok in H by done.
  injection H as <-. destruct Hk as [_ Ha].
  by destruct (can_write e).
Qed.

(** The key invariant of the state a branch ends in. *)
Ltac keys_end :=
  match goal with
  | Hs : save_settings _ _ = Ok ?a |- keys_ok _ =>
      cut (keys_ok a);
      [ by (let Hk := fresh in intros Hk; exact Hk)
      | eapply save_settings_keys; [exact Hs | keys_tac] ]
  | _ => keys_tac
  end.

(** Replace the calls in the hypotheses, but for [save_settings], by what
    they return. *)
Ltac frames :=
  repeat match goal with
    | Hq : kill_server ?e ?s = (_, _) |- _ =>
        let Hk := fresh "Hk" in
        pose proof (kill_server_frame e s) as Hk; rewrite Hq in Hk;
        simpl in Hk; clear Hq; destruct Hk as [->|[? ->]]
    | Hs : start_server _ _ = Ok _ |- _ =>
        apply start_server_frame in Hs
          as [->|[(? & ? & ->)|(? & ? & ? & ? & ->)]]
    | Hs : refresh_file_list _ _ = Ok _ |- _ =>
        apply refresh_file_list_frame in Hs as [[? ->]|[? ->]]
    end.

Lemma on_key_keys key e s s' :
  on_key key e s = Ok s' → keys_ok s → keys_ok s'.
Proof.
  unfold on_key, on_enter, edit_server_dir, edit_int_field, toggle_schedule.
  intros H Hok.
  outcome_cases H; frames; subst; keys_end.
Qed.

Lemma check_schedule_keys e s s' :
  check_schedule e s = Ok s' → keys_ok s → keys_ok s'.
Proof.
  unfold check_schedule. intros H Hok.
  destruct (start_server e s) as [[msg s1]|] eqn:Hstart;
    outcome_cases H; frames; subst; keys_end.
Qed.

Lemma draw_main_keys h w s s' :
  draw_main h w s = Ok s' → keys_ok s → keys_ok s'.
Proof. unfold draw_main. intros H Hok. outcome_cases H; subst; keys_end. Qed.

Lemma run_iteration_keys t s s' :
  run_iteration t s = Ok s' → keys_ok s → keys_ok s'.
Proof.
  unfold run_iteration. intros H Hok.
  destruct (getmaxyx t) as [h w].
  destruct (show_nvidia_smi s), (show_log s), ((h <? 20) || (w <? 80));
    try (outcome_cases H; subst; by keys_end).
  unfold mbind, outcome_bind in H.
  destruct (draw_main h w s) as [s1|] eqn:Hdraw; [| done].
  destruct (check_schedule (sched_env t) s1) as [s2|] eqn:Hsched; [| done].
  eauto using on_key_keys, check_schedule_keys, draw_main_keys.
Qed.

Lemma overlay_dom settings d : dom (overlay settings d) = dom d.
Proof.
  apply set_eq. intros k. rewrite !elem_of_dom, overlay_lookup.
  by rewrite fmap_is_Some.
Qed.

Lemma load_settings_keys e disk s' :
  load_settings e (at_load e disk) = Ok s' → keys_ok s'.
Proof.
  unfold load_settings. rewrite at_load_eq. simpl. intros H.
  eapply save_settings_keys; [exact H |].
  destruct disk as [[|[settings|]]|]; simpl.
  2: { rewrite overlay_loop, sync_config_to_attributes_eq. simpl.
       rewrite !overlay_union.
       split; simpl; rewrite overlay_dom; apply config_keys_dom. }
  all: split; apply config_keys_dom.
Qed.

Lemma init_keys e disk s : __init__ e disk = Ok s → keys_ok s.
Proof.
  unfold __init__. intros H. unfold mbind, outcome_bind in H.
  destruct (load_settings e (at_load e disk)) as [s1|] eqn:Hload; [| done].
  apply load_settings_keys in Hload.
  frames; destruct (String.eqb (msg_log _) ""); keys_end.
Qed.

Lemma reachable_keys s : reachable s → keys_ok s.
Proof.
  induction 1 as [e disk s Hinit | t s s' _ IH _ Hstep | line s _ IH].
  - by eapply init_keys.
  - by eapply run_iteration_keys.
  - unfold log_reader_step. destruct (bytes_decode line); [| done].
    case_bool_decide; [keys_end | done].
Qed.

Lemma sync_attributes_to_config_frame s s' :
  sync_attributes_to_config s = Ok s' → ∃ c, s' = set_config c s.
Proof.
  unfold sync_attributes_to_config. revert s'.
  apply (map_fold_weak_ind (λ r (_ : gmap string value),
           ∀ s', r = Ok s' → ∃ c, s' = set_config c s)).
  - intros s' [= <-]. exists (config s). by destruct s.
  - intros i x m r _ IH s' H. destruct r as [s1|]; [| done].
    destruct (IH s1 eq_refl) as [c ->].
    outcome_cases H. subst s'. by eexists.
Qed.

Lemma save_settings_frame e s s' :
  save_settings e s = Ok s' → ∃ c f, s' = set_settings_file f (set_config c s).
Proof.
  unfold save_settings. intros H.
  destruct (sync_attributes_to_config s) as [s1|] eqn:H1; [| done].
  apply sync_attributes_to_config_frame in H1 as [c ->].
  outcome_cases H; subst s'; eexists c, _; [done |].
  instantiate (1 := settings_file s). by destruct s.
Qed.

(** Replace every call in the hypotheses by what it returns. *)
Ltac all_frames :=
  frames;
  repeat match goal with
    | Hs : save_settings _ _ = Ok _ |- _ =>
        apply save_settings_frame in Hs as (? & ? & ->)
    end.

(** Tests of the code as facts on integers. *)
Ltac tests :=
  repeat match goal with
    | Hb : _ && _ = true |- _ => apply andb_true_iff in Hb as [? ?]
    | Hb : (_ <? _) = true |- _ => apply Z.ltb_lt in Hb
    | Hb : (_ <=? _) = true |- _ => apply Z.leb_le in Hb
    | Hb : (_ <? _) = false |- _ => apply Z.ltb_ge in Hb
    | Hb : (_ <=? _) = false |- _ => apply Z.leb_gt in Hb
    | Hb : bool_decide _ = true |- _ => apply bool_decide_eq_true in Hb
    end.

(** The two invariants read eight fields only. *)
Lemma ok_same s s' :
  server_process s' = server_process s →
  log_thread s' = log_thread s →
  running_model_path s' = running_model_path s →
  active_field s' = active_field s →
  selected_file_idx s' = selected_file_idx s →
  file_offset s' = file_offset s →
  show_log s' = show_log s →
  show_nvidia_smi s' = show_nvidia_smi s →
  handles_ok s ∧ ui_ok s → handles_ok s' ∧ ui_ok s'.
Proof. unfold handles_ok, ui_ok. by intros -> -> -> -> -> -> -> ->. Qed.

Lemma ok_thread s p :
  handles_ok s ∧ ui_ok s →
  let s' := set_log_thread (Some p)
              (set_log_buffer [] (set_server_process (Some p) s)) in
  handles_ok s' ∧ ui_ok s'.
Proof.
  unfold handles_ok, ui_ok. simpl. intros [_ (? & ? & ? & Hv)].
  split_and!; eauto; try lia. intros Hl. by destruct (Hv Hl).
Qed.

Lemma ok_clear s :
  show_log s = false →
  handles_ok s ∧ ui_ok s → handles_ok (clear_server s) ∧ ui_ok (clear_server s).
Proof.
  unfold handles_ok, ui_ok. simpl. intros Hl [_ (? & ? & ? & _)].
  split_and!; try lia; try done. intros ?; congruence.
Qed.

Lemma ok_spawn s p m :
  handles_ok s ∧ ui_ok s →
  let s' := set_running_model_path (Some m)
              (set_log_thread (Some p)
                 (set_log_buffer [] (set_server_process (Some p) s))) in
  handles_ok s' ∧ ui_ok s'.
Proof.
  unfold handles_ok, ui_ok. simpl. intros [_ (? & ? & ? & Hv)].
  split_and!; eauto; try lia. intros Hl. by destruct (Hv Hl).
Qed.

Lemma ok_show_log s :
  show_nvidia_smi s = false → is_Some (server_process s) →
  handles_ok s ∧ ui_ok s →
  handles_ok (set_show_log true s) ∧ ui_ok (set_show_log true s).
Proof. unfold handles_ok, ui_ok. simpl. intros ? ? [? (? & ? & ? & _)]. done. Qed.

Lemma ok_show_smi s :
  show_log s = false →
  handles_ok s ∧ ui_ok s →
  handles_ok (set_show_nvidia_smi true s) ∧ ui_ok (set_show_nvidia_smi true s).
Proof.
  unfold handles_ok, ui_ok. simpl. intros Hl [? (? & ? & ? & _)].
  split_and!; try lia; try done. intros ?; congruence.
Qed.

Lemma ok_hide s :
  handles_ok s ∧ ui_ok s →
  (handles_ok (set_show_log false s) ∧ ui_ok (set_show_log false s))
  ∧ (handles_ok (set_show_nvidia_smi false s)
     ∧ ui_ok (set_show_nvidia_smi false s)).
Proof.
  unfold handles_ok, ui_ok. simpl. intros [? (? & ? & ? & Hv)].
  split_and!; try lia; try done; intros Hl; by destruct (Hv Hl).
Qed.

Lemma ok_focus s n :
  0 ≤ n < 11 →
  handles_ok s ∧ ui_ok s →
  handles_ok (set_active_field n s) ∧ ui_ok (set_active_field n s).
Proof. unfold handles_ok, ui_ok. simpl. intros ? [? (? & ? & ? & ?)]. done. Qed.

Lemma ok_cursor s n :
  0 ≤ n →
  handles_ok s ∧ ui_ok s →
  handles_ok (set_selected_file_idx n s) ∧ ui_ok (set_selected_file_idx n s).
Proof. unfold handles_ok, ui_ok. simpl. intros ? [? (? & ? & ? & ?)]. done. Qed.

Lemma ok_offset s n :
  0 ≤ n →
  handles_ok s ∧ ui_ok s →
  handles_ok (set_file_offset n s) ∧ ui_ok (set_file_offset n s).
Proof. unfold handles_ok, ui_ok. simpl. intros ? [? (? & ? & ? & ?)]. done. Qed.

(** The two invariants of the state a branch ends in. *)
Ltac ok_end :=
  match goal with
  | Hok : handles_ok ?s ∧ ui_ok ?s |- handles_ok ?t ∧ ui_ok ?t =>
      first
        [ by (apply (ok_same s); [reflexivity.. | exact Hok])
        | by (apply (ok_same (clear_server s));
              [reflexivity.. | by apply ok_clear])
        | match t with
          | context [set_running_model_path (Some ?m)
                       (set_log_thread (Some ?p) _)] =>
              by (apply (ok_same
                           (set_running_model_path (Some m)
                              (set_log_thread (Some p)
                                 (set_log_buffer []
                                    (set_server_process (Some p) s)))));
                  [reflexivity.. | by apply ok_spawn])
          end
        | match t with
          | context [set_log_thread (Some ?p) _] =>
              by (apply (ok_same
                           (set_log_thread (Some p)
                              (set_log_buffer []
                                 (set_server_process (Some p) s))));
                  [reflexivity.. | by apply ok_thread])
          end
        | by (apply (ok_same (set_file_offset 0 (set_selected_file_idx 0 s)));
              [reflexivity.. | by apply ok_offset, ok_cursor])
        | by (apply ok_show_log; tests)
        | by (apply ok_show_smi)
        | by (apply ok_focus; [lia | done])
        | by (apply ok_cursor; [unfold ui_ok in Hok; tests; lia | done]) ]
  end.

Lemma on_key_ok key e s s' :
  show_log s = false → show_nvidia_smi s = false →
  on_key key e s = Ok s' →
  handles_ok s ∧ ui_ok s → handles_ok s' ∧ ui_ok s'.
Proof.
  unfold on_key, on_enter, edit_server_dir, edit_int_field, toggle_schedule.
  intros Hlog Hsmi H Hok.
  pose proof (Z.mod_pos_bound (active_field s + 1) 11).
  outcome_cases H; all_frames; subst; ok_end.
Qed.

Lemma check_schedule_ok e s s' :
  check_schedule e s = Ok s' →
  handles_ok s ∧ ui_ok s →
  (handles_ok s' ∧ ui_ok s')
  ∧ show_log s' = show_log s ∧ show_nvidia_smi s' = show_nvidia_smi s.
Proof.
  unfold check_schedule. intros H Hok.
  destruct (start_server e s) as [[msg s1]|] eqn:Hstart;
    outcome_cases H; all_frames; subst; (split; [ok_end | done]).
Qed.

Lemma draw_main_ok h w s s' :
  draw_main h w s = Ok s' →
  handles_ok s ∧ ui_ok s →
  (handles_ok s' ∧ ui_ok s')
  ∧ show_log s' = show_log s ∧ show_nvidia_smi s' = show_nvidia_smi s.
Proof.
  unfold draw_main. intros H Hok.
  outcome_cases H; subst; (split; [| done]); first
    [ ok_end
    | apply ok_offset; [unfold ui_ok in Hok; tests; lia | done] ].
Qed.

Lemma run_iteration_ok t s s' :
  run_iteration t s = Ok s' →
  handles_ok s ∧ ui_ok s → handles_ok s' ∧ ui_ok s'.
Proof.
  unfold run_iteration. intros H Hok.
  destruct (getmaxyx t) as [h w].
  destruct (show_nvidia_smi s) eqn:Hsmi.
  { outcome_cases H; subst; [done | by apply ok_hide]. }
  destruct (show_log s) eqn:Hlog.
  { outcome_cases H; subst; [done | by apply ok_hide]. }
  destruct ((h <? 20) || (w <? 80)).
  { outcome_cases H. by subst. }
  unfold mbind, outcome_bind in H.
  destruct (draw_main h w s) as [s1|] eqn:Hdraw; [| done].
  destruct (check_schedule (sched_env t) s1) as [s2|] eqn:Hsched; [| done].
  apply draw_main_ok in Hdraw as (Hok1 & Hl1 & Hs1); [| done].
  apply check_schedule_ok in Hsched as (Hok2 & Hl2 & Hs2); [| done].
  eapply on_key_ok; [| | exact H | done]; congruence.
Qed.

Lemma init_ok e disk s :
  __init__ e disk = Ok s → handles_ok s ∧ ui_ok s.
Proof.
  unfold __init__, load_settings. rewrite at_load_eq. simpl. intros H.
  unfold mbind, outcome_bind in H.
  destruct (save_settings _ _) as [s1|] eqn:Hsave; [| done].
  apply save_settings_frame in Hsave as (c & f & ->).
  assert (Hbase : ∀ cfg atr,
    let s0 := {| running := true; server_process := None;
       running_model_path := None; log_buffer := []; log_thread := None;
       show_log := false; show_nvidia_smi := false; config := cfg;
       attrs := atr; settings_file := disk; active_field := 0;
       selected_file_idx := 0; file_offset := 0; files := [];
       msg_log := "" |} in handles_ok s0 ∧ ui_ok s0).
  { intros. unfold handles_ok, ui_ok. simpl. split_and!; done. }
  apply refresh_file_list_frame in H as [[m ->]|[l ->]];
    destruct disk as [[|[settings|]]|]; simpl;
    rewrite ?overlay_loop, ?sync_config_to_attributes_eq; simpl;
    repeat match goal with
           | |- context [if ?b then _ else _] => destruct b; simpl
           end;
    (eapply ok_same; [reflexivity.. | apply (Hbase ∅ ∅)]).
Qed.

Lemma reachable_ok s : reachable s → handles_ok s ∧ ui_ok s.
Proof.
  induction 1 as [e disk s Hinit | t s s' _ IH _ Hstep | line s _ IH].
  - by eapply init_ok.
  - by eapply run_iteration_ok.
  - unfold log_reader_step. destruct (bytes_decode line); [| done].
    case_bool_decide; [| done].
    by (eapply ok_same; [reflexivity.. | exact IH]).
Qed.
End Invariant.

(** ** Invariants of the reachable states *)

Lemma attrs_of_dom c : dom (attrs_of c) = config_keys.
Proof.
  unfold attrs_of, config_keys. rewrite !dom_insert_L, dom_empty_L. set_solver.
Qed.

Lemma keys_ok_setattr k v s :
  k ∈ config_keys → keys_ok s → keys_ok (setattr k v s).
Proof.
  intros Hk [Hc Ha]. split; [done |]. simpl.
  rewrite dom_insert_L, Ha. by apply config_keys_absorb.
Qed.

Lemma example_stopped_keys : keys_ok example_stopped.
Proof. split; apply attrs_of_dom. Qed.

(** X1. In every reachable state the configuration dictionary and the
    attributes mirrored from it have exactly the eleven keys of the
    dictionary literal of [__init__], so reading a configuration attribute
    never raises [AttributeError]. *)
Theorem reachable_config_keys s :
  reachable s →
  dom (config s) = config_keys
  ∧ dom (attrs s) = config_keys
  ∧ ∀ k, k ∈ config_keys → ∃ v, getattr s k = Ok v.
Proof.
  intros [Hc Ha]%reachable_keys. split_and!; [done | done |].
  intros k Hk. unfold getattr.
  assert (is_Some (attrs s !! k)) as [v ->]; [| by eexists].
  apply elem_of_dom. by rewrite Ha.
Qed.

Lemma reachable_config_keys_witness :
  reachable example_started
  ∧ dom (config example_started) = config_keys.
Proof.
  assert (Hreach : reachable example_started).
  { apply (reachable_iteration (example_tick (ord "s") "") example_initial);
      [| reflexivity | vm_compute; reflexivity].
    apply (reachable_init (example_env "") None). vm_compute. reflexivity. }
  split; [exact Hreach |].
  apply (reachable_config_keys example_started Hreach).
Defined.



(** Loading a pickled dictionary. *)
Lemma load_settings_dict e settings :
  ∃ s', load_settings e (at_load e (Some (Pickled (ODict settings)))) = Ok s'
        ∧ config s' = overlay settings (default_config e)
        ∧ attrs s' = overlay settings (default_config e).
Proof.
  remember (Some (Pickled (ODict settings))) as disk eqn:Hdisk.
  unfold load_settings. rewrite at_load_eq. simpl. subst disk. cbv beta iota.
  rewrite overlay_loop, sync_config_to_attributes_eq.
  cbn [config attrs set_config set_attrs set_msg_log].
  rewrite !overlay_union.
  rewrite save_settings_synced by done.
  eexists. split; [done |]. by destruct (can_write e).
Qed.

(** X3. What is saved is what the next start loads. After [save_settings]
    has written the file of an object with the configuration keys, an
    object constructed later on any machine, with that file on disk, has
    the saved attributes as its dictionary and as its attributes, whatever
    the defaults of that machine are. *)
Theorem save_then_load_round_trip e e' s :
  keys_ok s →
  can_write e = true →
  ∃ s1 s2, save_settings e s = Ok s1
           ∧ load_settings e' (at_load e' (settings_file s1)) = Ok s2
           ∧ config s2 = attrs s
           ∧ attrs s2 = attrs s.
Proof.
  intros Hk Hw. rewrite save_settings_keys_ok by done. rewrite Hw.
  exists (set_settings_file (Some (Pickled (ODict (attrs s))))
            (set_config (attrs s) s)).
  destruct (load_settings_dict e' (attrs s)) as (s2 & Hload & Hc & Ha).
  exists s2. split; [done |]. split; [exact Hload |].
  assert (Hov : overlay (attrs s) (default_config e') = attrs s).
  { apply map_eq. intros k. rewrite overlay_lookup.
    destruct Hk as [_ Hdom].
    destruct (default_config e' !! k) as [d|] eqn:Hd; simpl.
    - assert (is_Some (attrs s !! k)) as [v ->]; [| done].
      apply elem_of_dom. rewrite Hdom, <- (config_keys_dom e').
      apply elem_of_dom. eauto.
    - symmetry. apply not_elem_of_dom. rewrite Hdom, <- (config_keys_dom e').
      by apply not_elem_of_dom. }
  rewrite Hc, Ha, Hov. split; reflexivity.
Qed.

Lemma save_then_load_round_trip_witness :
  keys_ok example_stopped
  ∧ can_write (example_env "") = true
  ∧ ∃ s1 s2, save_settings (example_env "") example_stopped = Ok s1
             ∧ load_settings (example_env_kill "x" false)
                 (at_load (example_env_kill "x" false) (settings_file s1))
               = Ok s2
             ∧ config s2 = attrs example_stopped
             ∧ attrs s2 = attrs example_stopped.
Proof.
  split; [apply example_stopped_keys |]. split; [reflexivity |].
  apply (save_then_load_round_trip (example_env "") (example_env_kill "x" false)
           example_stopped); [apply example_stopped_keys | reflexivity].
Defined.

(** X4. In every reachable state a running model path is set only while a
    server handle is set, and while a handle is set the reader thread is
    the one created for that process. The handle can be set without a
    running model path: that is what [start_server] leaves when the reader
    thread cannot be started. *)
Theorem reachable_handles s :
  reachable s →
  (is_Some (running_model_path s) → is_Some (server_process s))
  ∧ ∀ p, server_process s = Some p → log_thread s = Some p.
Proof.
  intros [Hh _]%reachable_ok. unfold handles_ok in Hh.
  destruct (server_process s) as [p|].
  - split; [by eauto |]. by intros ? [= <-].
  - rewrite Hh. split; [by intros [? ?] | done].
Qed.

Lemma reachable_handles_witness :
  reachable example_thread_failed
  ∧ server_process example_thread_failed = Some {| pid := 4242 |}
  ∧ running_model_path example_thread_failed = None
  ∧ log_thread example_thread_failed = Some {| pid := 4242 |}.
Proof.
  assert (Hreach : reachable example_thread_failed).
  { apply (reachable_iteration
             {| getmaxyx := (24, 80); sched_env := example_env "";
                getch := ord "s"; key_env := example_env_no_thread |}
             example_initial);
      [| reflexivity | vm_compute; reflexivity].
    apply (reachable_init (example_env "") None). vm_compute. reflexivity. }
  split; [exact Hreach |]. split; [reflexivity |]. split; [reflexivity |].
  apply (reachable_handles example_thread_failed Hreach). reflexivity.
Defined.

(** X5. In every reachable state the focus is one of the eleven targets,
    and the selection index and the scroll offset are not negative. *)
Theorem reachable_focus_and_offsets s :
  reachable s →
  0 ≤ active_field s < 11 ∧ 0 ≤ selected_file_idx s ∧ 0 ≤ file_offset s.
Proof. intros [_ (? & ? & ? & _)]%reachable_ok. done. Qed.

Lemma reachable_focus_and_offsets_witness :
  reachable example_initial
  ∧ 0 ≤ active_field example_initial < 11.
Proof.
  assert (Hreach : reachable example_initial).
  { apply (reachable_init (example_env "") None). vm_compute. reflexivity. }
  split; [exact Hreach |].
  apply (reachable_focus_and_offsets example_initial Hreach).
Defined.

(** X6. In every reachable state at most one of the two views is open, and
    the log view is open only while a server handle is set: the key [V]
    opens it only then, and no command runs while it is open. *)
Theorem reachable_views s :
  reachable s →
  ¬ (show_log s = true ∧ show_nvidia_smi s = true)
  ∧ (show_log s = true → is_Some (server_process s)).
Proof.
  intros [_ (_ & _ & _ & Hv)]%reachable_ok. split.
  - intros [Hl Hs]. destruct (Hv Hl). congruence.
  - intros Hl. by destruct (Hv Hl).
Qed.

Lemma reachable_views_witness :
  reachable example_viewing
  ∧ (show_log example_viewing = true → is_Some (server_process example_viewing)).
Proof.
  assert (Hreach : reachable example_viewing).
  { apply (reachable_iteration (example_tick (ord "v") "") example_started);
      [| reflexivity | vm_compute; reflexivity].
    apply (reachable_iteration (example_tick (ord "s") "") example_initial);
      [| reflexivity | vm_compute; reflexivity].
    apply (reachable_init (example_env "") None). vm_compute. reflexivity. }
  split; [exact Hreach |].
  apply (reachable_views example_viewing Hreach).
Defined.

(** ** Starting, stopping and the scheduler *)

(** X7. A call of [start_server] that returns does one of three things. It
    leaves the object exactly as it was (a server already runs, there is no
    model, the binary is missing, the spawn fails). Or, from an object
    without server and with a model list that is not empty, it records the
    spawned process as handle and as reader thread, empties the log, sets
    the running model path to the selected file and answers
    "SERVING: ...". Or, when the reader thread cannot be started, it has
    recorded the handle and the thread and emptied the log, leaves the
    running model path alone and answers "Error: ..." with the text of the
    exception. Nothing else changes. *)
Theorem start_server_effect e s msg s' :
  start_server e s = Ok (msg, s') →
  s' = s
  ∨ (server_process s = None
     ∧ files s ≠ []
     ∧ thread_start e = None
     ∧ ∃ p f, py_index (files s) (selected_file_idx s) = Ok f
              ∧ msg = "SERVING: " +:+ name f +:+ " - Press 'V' to view log."
              ∧ s' = set_running_model_path (Some (path_str f))
                       (set_log_thread (Some p)
                          (set_log_buffer [] (set_server_process (Some p) s))))
  ∨ (server_process s = None
     ∧ files s ≠ []
     ∧ ∃ p err, thread_start e = Some err
                ∧ msg = "Error: " +:+ err
                ∧ s' = set_log_thread (Some p)
                         (set_log_buffer [] (set_server_process (Some p) s))).
Proof.
  unfold start_server. intros H.
  destruct (server_process s) as [p0|] eqn:Hp.
  { rewrite bool_decide_eq_true_2 in H by eauto. left.
    outcome_cases H. by simplify_eq. }
  rewrite bool_decide_eq_false_2 in H by (by intros [? ?]).
  case_bool_decide as Hfiles.
  { left. outcome_cases H. by simplify_eq. }
  outcome_cases H; simplify_eq;
    first [ by left
          | right; left; split_and!; [done | done | done |]; by eauto
          | right; right; split_and!; [done | done |]; by eauto ].
Qed.

Lemma start_server_effect_witness :
  start_server example_env_no_thread example_stopped
  = Ok ("Error: can't start new thread",
        set_log_thread (Some {| pid := 4242 |})
          (set_log_buffer []
             (set_server_process (Some {| pid := 4242 |}) example_stopped)))
  ∧ server_process example_stopped = None
  ∧ thread_start example_env_no_thread = Some "can't start new thread".
Proof.
  assert (Hstart : start_server example_env_no_thread example_stopped
    = Ok ("Error: can't start new thread",
          set_log_thread (Some {| pid := 4242 |})
            (set_log_buffer []
               (set_server_process (Some {| pid := 4242 |}) example_stopped))))
    by reflexivity.
  split; [exact Hstart |].
  destruct (start_server_effect _ _ _ _ Hstart)
    as [Hsame | [(_ & _ & Hnone & _) | (Hnone & _ & p & err & Herr & _)]].
  - discriminate Hsame.
  - discriminate Hnone.
  - split; [exact Hnone | reflexivity].
Defined.



(** X9. Stopping after starting: when [start_server] has spawned a process
    and [kill_server] then succeeds on either path, the object is the one
    from before the start with the handle and the running model path
    cleared and the log emptied; only the reader thread handle stays. A
    second [kill_server] then answers "No server running." and changes
    nothing. *)
Theorem start_then_kill e e' s msg s1 :
  start_server e s = Ok (msg, s1) →
  s1 ≠ s →
  killpg_wait e' = None ∨ terminate_wait e' = true →
  (kill_server e' s1).2 = set_log_thread (log_thread s1) (clear_server s)
  ∧ ∀ e'', kill_server e'' (kill_server e' s1).2
           = ("No server running.", (kill_server e' s1).2).
Proof.
  intros Hstart Hne Hkill.
  destruct (start_server_frame _ _ _ _ Hstart)
    as [->|[(Hnone & p & ->)|(Hnone & p & f & _ & ->)]]; [done | |].
  - assert (Hk : (kill_server e' (set_log_thread (Some p)
                     (set_log_buffer [] (set_server_process (Some p) s)))).2
                 = set_log_thread (Some p) (clear_server s)).
    { unfold kill_server. simpl.
      destruct (killpg_wait e') as [err|]; [| done].
      destruct Hkill as [Hk | Hk]; [done | by rewrite Hk]. }
    split; [exact Hk |]. intros e''. rewrite Hk. reflexivity.
  - assert (Hk : (kill_server e' (set_running_model_path (Some (path_str f))
                    (set_log_thread (Some p)
                       (set_log_buffer [] (set_server_process (Some p) s))))).2
                 = set_log_thread (Some p) (clear_server s)).
    { unfold kill_server. simpl.
      destruct (killpg_wait e') as [err|]; [| done].
      destruct Hkill as [Hk | Hk]; [done | by rewrite Hk]. }
    split; [exact Hk |]. intros e''. rewrite Hk. reflexivity.
Qed.

Lemma start_then_kill_witness :
  (kill_server (example_env "")
     (set_running_model_path (Some "/models/b.gguf")
        (set_log_thread (Some {| pid := 4242 |})
           (set_log_buffer []
              (set_server_process (Some {| pid := 4242 |}) example_stopped))))).2
  = set_log_thread (Some {| pid := 4242 |}) (clear_server example_stopped).
Proof.
  apply (start_then_kill (example_env "") (example_env "") example_stopped
           "SERVING: b.gguf - Press 'V' to view log.").
  - reflexivity.
  - discriminate.
  - left. reflexivity.
Defined.

(** X10. The quit key stops the server as [kill_server] does, saves the
    settings and clears [self.running], after which the loop of [run] takes
    no further pass. When both termination attempts fail the loop ends all
    the same, with the handle still set. *)
Theorem quit_ends_the_loop e s s' key :
  key = ord "q" ∨ key = ord "Q" →
  on_key key e s = Ok s' →
  running s' = false
  ∧ server_process s' = server_process (kill_server e s).2
  ∧ log_buffer s' = log_buffer (kill_server e s).2
  ∧ (∃ s1, save_settings e (kill_server e s).2 = Ok s1 ∧ s' = set_running false s1)
  ∧ ∀ ticks, run ticks s' = Ok s'.
Proof.
  intros Hkey H. unfold on_key in H.
  assert (Hq : (key =? ord "q") || (key =? ord "Q") = true).
  { destruct Hkey as [-> | ->]; reflexivity. }
  rewrite Hq in H. destruct (kill_server e s) as [m s0]. simpl.
  unfold mbind, outcome_bind in H.
  destruct (save_settings e s0) as [s1|] eqn:Hsave; [| done].
  injection H as <-.
  destruct (save_settings_frame _ _ _ Hsave) as (c & f & ->).
  split_and!; try reflexivity.
  - by eexists.
  - intros [|t ticks]; reflexivity.
Qed.

Lemma quit_ends_the_loop_witness :
  (ord "q" = ord "q" ∨ ord "q" = ord "Q")
  ∧ ∃ s', on_key (ord "q") (example_env "") example_serving = Ok s'
          ∧ running s' = false
          ∧ ∀ ticks, run ticks s' = Ok s'.
Proof.
  split; [left; reflexivity |].
  assert (Hk : keys_ok (kill_server (example_env "") example_serving).2).
  { split; apply attrs_of_dom. }
  pose proof (save_settings_keys_ok (example_env "") _ Hk) as Hs.
  match type of Hs with
  | _ = Ok ?x =>
      exists (set_running false x);
      assert (Hrun : on_key (ord "q") (example_env "") example_serving
                     = Ok (set_running false x))
  end.
  { unfold on_key. change ((ord "q" =? ord "q") || (ord "q" =? ord "Q")) with true.
    cbv beta iota. destruct (kill_server (example_env "") example_serving) as [m s0].
    simpl in Hs. unfold mbind, outcome_bind. rewrite Hs. reflexivity. }
  split; [exact Hrun |].
  destruct (quit_ends_the_loop (example_env "") example_serving _ (ord "q")
              (or_introl eq_refl) Hrun) as (Hr & _ & _ & _ & Hl).
  split; [exact Hr | exact Hl].
Defined.

(** X11. The key TAB moves the focus to the next of the eleven targets and
    changes nothing else, so that eleven presses bring back the object as
    it was. *)
Theorem tab_cycles e s :
  0 ≤ active_field s < 11 →
  on_key 9 e s = Ok (set_active_field ((active_field s + 1) `mod` 11) s)
  ∧ presses (replicate 11 9) e s = Ok s.
Proof.
  intros Hf. split; [reflexivity |].
  assert (Hn : ∀ n s0, presses (replicate n 9) e s0
                 = Ok (set_active_field
                         ((active_field s0 + Z.of_nat n) `mod` 11) s0)
               ∨ ¬ 0 ≤ active_field s0 < 11).
  { induction n as [|n IH]; intros s0.
    - destruct (decide (0 ≤ active_field s0 < 11)) as [Hr|]; [left | by right].
      simpl. rewrite Z.add_0_r, Z.mod_small by done. by destruct s0.
    - destruct (decide (0 ≤ active_field s0 < 11)) as [Hr|]; [left | by right].
      change (presses (replicate (S n) 9) e s0)
        with (presses (replicate n 9) e
                (set_active_field ((active_field s0 + 1) `mod` 11) s0)).
      destruct (IH (set_active_field ((active_field s0 + 1) `mod` 11) s0))
        as [-> | Hbad].
      + simpl. f_equal.
        rewrite Zplus_mod_idemp_l.
        replace (active_field s0 + 1 + Z.of_nat n)
          with (active_field s0 + Z.of_nat (S n)) by lia. done.
      + exfalso. apply Hbad. simpl. by apply Z.mod_pos_bound. }
  destruct (Hn 11%nat s) as [-> | Hbad]; [| done].
  change (Z.of_nat 11) with 11.
  rewrite <- (Z.mul_1_l 11) at 1. rewrite Z.mod_add, Z.mod_small by lia.
  by destruct s.
Qed.

Lemma tab_cycles_witness :
  0 ≤ active_field example_stopped < 11
  ∧ presses (replicate 11 9) (example_env "") example_stopped = Ok example_stopped.
Proof.
  split; [simpl; lia |].
  apply (tab_cycles (example_env "") example_stopped). simpl; lia.
Defined.

(** ** Numbers typed and shown *)

Section IntOfStr.

(** Strings without blanks. *)
Let solid (s : string) : Prop :=
  Forall (λ c, is_ascii_space c = false) (list_ascii_of_string s).

Lemma rev_app_list s1 s2 :
  list_ascii_of_string (String.rev_app s1 s2)
  = rev (list_ascii_of_string s1) ++ list_ascii_of_string s2.
Proof.
  revert s2. induction s1 as [|c s1 IH]; intros s2; simpl; [done |].
  rewrite IH. simpl. by rewrite <- app_assoc.
Qed.

Lemma string_rev_list s :
  list_ascii_of_string (String.rev s) = rev (list_ascii_of_string s).
Proof. unfold String.rev. rewrite rev_app_list. simpl. by rewrite app_nil_r. Qed.

Lemma string_rev_involutive s : String.rev (String.rev s) = s.
Proof.
  rewrite <- (string_of_list_ascii_of_string (String.rev (String.rev s))).
  rewrite !string_rev_list, rev_involutive.
  apply string_of_list_ascii_of_string.
Qed.

Lemma lstrip_ascii_solid s : solid s → lstrip_ascii s = s.
Proof.
  unfold solid. destruct s as [|c s]; simpl; [done |].
  intros Hs. apply Forall_cons in Hs as [-> _]. done.
Qed.

Lemma strip_ascii_solid s : solid s → strip_ascii s = s.
Proof.
  intros Hs. unfold strip_ascii.
  rewrite (lstrip_ascii_solid s) by done.
  rewrite lstrip_ascii_solid; [apply string_rev_involutive |].
  unfold solid. rewrite string_rev_list. by apply Forall_rev.
Qed.

Lemma string_of_uint_solid d : solid (NilEmpty.string_of_uint d).
Proof. unfold solid. induction d; simpl; constructor; done. Qed.

Lemma int_digits_acc d : ∀ acc : positive,
  int_digits (NilEmpty.string_of_uint d) (Z.pos acc) true
  = Some (Z.pos (Pos.of_uint_acc d acc)).
Proof.
  induction d as [|d IH|d IH|d IH|d IH|d IH|d IH|d IH|d IH|d IH|d IH];
    intros acc; [done | ..];
    cbn [NilEmpty.string_of_uint int_digits Pos.of_uint_acc];
    match goal with
    | |- context [is_digit ?c] =>
        change (is_digit c) with true; cbv beta iota;
        let v := eval vm_compute in (digit_val c) in
        change (digit_val c) with v
    end;
    match goal with
    | |- int_digits _ ?a true = Some (Z.pos (Pos.of_uint_acc _ ?b)) =>
        replace a with (Z.pos b) by lia
    end; apply IH.
Qed.

Lemma int_digits_uint d : ∀ prev,
  d ≠ Decimal.Nil ∨ prev = true →
  int_digits (NilEmpty.string_of_uint d) 0 prev
  = Some (Z.of_N (Pos.of_uint d)).
Proof.
  induction d as [|d IH|d IH|d IH|d IH|d IH|d IH|d IH|d IH|d IH|d IH];
    intros prev Hp.
  - destruct Hp as [Hp | Hp]; [done | by rewrite Hp].
  - cbn [NilEmpty.string_of_uint int_digits Pos.of_uint].
    change (is_digit "0") with true. cbv beta iota.
    change (0 * 10 + digit_val "0") with 0. apply IH. by right.
  - apply (int_digits_acc d 1).
  - apply (int_digits_acc d 2).
  - apply (int_digits_acc d 3).
  - apply (int_digits_acc d 4).
  - apply (int_digits_acc d 5).
  - apply (int_digits_acc d 6).
  - apply (int_digits_acc d 7).
  - apply (int_digits_acc d 8).
  - apply (int_digits_acc d 9).
Qed.

Lemma int_digits_pos p prev :
  int_digits (NilEmpty.string_of_uint (Pos.to_uint p)) 0 prev = Some (Z.pos p).
Proof.
  rewrite int_digits_uint by (left; apply Unsigned.to_uint_nonnil).
  by rewrite Unsigned.of_to.
Qed.

Lemma count_digits_le s : (count_digits s ≤ String.length s)%nat.
Proof.
  unfold count_digits. induction s as [|c s IH]; simpl; [done |].
  destruct (is_digit c); simpl; lia.
Qed.

(** The literal of [str(n)] without blanks around: the sign and the digits
    give back [n]. *)
Lemma int_literal_str_int n :
  match str_int n with
  | String "+" r => int_digits r 0 false
  | String "-" r => Z.opp <$> int_digits r 0 false
  | _ => int_digits (str_int n) 0 false
  end = Some n.
Proof.
  unfold str_int, NilZero.string_of_int, Z.to_int.
  destruct n as [|p|p]; [reflexivity | |].
  - unfold NilZero.string_of_uint.
    destruct (Pos.to_uint p) eqn:Hd;
      [by destruct (Unsigned.to_uint_nonnil p) |
       rewrite <- Hd; rewrite Hd at 1; cbn [NilEmpty.string_of_uint];
       cbv beta iota; by rewrite int_digits_pos .. ].
  - assert (Hs : NilZero.string_of_uint (Pos.to_uint p)
                 = NilEmpty.string_of_uint (Pos.to_uint p)).
    { unfold NilZero.string_of_uint.
      destruct (Pos.to_uint p) eqn:Hd; [| done..].
      by destruct (Unsigned.to_uint_nonnil p). }
    rewrite Hs. cbv beta iota. by rewrite int_digits_pos.
Qed.

Lemma str_int_solid n : solid (str_int n).
Proof.
  unfold str_int, NilZero.string_of_int, Z.to_int, NilZero.string_of_uint.
  destruct n as [|p|p]; [by repeat constructor | |].
  - destruct (Pos.to_uint p); first
      [ by repeat constructor | apply (string_of_uint_solid (_ _)) ].
  - unfold solid. simpl. constructor; [done |].
    destruct (Pos.to_uint p); first
      [ by repeat constructor | apply (string_of_uint_solid (_ _)) ].
Qed.

(** [str(n)] has no more digit characters than [n] has digits. *)
Lemma count_digits_str_int n :
  (count_digits (str_int n) ≤ String.length (str_int (Z.abs n)))%nat.
Proof.
  destruct n as [|p|p]; [apply count_digits_le.. |].
  change (Z.abs (Z.neg p)) with (Z.pos p).
  change (str_int (Z.neg p)) with (String "-" (str_int (Z.pos p))).
  apply (count_digits_le (str_int (Z.pos p))).
Qed.

(** [int(str(n)) == n], when [str(n)] is defined. *)
Lemma py_int_str_int n : str_fits n = true → py_int (str_int n) = Ok n.
Proof.
  intros Hfit. unfold py_int.
  rewrite strip_ascii_solid by apply str_int_solid.
  rewrite int_literal_str_int.
  unfold str_fits in Hfit. apply Nat.leb_le in Hfit.
  pose proof (count_digits_str_int n).
  replace (int_max_str_digits <? count_digits (str_int n))%nat with false;
    [done |].
  symmetry. apply Nat.ltb_ge. lia.
Qed.

(** What [str] raises, and when. *)
Lemma py_str_raises v x :
  py_str v = Raise x → x = ValueError ∧ ∃ n, v = VInt n ∧ str_fits n = false.
Proof.
  destruct v as [|[]|n|]; simpl; try done.
  destruct (str_fits n) eqn:Hn; [done |]. intros [= <-]. eauto.
Qed.

Lemma py_str_int n t : py_str (VInt n) = Ok t → t = str_int n ∧ str_fits n = true.
Proof. simpl. destruct (str_fits n); [| done]. by intros [= <-]. Qed.
End IntOfStr.

Lemma numeric_fields_keys f key lower :
  (f, key, lower) ∈ numeric_fields → key ∈ config_keys.
Proof.
  unfold numeric_fields. rewrite !elem_of_cons, elem_of_nil.
  intros [?|[?|[?|[]]]]; simplify_eq; apply (bool_decide_unpack _); by vm_compute.
Qed.

(** X12. ENTER on one of the three numeric fields either changes only the
    status line (the text is not a number, or the number is below the bound
    of the field: 0 for the GPU layers, 1 for the threads, 512 for the
    context size) or stores an integer that is at least the bound and
    leaves the other attributes alone. *)
Theorem numeric_field_validation e s s' f key lower :
  (f, key, lower) ∈ numeric_fields →
  active_field s = f →
  on_enter e s = Ok s' →
  (∃ msg, s' = set_msg_log msg s)
  ∨ (∃ n, lower ≤ n ∧ attrs s' = <[key := VInt n]> (attrs s)).
Proof.
  unfold numeric_fields. rewrite !elem_of_cons, elem_of_nil.
  intros Hf Hact H. unfold on_enter in H.
  destruct Hf as [?|[?|[?|[]]]]; simplify_eq;
    match goal with Ha : active_field s = _ |- _ => rewrite Ha in H end.
  all: repeat match type of H with
      | (if ?a =? ?b then _ else _) = _ =>
          let r := eval vm_compute in (a =? b) in
          change (a =? b) with r in H; cbv beta iota in H
      end.
  all: unfold edit_int_field in H; outcome_cases H.
  all: try (left; by eexists).
  all: right;
       first [ match goal with
               | Hs : save_settings _ _ = Ok _ |- _ =>
                   apply save_settings_frame in Hs as (? & ? & ->)
               end
             | subst s' ];
       eexists; (split; [| reflexivity]); lia.
Qed.

Lemma numeric_field_validation_witness :
  (5, "context_size", 512) ∈ numeric_fields
  ∧ on_enter (example_env "100") (set_active_field 5 example_stopped)
    = Ok (set_msg_log "Value must be at least 512."
            (set_active_field 5 example_stopped))
  ∧ ((∃ msg, set_msg_log "Value must be at least 512."
               (set_active_field 5 example_stopped)
             = set_msg_log msg (set_active_field 5 example_stopped))
     ∨ (∃ n, 512 ≤ n
             ∧ attrs (set_msg_log "Value must be at least 512."
                        (set_active_field 5 example_stopped))
               = <["context_size" := VInt n]>
                   (attrs (set_active_field 5 example_stopped)))).
Proof.
  assert (Hin : (5, "context_size", 512) ∈ numeric_fields).
  { unfold numeric_fields. do 2 apply list_elem_of_further. apply list_elem_of_here. }
  assert (Hrun : on_enter (example_env "100") (set_active_field 5 example_stopped)
                 = Ok (set_msg_log "Value must be at least 512."
                         (set_active_field 5 example_stopped)))
    by reflexivity.
  split; [exact Hin |]. split; [exact Hrun |].
  exact (numeric_field_validation (example_env "100")
           (set_active_field 5 example_stopped) _ 5 "context_size" 512
           Hin (eq_refl 5) Hrun).
Defined.

(** X13. ENTER on a numeric field followed by an empty submission: when the
    integer the field holds has more than 4300 digits, [str] raises
    [ValueError] before the prompt; and whenever the handler returns, the
    integer had at most 4300 digits and the attributes are unchanged: the
    prompt is seeded with [str] of the value, which [int] reads back,
    whether or not the value meets the bound. *)
Theorem numeric_field_empty_submission e s f key lower n :
  (f, key, lower) ∈ numeric_fields →
  active_field s = f →
  getstr e = "" →
  attrs s !! key = Some (VInt n) →
  (str_fits n = false → on_enter e s = Raise ValueError)
  ∧ ∀ s', on_enter e s = Ok s' → str_fits n = true ∧ attrs s' = attrs s.
Proof.
  intros Hf Hact Hempty Hn.
  assert (Hedit : ∀ done_msg low_msg,
    (str_fits n = false
     → edit_int_field e key lower done_msg low_msg s = Raise ValueError)
    ∧ ∀ s', edit_int_field e key lower done_msg low_msg s = Ok s'
            → str_fits n = true ∧ attrs s' = attrs s).
  { intros done_msg low_msg. unfold edit_int_field, getattr, input_str.
    rewrite Hn, Hempty. cbn [mbind outcome_bind py_str].
    destruct (str_fits n) eqn:Hfit; [| by split].
    split; [done |]. intros s'. unfold mbind, outcome_bind. cbv beta iota.
    change (String.eqb "" "") with true. cbv beta iota. rewrite py_int_str_int, Hfit by done.
    destruct (lower <=? n); [| intros [= <-]; by split].
    intros Hs. apply save_settings_frame in Hs as (c & f' & ->).
    split; [done |]. simpl. by apply insert_id. }
  unfold numeric_fields in Hf. rewrite !elem_of_cons, elem_of_nil in Hf.
  unfold on_enter.
  destruct Hf as [?|[?|[?|[]]]]; simplify_eq;
    match goal with Ha : active_field s = _ |- _ => rewrite Ha end;
    apply Hedit.
Qed.

Lemma numeric_field_empty_submission_witness :
  (4, "n_threads", 1) ∈ numeric_fields
  ∧ attrs (set_active_field 4 example_stopped) !! "n_threads" = Some (VInt 4)
  ∧ ∃ s', on_enter (example_env "") (set_active_field 4 example_stopped) = Ok s'
          ∧ attrs s' = attrs (set_active_field 4 example_stopped).
Proof.
  assert (Hin : (4, "n_threads", 1) ∈ numeric_fields).
  { unfold numeric_fields. apply list_elem_of_further. apply list_elem_of_here. }
  split; [exact Hin |]. split; [reflexivity |].
  destruct (on_enter (example_env "") (set_active_field 4 example_stopped))
    as [s'|x] eqn:Hrun; [| vm_compute in Hrun; discriminate Hrun].
  exists s'. split; [reflexivity |].
  apply (numeric_field_empty_submission (example_env "")
           (set_active_field 4 example_stopped) 4 "n_threads" 1 4
           Hin eq_refl eq_refl eq_refl), Hrun.
Defined.

(** ** The backend field *)

Lemma on_enter_backend e s b :
  active_field s = 2 →
  keys_ok s →
  attrs s !! "backend" = Some (VStr b) →
  b ∈ modes →
  ∃ s1, on_enter e s = Ok s1
        ∧ attrs s1 = <["backend" := VStr (next_backend b)]> (attrs s)
        ∧ config s1 = attrs s1
        ∧ settings_file s1
          = (if can_write e then Some (Pickled (ODict (attrs s1)))
             else settings_file s)
        ∧ active_field s1 = 2
        ∧ keys_ok s1.
Proof.
  intros Hact Hk Hb Hin. unfold on_enter, getattr. rewrite Hact, Hb.
  change (2 =? 1) with false. change (2 =? 2) with true. cbv beta iota.
  assert (Hk' : ∀ v, keys_ok (setattr "backend" v s)).
  { intros v. apply keys_ok_setattr; [| done].
    apply (bool_decide_unpack _). by vm_compute. }
  unfold modes in Hin. rewrite !elem_of_cons, elem_of_nil in Hin.
  destruct Hin as [->|[->|[->|[]]]]; simpl;
    rewrite save_settings_keys_ok by apply Hk';
    (eexists; split; [reflexivity |]);
    destruct (can_write e); simpl;
    (split_and!; [reflexivity | reflexivity | reflexivity | exact Hact | ]);
    destruct (Hk' (VStr "x")) as [_ Ha]; simpl in Ha;
    rewrite dom_insert_L in Ha; split; simpl; rewrite dom_insert_L; exact Ha.
Qed.

(** X14. ENTER on the backend field moves CPU to CUDA, CUDA to VULKAN and
    VULKAN to CPU and saves: after the press the dictionary is the
    attributes, and so is the pickled file when it can be written. Three
    presses bring the attributes back to what they were, saved again. *)
Theorem backend_cycles e s b :
  active_field s = 2 →
  keys_ok s →
  attrs s !! "backend" = Some (VStr b) →
  b ∈ modes →
  (∃ s1, on_enter e s = Ok s1
         ∧ attrs s1 = <["backend" := VStr (next_backend b)]> (attrs s)
         ∧ config s1 = attrs s1
         ∧ settings_file s1
           = (if can_write e then Some (Pickled (ODict (attrs s1)))
              else settings_file s))
  ∧ ∃ s3, presses [10; 10; 10] e s = Ok s3
          ∧ attrs s3 = attrs s
          ∧ config s3 = attrs s
          ∧ settings_file s3
            = (if can_write e then Some (Pickled (ODict (attrs s)))
               else settings_file s).
Proof.
  intros Hact Hk Hb Hin.
  assert (Hnext : ∀ m, m ∈ modes →
            next_backend m ∈ modes
            ∧ next_backend (next_backend (next_backend m)) = m).
  { intros m. unfold modes. rewrite !elem_of_cons, elem_of_nil.
    intros [->|[->|[->|[]]]]; (split; [| reflexivity]); simpl; auto. }
  destruct (on_enter_backend e s b Hact Hk Hb Hin)
    as (s1 & H1 & Ha1 & Hc1 & Hf1 & Hact1 & Hk1).
  split; [by eexists |].
  destruct (Hnext b Hin) as [Hin1 Hcyc].
  destruct (on_enter_backend e s1 (next_backend b) Hact1 Hk1)
    as (s2 & H2 & Ha2 & Hc2 & Hf2 & Hact2 & Hk2);
    [rewrite Ha1; apply lookup_insert_eq | exact Hin1 |].
  destruct (Hnext _ Hin1) as [Hin2 _].
  destruct (on_enter_backend e s2 (next_backend (next_backend b)) Hact2 Hk2)
    as (s3 & H3 & Ha3 & Hc3 & Hf3 & _ & _);
    [rewrite Ha2; apply lookup_insert_eq | exact Hin2 |].
  assert (Hback : attrs s3 = attrs s).
  { rewrite Ha3, Ha2, Ha1, Hcyc, !insert_insert_eq. by apply insert_id. }
  exists s3. split_and!.
  - change (presses [10; 10; 10] e s)
      with (on_enter e s ≫= λ s, on_enter e s ≫= λ s, on_enter e s ≫= λ s, mret s).
    rewrite H1. simpl. rewrite H2. simpl. rewrite H3. reflexivity.
  - exact Hback.
  - by rewrite Hc3.
  - rewrite Hf3, Hf2, Hf1, Hback. by destruct (can_write e).
Qed.

Lemma backend_cycles_witness :
  keys_ok (set_active_field 2 example_stopped)
  ∧ attrs (set_active_field 2 example_stopped) !! "backend" = Some (VStr "CPU")
  ∧ ∃ s3, presses [10; 10; 10] (example_env "") (set_active_field 2 example_stopped)
          = Ok s3
          ∧ attrs s3 = attrs (set_active_field 2 example_stopped)
          ∧ config s3 = attrs (set_active_field 2 example_stopped).
Proof.
  assert (Hk : keys_ok (set_active_field 2 example_stopped)).
  { split; apply attrs_of_dom. }
  split; [exact Hk |]. split; [reflexivity |].
  destruct (backend_cycles (example_env "") (set_active_field 2 example_stopped)
              "CPU" eq_refl Hk eq_refl (list_elem_of_here _ _))
    as [_ (s3 & H3 & Ha & Hc & _)].
  exists s3. split_and!; assumption.
Defined.

(** X15. A backend attribute that is none of the three names, as a settings
    file may carry, makes ENTER on the backend field raise [ValueError]:
    [modes.index] is not guarded. *)
Theorem backend_unknown_raises e s v :
  active_field s = 2 →
  attrs s !! "backend" = Some v →
  (∀ m, m ∈ modes → py_eq_str v m = false) →
  on_enter e s = Raise ValueError.
Proof.
  intros Hact Hb Hno. unfold on_enter, getattr. rewrite Hact, Hb.
  change (2 =? 1) with false. change (2 =? 2) with true. cbv beta iota.
  unfold modes in *. simpl.
  rewrite !Hno by (rewrite !elem_of_cons; auto). reflexivity.
Qed.

Lemma backend_unknown_raises_witness :
  attrs (setattr "backend" (VStr "cuda") (set_active_field 2 example_stopped))
    !! "backend" = Some (VStr "cuda")
  ∧ on_enter (example_env "")
      (setattr "backend" (VStr "cuda") (set_active_field 2 example_stopped))
    = Raise ValueError.
Proof.
  split; [reflexivity |].
  apply (backend_unknown_raises (example_env "") _ (VStr "cuda"));
    [reflexivity | reflexivity |].
  intros m. unfold modes. rewrite !elem_of_cons, elem_of_nil.
  intros [->|[->|[->|[]]]]; reflexivity.
Defined.

(** ** The model list *)

Section ModelList.
Implicit Types (s : LlamaTUI) (e : Env).

Lemma name_le_total : Total name_le.
Proof. intros f g. apply String.leb_total. Qed.

(** X16. On a directory that exists, [refresh_file_list] lists exactly the
    regular files of the directory whose name ends in [.gguf], in the order
    of their names, and puts the cursor and the scroll offset back to 0; the
    status message is kept. *)
Theorem refresh_file_list_lists_models e s dir :
  attrs s !! "model_dir" = Some (VStr dir) →
  path_exists e dir = true →
  path_is_dir e dir = true →
  ∃ s', refresh_file_list e s = Ok s'
        ∧ Sorted name_le (files s')
        ∧ files s' ≡ₚ glob_gguf_files (iterdir e dir)
        ∧ (∀ f, f ∈ files s' ↔
                ∃ d, d ∈ iterdir e dir ∧ d_path d = f
                     ∧ endswith (name f) ".gguf" = true ∧ d_is_file d = true)
        ∧ selected_file_idx s' = 0
        ∧ file_offset s' = 0
        ∧ msg_log s' = msg_log s.
Proof.
  intros Hdir Hex Hisdir. unfold refresh_file_list, getattr. rewrite Hdir. simpl.
  rewrite Hex, Hisdir. simpl. eexists. split; [reflexivity |]. simpl.
  split_and!; try reflexivity.
  - apply (@Sorted_merge_sort _ name_le _ name_le_total).
  - apply merge_sort_Permutation.
  - intros f. rewrite merge_sort_Permutation. unfold glob_gguf_files.
    rewrite list_elem_of_fmap. split.
    + intros (d & -> & Hd). apply list_elem_of_filter in Hd as [[H1 H2] Hd].
      by exists d.
    + intros (d & Hd & <- & H1 & H2). exists d. split; [done |].
      apply list_elem_of_filter. done.
Qed.

Lemma refresh_file_list_lists_models_witness :
  attrs example_stopped !! "model_dir" = Some (VStr "/models")
  ∧ ∃ s', refresh_file_list (example_env "") example_stopped = Ok s'
          ∧ Sorted name_le (files s')
          ∧ selected_file_idx s' = 0.
Proof.
  split; [reflexivity |].
  destruct (refresh_file_list_lists_models (example_env "") example_stopped "/models"
              eq_refl eq_refl eq_refl) as (s' & H & Hs & _ & _ & Hi & _).
  exists s'. split_and!; assumption.
Defined.

Lemma set_file_offset_same s : set_file_offset (file_offset s) s = s.
Proof. by destruct s. Qed.

(** What [draw_main] leaves: the same object with the offset moved. *)
Lemma draw_main_eq h w s s' :
  draw_main h w s = Ok s' →
  s' = set_file_offset
         (if selected_file_idx s <? file_offset s then selected_file_idx s
          else if file_offset s + (h - 8 - 2) <=? selected_file_idx s
               then selected_file_idx s - (h - 8 - 2) + 1
               else file_offset s) s.
Proof.
  unfold draw_main. intros H.
  destruct (selected_file_idx s <? file_offset s);
    [| destruct (file_offset s + (h - 8 - 2) <=? selected_file_idx s)];
    outcome_cases H; subst s'; try reflexivity.
  by rewrite set_file_offset_same.
Qed.

(** X17. Once [run] has adjusted the scroll offset for a window of more than
    ten lines, the cursor lies inside the part of the list that is shown,
    and nothing but the offset has changed; an offset that already shows
    the cursor stays. *)
Theorem draw_main_viewport h w s s' :
  10 < h →
  draw_main h w s = Ok s' →
  file_offset s' ≤ selected_file_idx s' < file_offset s' + (h - 10)
  ∧ s' = set_file_offset (file_offset s') s
  ∧ (file_offset s ≤ selected_file_idx s < file_offset s + (h - 10) → s' = s).
Proof.
  intros Hh H. apply draw_main_eq in H. subst s'. simpl.
  destruct (Z.ltb_spec (selected_file_idx s) (file_offset s));
    [| destruct (Z.leb_spec (file_offset s + (h - 8 - 2)) (selected_file_idx s))];
    (split_and!; [lia | lia | reflexivity | intros ?; try lia]).
  apply set_file_offset_same.
Qed.

Lemma draw_main_viewport_witness :
  10 < 24
  ∧ draw_main 24 80 (set_selected_file_idx 20 example_stopped)
    = Ok (set_file_offset 7 (set_selected_file_idx 20 example_stopped))
  ∧ 7 ≤ 20 < 7 + (24 - 10).
Proof.
  assert (H : draw_main 24 80 (set_selected_file_idx 20 example_stopped)
              = Ok (set_file_offset 7 (set_selected_file_idx 20 example_stopped)))
    by reflexivity.
  split; [lia |]. split; [exact H |].
  apply (draw_main_viewport 24 80 _ _ ltac:(lia) H).
Defined.





End ModelList.

(** ** The two views *)

Section Views.
Implicit Types (s : LlamaTUI) (t : text) (a : addstr).

Lemma shown_imap w (l : list text) :
  shown <$> imap (λ i line, {| at_y := 1 + Z.of_nat i; at_x := 2;
                               shown := py_slice_to (w - 3) line |}) l
  = py_slice_to (w - 3) <$> l.
Proof.
  rewrite fmap_imap. apply (imap_const (py_slice_to (w - 3)) l).
Qed.

(** The lines [draw_log_view] keeps: the last [h - 2]. *)
Lemma log_view_lines h (l : list text) :
  2 < h →
  (if h - 2 <? Z.of_nat (length l) then py_slice_from (- (h - 2)) l else l)
  = last_n (Z.to_nat (h - 2)) l.
Proof.
  intros Hh. destruct (Z.ltb_spec (h - 2) (Z.of_nat (length l))) as [Hlt|Hge].
  - unfold py_slice_from, slice_index, last_n.
    replace (- (h - 2) <? 0) with true by (symmetry; apply Z.ltb_lt; lia).
    f_equal. lia.
  - symmetry. apply last_n_short. lia.
Qed.

(** X20. In a window of more than two lines the log view shows the newest
    [h - 2] lines of the buffer, oldest first, each cut to [w - 3]
    characters, on the lines 1, 2, ... below the frame. *)
Theorem draw_log_view_newest h w s :
  2 < h →
  shown <$> draw_log_view h w s
  = py_slice_to (w - 3) <$> last_n (Z.to_nat (h - 2)) (log_buffer s)
  ∧ ∀ (i : nat) a, draw_log_view h w s !! i = Some a →
      at_y a = 1 + Z.of_nat i ∧ at_x a = 2 ∧ at_y a ≤ h - 2.
Proof.
  intros Hh. unfold draw_log_view. cbv zeta. rewrite (log_view_lines h _ Hh).
  split; [apply shown_imap |].
  intros i a Hi. apply list_lookup_imap_Some in Hi as (line & Hl & ->). simpl.
  apply lookup_lt_Some in Hl.
  assert (i < Z.to_nat (h - 2))%nat
    by (eapply Nat.lt_le_trans; [exact Hl | apply last_n_length]).
  lia.
Qed.

Lemma draw_log_view_newest_witness :
  2 < 3
  ∧ shown <$> draw_log_view 3 80 example_serving = [text_ok].
Proof.
  split; [lia |].
  destruct (draw_log_view_newest 3 80 example_serving ltac:(lia)) as [-> _].
  reflexivity.
Defined.

Lemma py_slice_to_length {A} k (l : list A) :
  0 ≤ k → Z.of_nat (length (py_slice_to k l)) ≤ k.
Proof.
  intros Hk. unfold py_slice_to, slice_index. rewrite length_take.
  replace (k <? 0) with false by (symmetry; apply Z.ltb_ge; lia). lia.
Qed.

(** X21. The telemetry view paints at most [h - 2] lines of what
    [get_nvidia_smi_output] returns, the first ones, whatever the height of
    the window; with at least three columns every text it paints starts in
    column 2 and ends before the last column. *)
Theorem draw_smi_view_inside h w r :
  3 ≤ w →
  shown <$> draw_smi_view h w r
  = py_slice_to (w - 3) <$> take (Z.to_nat (h - 2)) (get_nvidia_smi_output r)
  ∧ ∀ (i : nat) a, draw_smi_view h w r !! i = Some a →
      at_y a = 1 + Z.of_nat i ∧ at_y a ≤ h - 2
      ∧ at_x a = 2 ∧ at_x a + Z.of_nat (length (shown a)) < w.
Proof.
  intros Hw. unfold draw_smi_view. cbv zeta. split; [apply shown_imap |].
  intros i a Hi. apply list_lookup_imap_Some in Hi as (line & Hl & ->). simpl.
  apply lookup_lt_Some in Hl. rewrite length_take in Hl.
  pose proof (py_slice_to_length (w - 3) line ltac:(lia)). lia.
Qed.

Lemma draw_smi_view_inside_witness :
  3 ≤ 80
  ∧ shown <$> draw_smi_view 24 80 TimeoutExpired
    = [text_of_string "Error: 'nvidia-smi' command timed out."].
Proof.
  split; [lia |].
  destruct (draw_smi_view_inside 24 80 TimeoutExpired ltac:(lia)) as [-> _].
  reflexivity.
Defined.

Lemma split_lines_cons t : ∃ l ls, split_lines t = l :: ls.
Proof.
  induction t as [|c t (l & ls & IH)]; simpl; [by eexists _, _ |].
  destruct (c =? 10); [by eexists _, _ |]. rewrite IH. by eexists _, _.
Qed.

Lemma join_split_lines t : join_lines (split_lines t) = t.
Proof.
  induction t as [|c t IH]; [done |]. simpl.
  destruct (split_lines_cons t) as (l & ls & Ht). rewrite Ht in *.
  destruct (Z.eqb_spec c 10) as [->|Hc].
  - change (join_lines ([] :: l :: ls)) with ([] ++ 10 :: join_lines (l :: ls)).
    by rewrite IH.
  - destruct ls as [|l' ls]; simpl in *; by rewrite IH.
Qed.

Lemma split_lines_no_newline t : Forall (λ l, 10 ∉ l) (split_lines t).
Proof.
  induction t as [|c t IH]; simpl.
  { constructor; [| constructor]. by apply not_elem_of_nil. }
  destruct (Z.eqb_spec c 10) as [->|Hc].
  - constructor; [apply not_elem_of_nil | done].
  - destruct (split_lines t) as [|l ls].
    + constructor; [| constructor]. rewrite list_elem_of_singleton. congruence.
    + inversion IH as [|? ? Hl Hls]; subst. constructor; [| done].
      rewrite not_elem_of_cons. split; [congruence | done].
Qed.

(** X22. [get_nvidia_smi_output] always returns at least one line, also
    when the command fails in any of the four ways; when the command
    succeeds the lines have no line feed and, joined by line feeds, give
    back the output without the blanks around it. *)
Theorem get_nvidia_smi_output_lines :
  (∀ r, get_nvidia_smi_output r ≠ [])
  ∧ ∀ stdout,
      join_lines (get_nvidia_smi_output (Completed stdout)) = strip stdout
      ∧ Forall (λ l, 10 ∉ l) (get_nvidia_smi_output (Completed stdout)).
Proof.
  split.
  - intros [stdout| |stderr| |msg]; simpl; try done.
    by destruct (split_lines_cons (strip stdout)) as (l & ls & ->).
  - intros stdout. simpl. split;
      [apply join_split_lines | apply split_lines_no_newline].
Qed.
End Views.

(** ** The lines of the log *)

Section CleanLines.
Implicit Types (s : LlamaTUI) (t : text).

Lemma lstrip_head t c : head (lstrip t) = Some c → isspace c = false.
Proof.
  induction t as [|c' t IH]; simpl; [done |].
  destruct (isspace c') eqn:Hc'; [done |]. simpl. by intros [= <-].
Qed.

Lemma lstrip_suffix t : ∃ pre, t = pre ++ lstrip t.
Proof.
  induction t as [|c t [pre IH]]; simpl; [by exists [] |].
  destruct (isspace c).
  - exists (c :: pre). simpl. by f_equal.
  - by exists [].
Qed.

Lemma lstrip_last t : lstrip t ≠ [] → last (lstrip t) = last t.
Proof.
  intros Hne. destruct (lstrip_suffix t) as [pre Ht].
  rewrite Ht at 2. rewrite last_app.
  destruct (last (lstrip t)) eqn:Hl; [done |].
  by apply last_None in Hl.
Qed.

Lemma head_rev {A} (l : list A) : head (rev l) = last l.
Proof.
  induction l as [|x l IH] using rev_ind; [done |].
  by rewrite rev_app_distr, last_snoc.
Qed.

Lemma last_rev {A} (l : list A) : last (rev l) = head l.
Proof. by rewrite <- head_rev, rev_involutive. Qed.

(** What [strip] returns, when it is not empty, has no blank at either
    end. *)
Lemma strip_clean t : strip t ≠ [] → clean_line (strip t).
Proof.
  unfold strip, clean_line. intros Hne. rewrite head_rev, last_rev.
  set (v := lstrip (rev (lstrip t))) in *.
  assert (Hv : v ≠ []) by (intros Hv; rewrite Hv in Hne; done).
  split.
  - subst v. rewrite lstrip_last by done. rewrite last_rev.
    destruct (head (lstrip t)) as [c|] eqn:Hh.
    + exists c. split; [done |]. by eapply lstrip_head.
    + apply head_None in Hh. rewrite Hh in Hv. done.
  - destruct (head v) as [c|] eqn:Hh.
    + exists c. split; [done |]. by eapply lstrip_head.
    + by apply head_None in Hh.
Qed.

Lemma log_append_Forall (P : text → Prop) t buf :
  P t → Forall P buf → Forall P (log_append t buf).
Proof.
  intros Ht Hb. unfold log_append.
  assert (Forall P (buf ++ [t])) as Hall by (apply Forall_app; auto).
  destruct (_ <? _)%nat; [| done].
  destruct (buf ++ [t]); [done |]. by inversion Hall.
Qed.

Lemma log_kept_Forall (P : text → Prop) s s' :
  log_kept s s' → Forall P (log_buffer s) → Forall P (log_buffer s').
Proof. intros [-> | ->]; [done | constructor]. Qed.

Lemma init_log_buffer e disk s : __init__ e disk = Ok s → log_buffer s = [].
Proof.
  unfold __init__. unfold mbind, outcome_bind. intros H.
  destruct (load_settings e (at_load e disk)) as [s1|] eqn:Hload; [| done].
  apply load_settings_log in Hload. rewrite at_load_eq in Hload.
  assert (Hs1 : log_buffer s1 = []) by (destruct Hload as [H1|H1]; exact H1).
  unfold refresh_file_list in H. outcome_cases H; subst s; simpl; exact Hs1.
Qed.

(** X23. In every reachable state every line of the log buffer is not
    empty and has no blank at its beginning nor at its end. *)
Theorem reachable_log_clean s :
  reachable s → Forall clean_line (log_buffer s).
Proof.
  induction 1 as [e disk s Hinit | t s s' _ IH _ Hstep | line s _ IH].
  - apply init_log_buffer in Hinit. rewrite Hinit. constructor.
  - eapply log_kept_Forall; [by eapply run_iteration_log | done].
  - rewrite log_reader_step_kept. unfold kept_line, bytes_decode.
    destruct (bool_decide _) eqn:Hb; [done |].
    apply bool_decide_eq_false in Hb. simpl.
    apply log_append_Forall; [by apply strip_clean | done].
Qed.

Lemma reachable_log_clean_witness :
  ∃ s, reachable s ∧ log_buffer s = [text_hi] ∧ Forall clean_line (log_buffer s).
Proof.
  assert (H0 : reachable example_initial).
  { apply (reachable_init (example_env "") None). reflexivity. }
  pose proof (reachable_log [" "; "h"; "i"; " "]%byte _ H0) as H1.
  eexists. split; [exact H1 |]. split; [reflexivity |].
  apply reachable_log_clean. exact H1.
Defined.
End CleanLines.

(** ** A well-typed configuration *)

Section WellTyped.
Implicit Types (s : LlamaTUI) (e : Env) (c : Configuration).

(** A dictionary with the eleven keys and these values is [attrs_of c]. *)
Lemma attrs_of_eq (m : gmap string value) c :
  dom m = config_keys →
  m !! "model_dir" = Some (VStr (c_model_dir c)) →
  m !! "backend" = Some (VStr (c_backend c)) →
  m !! "host_ip" = Some (VStr (c_host_ip c)) →
  m !! "port" = Some (VStr (c_port c)) →
  m !! "allow_lan" = Some (VBool (c_allow_lan c)) →
  m !! "gpu_layers" = Some (VInt (c_gpu_layers c)) →
  m !! "n_threads" = Some (VInt (c_n_threads c)) →
  m !! "context_size" = Some (VInt (c_context_size c)) →
  m !! "schedule_time" = Some (VStr (c_schedule_time c)) →
  m !! "schedule_active" = Some (VBool (c_schedule_active c)) →
  m !! "llama_server_dir" = Some (VStr (c_llama_server_dir c)) →
  m = attrs_of c.
Proof.
  intros Hd H1 H2 H3 H4 H5 H6 H7 H8 H9 H10 H11. apply map_eq. intros k.
  destruct (decide (k = "model_dir")) as [->|N1]; [by rewrite H1 |].
  destruct (decide (k = "backend")) as [->|N2]; [by rewrite H2 |].
  destruct (decide (k = "host_ip")) as [->|N3]; [by rewrite H3 |].
  destruct (decide (k = "port")) as [->|N4]; [by rewrite H4 |].
  destruct (decide (k = "allow_lan")) as [->|N5]; [by rewrite H5 |].
  destruct (decide (k = "gpu_layers")) as [->|N6]; [by rewrite H6 |].
  destruct (decide (k = "n_threads")) as [->|N7]; [by rewrite H7 |].
  destruct (decide (k = "context_size")) as [->|N8]; [by rewrite H8 |].
  destruct (decide (k = "schedule_time")) as [->|N9]; [by rewrite H9 |].
  destruct (decide (k = "schedule_active")) as [->|N10]; [by rewrite H10 |].
  destruct (decide (k = "llama_server_dir")) as [->|N11]; [by rewrite H11 |].
  transitivity (@None value).
  - apply not_elem_of_dom. rewrite Hd. unfold config_keys.
    rewrite !elem_of_union, !elem_of_singleton. intros Hin.
    destruct_or!; congruence.
  - symmetry. unfold attrs_of. rewrite !lookup_insert_ne by done.
    apply lookup_empty.
Qed.

Lemma insert_attrs_of_dom k v c :
  k ∈ config_keys → dom (<[k := v]> (attrs_of c)) = config_keys.
Proof. intros Hk. rewrite dom_insert_L, attrs_of_dom. by apply config_keys_absorb. Qed.

(** Rebuild [<[k := v]> (attrs_of c)] as the attributes of a record. *)
Ltac rebuild :=
  eexists (Build_Configuration _ _ _ _ _ _ _ _ _ _ _);
  split;
  [ apply attrs_of_eq;
    [ apply insert_attrs_of_dom, (bool_decide_unpack _); by vm_compute
    | first [ apply lookup_insert_eq
            | rewrite lookup_insert_ne by done; reflexivity ] .. ]
  | reflexivity ].

Lemma insert_attrs_of_str k x c :
  k ∈ ["model_dir"; "host_ip"; "port"; "schedule_time"; "llama_server_dir"] →
  ∃ c', <[k := VStr x]> (attrs_of c) = attrs_of c' ∧ c_backend c' = c_backend c.
Proof.
  intros Hk. rewrite !elem_of_cons, elem_of_nil in Hk.
  destruct_or!; try done; subst k; rebuild.
Qed.

Lemma insert_attrs_of_int k n c :
  k ∈ ["gpu_layers"; "n_threads"; "context_size"] →
  ∃ c', <[k := VInt n]> (attrs_of c) = attrs_of c' ∧ c_backend c' = c_backend c.
Proof.
  intros Hk. rewrite !elem_of_cons, elem_of_nil in Hk.
  destruct_or!; try done; subst k; rebuild.
Qed.

Lemma insert_attrs_of_bool k b c :
  k ∈ ["allow_lan"; "schedule_active"] →
  ∃ c', <[k := VBool b]> (attrs_of c) = attrs_of c' ∧ c_backend c' = c_backend c.
Proof.
  intros Hk. rewrite !elem_of_cons, elem_of_nil in Hk.
  destruct_or!; try done; subst k; rebuild.
Qed.

Lemma insert_attrs_of_backend b c :
  ∃ c', <["backend" := VStr b]> (attrs_of c) = attrs_of c' ∧ c_backend c' = b.
Proof. rebuild. Qed.

(** Whatever the call returns is well typed. *)
Local Abbreviation keeps r := (∀ s', r = Ok s' → well_typed s').

Lemma keeps_bind (m : outcome LlamaTUI) (k : LlamaTUI → outcome LlamaTUI) :
  keeps m → (∀ s, well_typed s → keeps (k s)) → keeps (m ≫= k).
Proof.
  intros Hm Hk s' H. destruct m as [s1|x]; [| done].
  exact (Hk s1 (Hm s1 eq_refl) s' H).
Qed.

Lemma well_typed_keys s : well_typed s → keys_ok s.
Proof. intros (Hc & c & Ha & _). split; [done |]. rewrite Ha. apply attrs_of_dom. Qed.

Lemma well_typed_set_msg_log m s : well_typed s → well_typed (set_msg_log m s).
Proof. intros H. exact H. Qed.

Lemma well_typed_setattr_str k x s :
  k ∈ ["model_dir"; "host_ip"; "port"; "schedule_time"; "llama_server_dir"] →
  well_typed s → well_typed (setattr k (VStr x) s).
Proof.
  intros Hk (Hc & c & Ha & Hb). split; [exact Hc |]. simpl. rewrite Ha.
  destruct (insert_attrs_of_str k x c Hk) as (c' & -> & Hb').
  exists c'. by rewrite Hb'.
Qed.

Lemma well_typed_setattr_int k n s :
  k ∈ ["gpu_layers"; "n_threads"; "context_size"] →
  well_typed s → well_typed (setattr k (VInt n) s).
Proof.
  intros Hk (Hc & c & Ha & Hb). split; [exact Hc |]. simpl. rewrite Ha.
  destruct (insert_attrs_of_int k n c Hk) as (c' & -> & Hb').
  exists c'. by rewrite Hb'.
Qed.

Lemma well_typed_setattr_bool k b s :
  k ∈ ["allow_lan"; "schedule_active"] →
  well_typed s → well_typed (setattr k (VBool b) s).
Proof.
  intros Hk (Hc & c & Ha & Hb). split; [exact Hc |]. simpl. rewrite Ha.
  destruct (insert_attrs_of_bool k b c Hk) as (c' & -> & Hb').
  exists c'. by rewrite Hb'.
Qed.

Lemma well_typed_setattr_backend b s :
  b ∈ modes → well_typed s → well_typed (setattr "backend" (VStr b) s).
Proof.
  intros Hk (Hc & c & Ha & Hb). split; [exact Hc |]. simpl. rewrite Ha.
  destruct (insert_attrs_of_backend b c) as (c' & -> & Hb').
  exists c'. by rewrite Hb'.
Qed.

(** Membership in a list literal. *)
Ltac in_list := rewrite !elem_of_cons; auto 12.

(** Membership of a literal key in [config_keys]. *)
Ltac in_config := apply (bool_decide_unpack _); by vm_compute.

(** A state written with setters over a well-typed one is well typed. *)
Ltac wt :=
  repeat first
    [ match goal with H : well_typed _ |- well_typed _ => exact H end
    | apply well_typed_set_msg_log
    | apply well_typed_setattr_str; [in_list |]
    | apply well_typed_setattr_int; [in_list |]
    | apply well_typed_setattr_bool; [in_list |] ].

(** The attributes of a record, key by key. *)
Ltac lookups c :=
  change (attrs_of c !! "model_dir") with (Some (VStr (c_model_dir c))) in *;
  change (attrs_of c !! "backend") with (Some (VStr (c_backend c))) in *;
  change (attrs_of c !! "host_ip") with (Some (VStr (c_host_ip c))) in *;
  change (attrs_of c !! "port") with (Some (VStr (c_port c))) in *;
  change (attrs_of c !! "allow_lan") with (Some (VBool (c_allow_lan c))) in *;
  change (attrs_of c !! "gpu_layers") with (Some (VInt (c_gpu_layers c))) in *;
  change (attrs_of c !! "n_threads") with (Some (VInt (c_n_threads c))) in *;
  change (attrs_of c !! "context_size")
    with (Some (VInt (c_context_size c))) in *;
  change (attrs_of c !! "schedule_time")
    with (Some (VStr (c_schedule_time c))) in *;
  change (attrs_of c !! "schedule_active")
    with (Some (VBool (c_schedule_active c))) in *;
  change (attrs_of c !! "llama_server_dir")
    with (Some (VStr (c_llama_server_dir c))) in *.

(** What a call that ends a branch returns is well typed. *)
Ltac kp :=
  unfold mret, outcome_ret;
  first [ by (intros ? [=]) | intros ? [= <-]; wt ].

Lemma keeps_save e s : well_typed s → keeps (save_settings e s).
Proof.
  intros H s' Hs. rewrite save_settings_keys_ok in Hs by by apply well_typed_keys.
  injection Hs as <-. destruct H as (Hc & c & Ha & Hb).
  destruct (can_write e); simpl;
    (split; [simpl; rewrite Ha; apply attrs_of_dom | by exists c]).
Qed.

Lemma keeps_refresh e s : well_typed s → keeps (refresh_file_list e s).
Proof.
  intros H s' Hs.
  apply refresh_file_list_frame in Hs as [[m ->]|[l ->]]; exact H.
Qed.

Lemma keeps_start_server e s msg s' :
  well_typed s → start_server e s = Ok (msg, s') → well_typed s'.
Proof.
  intros H Hs.
  apply start_server_frame in Hs
    as [->|[(_ & p & ->)|(_ & p & f & _ & ->)]]; exact H.
Qed.

Lemma well_typed_kill_server e s :
  well_typed s → well_typed (kill_server e s).2.
Proof.
  intros H. destruct (kill_server_frame e s) as [-> | [_ ->]]; exact H.
Qed.

Lemma keeps_check_schedule e s : well_typed s → keeps (check_schedule e s).
Proof.
  intros H s' Hs. unfold check_schedule in Hs.
  destruct (start_server e s) as [[msg s1]|] eqn:Hstart;
    outcome_cases Hs; subst; first
      [ exact H | exact (keeps_start_server _ _ _ _ H Hstart) ].
Qed.

Lemma keeps_draw_main h w s : well_typed s → keeps (draw_main h w s).
Proof. intros H s' Hs. apply draw_main_eq in Hs. subst s'. exact H. Qed.

Lemma keeps_edit_server_dir e s : well_typed s → keeps (edit_server_dir e s).
Proof.
  intros H. pose proof H as (Hc & c & Ha & Hb).
  unfold edit_server_dir, getattr, input_string. rewrite Ha. lookups c.
  cbn [mbind outcome_bind py_str mret outcome_ret].
  destruct (String.eqb (getstr e) "");
    match goal with |- context [os_path_isdir e (VStr ?x)] =>
      destruct (os_path_isdir e (VStr x)) as [[|]|] end;
    cbn [mbind outcome_bind as_path];
    first [ kp | apply keeps_save; wt ].
Qed.

Lemma keeps_edit_int_field e key lower done_msg low_msg s :
  key ∈ ["gpu_layers"; "n_threads"; "context_size"] →
  well_typed s →
  keeps (edit_int_field e key lower done_msg low_msg s).
Proof.
  intros Hk H. unfold edit_int_field.
  destruct (getattr s key) as [cur|]; [| kp].
  cbn [mbind outcome_bind].
  destruct (py_str cur) as [default_val|]; [| kp].
  cbn [mbind outcome_bind].
  destruct (py_int _) as [n|]; [| kp].
  destruct (lower <=? n); [| kp].
  assert (well_typed (setattr key (VInt n) s))
    by by apply well_typed_setattr_int.
  destruct (py_str (VInt n)); [apply keeps_save; wt | kp].
Qed.

Lemma keeps_toggle_schedule e s : well_typed s → keeps (toggle_schedule e s).
Proof.
  intros H. pose proof H as (Hc & c & Ha & Hb).
  unfold toggle_schedule, getattr. rewrite Ha. lookups c.
  cbn [mbind outcome_bind truthy].
  destruct (c_schedule_active c).
  - apply keeps_save; wt.
  - destruct (strptime_HM _); [apply keeps_save; wt | kp].
Qed.

Lemma keeps_on_enter e s : well_typed s → keeps (on_enter e s).
Proof.
  intros H. pose proof H as (Hc & c & Ha & Hb).
  unfold on_enter. cbv zeta.
  destruct (active_field s =? 1).
  { unfold getattr, input_string. rewrite Ha. lookups c.
    cbn [mbind outcome_bind py_str mret outcome_ret].
    destruct (String.eqb (getstr e) "");
      match goal with |- context [os_path_isdir e (VStr ?x)] =>
        destruct (os_path_isdir e (VStr x)) as [[|]|] end;
      cbn [mbind outcome_bind as_path]; try kp.
    all: apply keeps_bind; [apply keeps_refresh; wt |];
      intros s1 H1; apply keeps_save; wt. }
  destruct (active_field s =? 2).
  { unfold getattr. rewrite Ha. lookups c. cbn [mbind outcome_bind].
    unfold modes in Hb. rewrite !elem_of_cons, elem_of_nil in Hb.
    destruct_or!; try done; rewrite Hb; simpl;
      apply keeps_save, well_typed_setattr_backend; try exact H;
      unfold modes; in_list. }
  destruct (active_field s =? 3);
    [apply keeps_edit_int_field; [in_list | exact H] |].
  destruct (active_field s =? 4);
    [apply keeps_edit_int_field; [in_list | exact H] |].
  destruct (active_field s =? 5);
    [apply keeps_edit_int_field; [in_list | exact H] |].
  destruct (active_field s =? 6).
  { unfold getattr, input_string. rewrite Ha. lookups c.
    cbn [mbind outcome_bind py_str mret outcome_ret].
    destruct (String.eqb (getstr e) ""); apply keeps_save; wt. }
  destruct (active_field s =? 7).
  { unfold getattr, input_string. rewrite Ha. lookups c.
    cbn [mbind outcome_bind py_str mret outcome_ret].
    destruct (String.eqb (getstr e) ""); apply keeps_save; wt. }
  destruct (active_field s =? 8).
  { unfold getattr. rewrite Ha. lookups c. cbn [mbind outcome_bind].
    apply keeps_save; wt. }
  destruct (active_field s =? 9); [by apply keeps_toggle_schedule |].
  destruct (active_field s =? 10); [by apply keeps_edit_server_dir |].
  kp.
Qed.

Lemma keeps_on_key key e s : well_typed s → keeps (on_key key e s).
Proof.
  intros H. unfold on_key.
  destruct (_ || _).
  { pose proof (well_typed_kill_server e s H) as Hk.
    destruct (kill_server e s) as [m s0]. simpl in Hk.
    intros s' Hs. unfold mbind, outcome_bind in Hs.
    destruct (save_settings e s0) as [s1|] eqn:Hsave; [| done].
    injection Hs as <-. exact (keeps_save _ _ Hk _ Hsave). }
  destruct (_ || _).
  { pose proof (well_typed_kill_server e s H) as Hk.
    destruct (kill_server e s) as [m s0]. simpl in Hk. kp. }
  destruct (_ || _).
  { intros s' Hs. unfold mbind, outcome_bind in Hs.
    destruct (start_server e s) as [[msg s1]|] eqn:Hstart; [| done].
    injection Hs as <-. exact (keeps_start_server _ _ _ _ H Hstart). }
  destruct (_ || _); [destruct (bool_decide _); kp |].
  destruct (_ || _); [kp |].
  destruct (_ || _); [by apply keeps_edit_server_dir |].
  destruct (key =? 9); [kp |].
  destruct (key =? KEY_UP); [destruct (_ && _); kp |].
  destruct (key =? KEY_DOWN); [destruct (_ && _); kp |].
  destruct (key =? 10); [by apply keeps_on_enter |].
  kp.
Qed.

Lemma keeps_run_iteration t s : well_typed s → keeps (run_iteration t s).
Proof.
  intros H. unfold run_iteration. destruct (getmaxyx t) as [h w].
  destruct (show_nvidia_smi s); [destruct (_ =? _); kp |].
  destruct (show_log s); [destruct (_ =? _); kp |].
  destruct (_ || _); [kp |].
  apply keeps_bind; [by apply keeps_draw_main |]. intros s1 H1.
  apply keeps_bind; [by apply keeps_check_schedule |]. intros s2 H2.
  by apply keeps_on_key.
Qed.

(** X24. A well-typed configuration stays well typed along [run]: whatever
    keys are read and whatever the machine answers, when the loop returns
    every attribute still has the type the dictionary literal gives it, the
    backend is one of the three names and the dictionary has its eleven
    keys. No handler stores a value of another type. *)
Theorem run_keeps_well_typed ticks : ∀ s s',
  well_typed s →
  run ticks s = Ok s' →
  well_typed s'.
Proof.
  induction ticks as [|t ticks IH]; intros s s' H Hrun.
  { injection Hrun as <-. exact H. }
  simpl in Hrun. destruct (running s); [| injection Hrun as <-; exact H].
  unfold mbind, outcome_bind in Hrun.
  destruct (run_iteration t s) as [s1|] eqn:Hpass; [| done].
  exact (IH s1 s' (keeps_run_iteration t s H s1 Hpass) Hrun).
Qed.

Lemma run_keeps_well_typed_witness :
  well_typed (set_active_field 7 example_stopped)
  ∧ ∃ s', run [example_tick 10 "9090"; example_tick (ord "s") ""]
            (set_active_field 7 example_stopped) = Ok s'
          ∧ attrs s' !! "port" = Some (VStr "9090")
          ∧ well_typed s'.
Proof.
  assert (Hwt : well_typed (set_active_field 7 example_stopped)).
  { split; [apply attrs_of_dom |]. exists example_config.
    split; [reflexivity | apply list_elem_of_here]. }
  split; [exact Hwt |].
  destruct (run [example_tick 10 "9090"; example_tick (ord "s") ""]
              (set_active_field 7 example_stopped)) as [s'|x] eqn:Hrun;
    [| vm_compute in Hrun; discriminate Hrun].
  exists s'. split; [reflexivity |]. split.
  - vm_compute in Hrun. injection Hrun as <-. reflexivity.
  - exact (run_keeps_well_typed _ (set_active_field 7 example_stopped) s'
             Hwt Hrun).
Defined.

(** What [__init__] builds when the settings file is absent, unreadable or
    does not hold a dictionary: the defaults. *)
Lemma init_defaults e disk :
  (∀ settings, disk ≠ Some (Pickled (ODict settings))) →
  ∃ s, __init__ e disk = Ok s
       ∧ config s = default_config e ∧ attrs s = default_config e.
Proof.
  intros Hd. unfold __init__.
  assert (∃ s1, load_settings e (at_load e disk) = Ok s1
                ∧ config s1 = default_config e
                ∧ attrs s1 = default_config e) as (s1 & -> & Hc1 & Ha1).
  { unfold load_settings. rewrite at_load_eq. simpl.
    destruct disk as [[|[settings|]]|]; [| by destruct (Hd settings) | |];
      (rewrite save_settings_keys_ok by (split; apply config_keys_dom));
      (eexists; split; [reflexivity |]); destruct (can_write e);
      split; reflexivity. }
  unfold mbind, outcome_bind. cbv zeta.
  unfold refresh_file_list, getattr, mbind, outcome_bind.
  destruct (String.eqb (msg_log _) "");
    cbn [attrs set_active_field set_selected_file_idx set_file_offset
         set_files set_msg_log];
    rewrite Ha1;
    change (default_config e !! "model_dir")
      with (Some (VStr (os_path_abspath e DEFAULT_MODELS_DIR)));
    cbn [as_path]; destruct (_ && _);
    (eexists; split; [reflexivity |]); split; assumption.
Qed.

(** X25. Without a usable settings file, and when [psutil.cpu_count] gives
    an integer, [__init__] returns an object whose configuration is the
    dictionary literal, well typed, with the cursor inside the list. *)
Theorem fresh_start_well_typed e disk n :
  cpu_count e = VInt n →
  (∀ settings, disk ≠ Some (Pickled (ODict settings))) →
  ∃ s, __init__ e disk = Ok s
       ∧ attrs s = default_config e
       ∧ well_typed s
       ∧ cursor_ok s.
Proof.
  intros Hcpu Hd. destruct (init_defaults e disk Hd) as (s & Hs & Hc & Ha).
  exists s. split_and!; [exact Hs | exact Ha | | by eapply init_cursor_ok].
  split; [rewrite Hc; apply config_keys_dom |].
  exists {| c_model_dir := os_path_abspath e DEFAULT_MODELS_DIR;
            c_backend := "CPU"; c_host_ip := "0.0.0.0"; c_port := "8080";
            c_allow_lan := false; c_gpu_layers := 0; c_n_threads := n;
            c_context_size := 4096; c_schedule_time := "";
            c_schedule_active := false;
            c_llama_server_dir := os_path_abspath e DEFAULT_LLAMA_SERVER_DIR |}.
  split; [| apply list_elem_of_here].
  rewrite Ha. unfold default_config, attrs_of. rewrite Hcpu. reflexivity.
Qed.

Lemma fresh_start_well_typed_witness :
  cpu_count (example_env "") = VInt 4
  ∧ ∃ s, __init__ (example_env "") (Some Corrupt) = Ok s ∧ well_typed s.
Proof.
  split; [reflexivity |].
  destruct (fresh_start_well_typed (example_env "") (Some Corrupt) 4 eq_refl)
    as (s & Hs & _ & Hwt & _); [intros settings; discriminate |].
  exists s. split; [exact Hs | exact Hwt].
Defined.

Lemma getattr_raises s k x : getattr s k = Raise x → x = AttributeError.
Proof. unfold getattr. destruct (attrs s !! k); congruence. Qed.

Lemma getattr_ok s k v : getattr s k = Ok v → attrs s !! k = Some v.
Proof. unfold getattr. destruct (attrs s !! k); congruence. Qed.

Lemma py_gt0_raises v x : py_gt0 v = Raise x → x = TypeError.
Proof. destruct v; simpl; congruence. Qed.

Lemma py_index_raises {A} (l : list A) i x :
  py_index l i = Raise x → x = IndexError.
Proof. unfold py_index. repeat case_match; congruence. Qed.

(** Split the calls of [build_cmd] in a hypothesis, one after the other. *)
Ltac walk H :=
  repeat (cbv beta iota in H;
          match type of H with
          | context [match getattr ?s ?k with _ => _ end] =>
              destruct (getattr s k) eqn:?
          | context [match py_gt0 ?v with _ => _ end] =>
              destruct (py_gt0 v) eqn:?
          | context [match py_str ?v with _ => _ end] =>
              destruct (py_str v) eqn:?
          | context [if ?b then _ else _] => destruct b
          end).

(** A [ValueError] of [build_cmd] comes from a count that [str] refuses. *)
Lemma build_cmd_value_error s bin model :
  build_cmd s bin model = Raise ValueError →
  ∃ k n, k ∈ ["gpu_layers"; "n_threads"; "context_size"]
         ∧ attrs s !! k = Some (VInt n) ∧ str_fits n = false.
Proof.
  unfold build_cmd, mbind, outcome_bind, mret, outcome_ret. intros H.
  walk H; try discriminate H;
    repeat match goal with
      | E : getattr _ _ = Raise _ |- _ =>
          apply getattr_raises in E; subst; discriminate H
      | E : py_gt0 _ = Raise _ |- _ =>
          apply py_gt0_raises in E; subst; discriminate H
      | E : py_str _ = Raise _ |- _ =>
          apply py_str_raises in E as (_ & n & -> & Hn)
      | E : getattr _ _ = Ok (VInt _) |- _ => apply getattr_ok in E
      end;
    eexists _, _; (split; [| split; [eassumption | eassumption]]); in_list.
Qed.

(** X26. What an exception of [start_server] tells: a [TypeError] means
    that the configuration is not well typed, and a [ValueError] that the
    layer count, the thread count or the context size has more than 4300
    digits. With a well-typed configuration of smaller counts
    [start_server] raises neither. *)
Theorem start_server_raise_causes e s x :
  start_server e s = Raise x →
  (x = TypeError → ¬ well_typed s)
  ∧ (x = ValueError →
     ∃ k n, k ∈ ["gpu_layers"; "n_threads"; "context_size"]
            ∧ attrs s !! k = Some (VInt n) ∧ str_fits n = false).
Proof.
  intros Hraise. unfold start_server in Hraise.
  destruct (bool_decide (is_Some (server_process s))); [done |].
  destruct (bool_decide (files s = [])); [done |].
  unfold mbind, outcome_bind, mret, outcome_ret in Hraise.
  destruct (getattr s "llama_server_dir") as [v|y] eqn:Hv; cycle 1.
  { injection Hraise as <-. apply getattr_raises in Hv as ->. by split. }
  destruct v as [| | |d]; simpl in Hraise;
    try (injection Hraise as <-; split; [| done]; intros _ (_ & c & Ha & _);
         apply getattr_ok in Hv; rewrite Ha in Hv; lookups c; congruence).
  destruct (_ || _); [done |].
  destruct (py_index _ _) as [f|y] eqn:Hidx; cycle 1.
  { injection Hraise as <-. apply py_index_raises in Hidx as ->. by split. }
  destruct (build_cmd s _ _) as [cmd|y] eqn:Hb.
  { destruct (popen e cmd); [destruct (thread_start e) | |]; done. }
  injection Hraise as <-. split.
  - intros -> (_ & c & Ha & _).
    rewrite <- (set_attrs_same s), Ha in Hb.
    destruct (build_cmd_typed c s (os_path_join d LLAMA_SERVER_BIN)
                (resolve e f)) as [[cmd Hok] | [Hval _]]; congruence.
  - intros ->. by eapply build_cmd_value_error.
Qed.

Lemma start_server_raise_causes_witness :
  ∃ s, reachable s
       ∧ start_server example_env_no_cpu s = Raise TypeError
       ∧ ¬ well_typed s.
Proof.
  destruct (init_defaults example_env_no_cpu None) as (s & Hs & Hc & Ha);
    [intros settings; discriminate |].
  assert (Hr : reachable s) by exact (reachable_init _ _ _ Hs).
  assert (Hraise : start_server example_env_no_cpu s = Raise TypeError).
  { vm_compute in Hs. injection Hs as <-. reflexivity. }
  exists s. split; [exact Hr |]. split; [exact Hraise |].
  exact (proj1 (start_server_raise_causes _ s _ Hraise) eq_refl).
Defined.
End WellTyped.
